(** * LeCrunch3 [oldFetch.py]: the acquisition loop [fetchAndSaveFast]

    A shallow embedding of [fetchAndSaveFast] (oldFetch.py, lines 39-140).
    The function talks to three things that are not Python values of its
    own: the oscilloscope driver ([LeCrunch3]), the wall clock
    ([time.time]) and the HDF5 container ([h5py]).  The driver and the
    clock are an oracle ([Env]): each call consumes one tick and the oracle
    says what the call returns or raises at that tick.  The container is a
    value ([H5File]) with the h5py operations the function uses.  Python
    exceptions are an explicit result type, threaded through a small state
    and exception monad. *)

From Stdlib Require Import ZArith String Ascii List Lia Bool.
From Stdlib Require Import Floats.PrimFloat.
From stdpp Require Import base option gmap list strings.

Local Open Scope string_scope.
Local Open Scope list_scope.
Local Open Scope Z_scope.

(** ** Python exceptions and results *)

(** The exception classes that the function, numpy, h5py or the driver can
    raise.  [KeyboardInterrupt] and [SystemExit] derive from
    [BaseException] only, so [except Exception] (line 126) lets them
    through while the bare [except:] (line 132) catches them. *)
Inductive PyExc : Type :=
| KeyboardInterrupt
| SystemExit
| ZeroDivisionError
| ValueError
| IndexError
| TypeError
| KeyError
| UnboundLocalError
| UnicodeDecodeError
| OSError
| ConnectionError
| TimeoutError
| RuntimeError.

Definition is_Exception (e : PyExc) : bool :=
  match e with
  | KeyboardInterrupt | SystemExit => false
  | _ => true
  end.

Inductive Result (A : Type) : Type :=
| Ok (a : A)
| Raise (e : PyExc).
Arguments Ok {A} a.
Arguments Raise {A} e.

Definition is_ok {A} (r : Result A) : bool :=
  match r with Ok _ => true | Raise _ => false end.

(** ** Byte strings *)

(** A Python [bytes] value is a [string] (a list of 8-bit characters).  A
    decoded [str] is kept as its UTF-8 encoding. *)
Module Bytes.

Fixpoint prefix_of (p s : string) : bool :=
    match p, s with
    | EmptyString, _ => true
    | String a p', String b s' => if Ascii.eqb a b then prefix_of p' s' else false
    | String _ _, EmptyString => false
    end.

  (** [p in s] on bytes: [p] occurs as a contiguous run of [s]. *)
Fixpoint contains (p s : string) : bool :=
    prefix_of p s ||
    match s with
    | EmptyString => false
    | String _ s' => contains p s'
    end.

  (** [s.split(sep)] for a one-byte separator: the fields between the
      separators, [n+1] fields for [n] separators. *)
Fixpoint split_go (sep : ascii) (cur : string) (s : string) : list string :=
    match s with
    | EmptyString => [String.rev cur]
    | String a s' =>
        if Ascii.eqb a sep then String.rev cur :: split_go sep EmptyString s'
        else split_go sep (String a cur) s'
    end.

Definition split (sep : ascii) (s : string) : list string :=
    split_go sep EmptyString s.

  (** The bytes [int()] skips at both ends: space and \t \n \v \f \r. *)
Definition is_space (a : ascii) : bool :=
    let n := nat_of_ascii a in
    Nat.eqb n 32 || (Nat.leb 9 n && Nat.leb n 13).

Fixpoint lstrip (s : string) : string :=
    match s with
    | EmptyString => EmptyString
    | String a s' => if is_space a then lstrip s' else s
    end.

Definition strip (s : string) : string :=
    String.rev (lstrip (String.rev (lstrip s))).

Definition digit_of (a : ascii) : option Z :=
    let n := Z.of_nat (nat_of_ascii a) in
    if (48 <=? n) && (n <=? 57) then Some (n - 48) else None.

  (** Decimal digits, where a single underscore may stand between two
      digits. [prev] says that the character before was a digit. *)
Fixpoint digits (acc : Z) (prev : bool) (s : string) : option Z :=
    match s with
    | EmptyString => if prev then Some acc else None
    | String a s' =>
        match digit_of a with
        | Some d => digits (10 * acc + d) true s'
        | None =>
            if Ascii.eqb a "_" && prev then digits acc false s' else None
        end
    end.

  (** [int(b)] for a bytes argument, base 10: optional surrounding white
      space, an optional sign, then the digits.  [None] is [ValueError]. *)
Definition to_int (s : string) : option Z :=
    match strip s with
    | String "+" r => digits 0 false r
    | String "-" r => Z.opp <$> digits 0 false r
    | r => digits 0 false r
    end.

Definition code (a : ascii) : Z := Z.of_nat (nat_of_ascii a).
Definition between (lo hi : Z) (a : ascii) : bool :=
    (lo <=? code a) && (code a <=? hi).
Definition cont (a : ascii) : bool := between 128 191 a.

  (** Well-formed UTF-8 (no overlong forms, no surrogates, nothing above
      U+10FFFF): what [bytes.decode()] accepts. *)
Fixpoint valid_utf8 (s : string) : bool :=
    match s with
    | EmptyString => true
    | String a s1 =>
        if between 0 127 a then valid_utf8 s1
        else
          match s1 with
          | EmptyString => false
          | String b s2 =>
              if between 194 223 a then cont b && valid_utf8 s2
              else
                match s2 with
                | EmptyString => false
                | String c s3 =>
                    if between 224 239 a then
                      (if between 224 224 a then between 160 191 b
                       else if between 237 237 a then between 128 159 b
                       else cont b)
                      && cont c && valid_utf8 s3
                    else
                      match s3 with
                      | EmptyString => false
                      | String d s4 =>
                          between 240 244 a
                          && (if between 240 240 a then between 144 191 b
                              else if between 244 244 a then between 128 143 b
                              else cont b)
                          && cont c && cont d && valid_utf8 s4
                      end
                end
          end
    end.

End Bytes.

(** ** numpy arrays *)

(** One-dimensional arrays are lists; integer samples are [Z], [f8]
    values are binary64 floats.  Element type conversion between the
    sample types ([int8], [int16]) is left out. *)
Module Np.

  (** [np.zeros((d,))]: a negative dimension is a [ValueError]. *)
Definition zeros (d : Z) : Result (list Z) :=
    if d <? 0 then Raise ValueError else Ok (replicate (Z.to_nat d) 0).

  (** The stop position of the slice [a[0:k]] (or [a[:k]]) of an array of
      length [len]: a negative [k] counts from the end, and the result is
      clamped to the array. *)
Definition slice_stop (len : nat) (k : Z) : nat :=
    if k <? 0 then Z.to_nat (Z.of_nat len + k)
    else Nat.min (Z.to_nat k) len.

  (** [a[:k]] *)
Definition slice_to {A} (k : Z) (a : list A) : list A :=
    take (slice_stop (length a) k) a.

  (** [a[0:k] = v]: the value is copied when the lengths agree, broadcast
      when it has one element, and a [ValueError] otherwise. *)
Definition assign_slice_to (k : Z) (a v : list Z) : Result (list Z) :=
    let m := slice_stop (length a) k in
    if Nat.eqb (length v) m then Ok (v ++ drop m a)
    else
      match v with
      | [x] => Ok (replicate m x ++ drop m a)
      | _ => Raise ValueError
      end.

  (** The rows of a flat array cut into pieces of [w] elements. *)
Fixpoint chunks (r w : nat) (a : list Z) : list (list Z) :=
    match r with
    | O => []
    | S r' => take w a :: chunks r' w (drop w a)
    end.

  (** [a.reshape(r, a.size // r)] as line 113 calls it.  For a positive
      [r] the shape is accepted when [r * (size // r) = size].  For a
      negative [r] one of the two dimensions is negative without the shape
      being a single [-1] numpy could infer, so numpy refuses it.  [r = 0]
      does not reach the call (the division raises). *)
Definition reshape_rows (r : Z) (a : list Z) : Result (list (list Z)) :=
    let size := Z.of_nat (length a) in
    if (0 <? r) && (r * (size / r) =? size)
    then Ok (chunks (Z.to_nat r) (Z.to_nat (size / r)) a)
    else Raise ValueError.

  (** An integer index into an axis of [len] entries: a negative index
      counts from the end, anything outside is an [IndexError]. *)
Definition index (len : nat) (i : Z) : Result nat :=
    let j := if i <? 0 then Z.of_nat len + i else i in
    if (0 <=? j) && (j <? Z.of_nat len) then Ok (Z.to_nat j) else Raise IndexError.

  (** [a[n]] *)
Definition item {A} (a : list A) (n : Z) : Result A :=
    match index (length a) n with
    | Raise e => Raise e
    | Ok j =>
        match a !! j with
        | Some x => Ok x
        | None => Raise IndexError
        end
    end.

  (** Floor division [a // b] on Python integers. *)
Definition floordiv (a b : Z) : Result Z :=
    if b =? 0 then Raise ZeroDivisionError else Ok (a / b).

  (** [range(0, n)] *)
Definition range (n : Z) : list Z := seqZ 0 n.

End Np.

(** ** The instrument driver's values *)

(** The fields of the wave descriptor that the function reads. *)
Record WaveDesc : Type := {
  wave_array_count : Z;
  vertical_offset : float;
  vertical_gain : float;
  horiz_offset : float;
  horiz_interval : float
}.

(** What [scope.get_waveform_all(channel)] returns:
    [(wave_desc, trg_times, trg_offsets, wave_array)]. *)
Record Waveform : Type := {
  wf_desc : WaveDesc;
  wf_trg_times : list float;
  wf_trg_offsets : list float;
  wf_array : list Z
}.

(** ** The HDF5 container *)

Inductive Field : Type :=
| VertOffset | VertScale | HorizOffset | HorizScale | TrigOffset | TrigTime.

(** The seven datasets of a channel: [c<n>_samples], of shape
    [(length cs_rows, cs_cols)], with the wave descriptor as its
    attributes, and the six scalar columns. *)
Record ChanStore : Type := {
  cs_cols : Z;
  cs_rows : list (list Z);
  cs_attrs : WaveDesc;
  cs_vert_offset : list float;
  cs_vert_scale : list float;
  cs_horiz_offset : list float;
  cs_horiz_scale : list float;
  cs_trig_offset : list float;
  cs_trig_time : list float
}.

Inductive Handle : Type := Unopened | Opened | Closed.

Record H5File : Type := {
  h5_handle : Handle;
  h5_attrs : gmap string string;
  h5_chan : gmap Z ChanStore;
  h5_seconds : option (list float)
}.

Module H5.

Definition empty : H5File :=
    {| h5_handle := Unopened; h5_attrs := ∅; h5_chan := ∅; h5_seconds := None |}.

  (** h5py resolves an integer index the way numpy does. *)
Definition index (len : nat) (i : Z) : Result nat := Np.index len i.

  (** A fresh dataset is filled with the fill value, zero. *)
Definition new_column (n : Z) : list float := replicate (Z.to_nat n) 0%float.

  (** Lines 81-95: the datasets of one channel.  [create_dataset] refuses
      a name that exists and a negative shape. *)
Definition create_channel (c nevents cols : Z) (d : WaveDesc) (f : H5File)
    : Result H5File :=
    match h5_chan f !! c with
    | Some _ => Raise ValueError
    | None =>
        if (nevents <? 0) || (cols <? 0) then Raise ValueError
        else
          let st := {| cs_cols := cols;
                       cs_rows := replicate (Z.to_nat nevents)
                                    (replicate (Z.to_nat cols) 0);
                       cs_attrs := d;
                       cs_vert_offset := new_column nevents;
                       cs_vert_scale := new_column nevents;
                       cs_horiz_offset := new_column nevents;
                       cs_horiz_scale := new_column nevents;
                       cs_trig_offset := new_column nevents;
                       cs_trig_time := new_column nevents |} in
          Ok {| h5_handle := h5_handle f; h5_attrs := h5_attrs f;
                h5_chan := <[c := st]> (h5_chan f);
                h5_seconds := h5_seconds f |}
    end.

  (** Line 96. *)
Definition create_seconds (nevents : Z) (f : H5File) : Result H5File :=
    match h5_seconds f with
    | Some _ => Raise ValueError
    | None =>
        if nevents <? 0 then Raise ValueError
        else Ok {| h5_handle := h5_handle f; h5_attrs := h5_attrs f;
                   h5_chan := h5_chan f;
                   h5_seconds := Some (new_column nevents) |}
    end.

Definition set_chan (c : Z) (st : ChanStore) (f : H5File) : H5File :=
    {| h5_handle := h5_handle f; h5_attrs := h5_attrs f;
       h5_chan := <[c := st]> (h5_chan f); h5_seconds := h5_seconds f |}.

  (** One row of the sample array brought to [cols] cells: cut, or
      extended with the fill value. *)
Definition fit_row (cols : nat) (row : list Z) : list Z :=
    take cols row ++ replicate (cols - length row) 0.

  (** [dset.resize(size, 1)]: the second axis gets [size] cells.  Its
      maximum is unbounded ([maxshape=(nevents, None)]); existing cells
      within the new shape keep their values, new cells hold the fill
      value. *)
Definition resize_cols (size : Z) (st : ChanStore) : Result ChanStore :=
    if size <? 0 then Raise ValueError
    else Ok {| cs_cols := size;
               cs_rows := fit_row (Z.to_nat size) <$> cs_rows st;
               cs_attrs := cs_attrs st;
               cs_vert_offset := cs_vert_offset st;
               cs_vert_scale := cs_vert_scale st;
               cs_horiz_offset := cs_horiz_offset st;
               cs_horiz_scale := cs_horiz_scale st;
               cs_trig_offset := cs_trig_offset st;
               cs_trig_time := cs_trig_time st |}.

  (** [dset[idx] = row] on the sample array: the row must have the
      dataset's column count, or one element, which is broadcast. *)
Definition write_row (idx : Z) (row : list Z) (st : ChanStore) : Result ChanStore :=
    match index (length (cs_rows st)) idx with
    | Raise e => Raise e
    | Ok j =>
        let put r :=
          Ok {| cs_cols := cs_cols st;
                cs_rows := <[j := r]> (cs_rows st);
                cs_attrs := cs_attrs st;
                cs_vert_offset := cs_vert_offset st;
                cs_vert_scale := cs_vert_scale st;
                cs_horiz_offset := cs_horiz_offset st;
                cs_horiz_scale := cs_horiz_scale st;
                cs_trig_offset := cs_trig_offset st;
                cs_trig_time := cs_trig_time st |} in
        if Z.of_nat (length row) =? cs_cols st then put row
        else
          match row with
          | [x] => put (replicate (Z.to_nat (cs_cols st)) x)
          | _ => Raise TypeError
          end
    end.

Definition column (fld : Field) (st : ChanStore) : list float :=
    match fld with
    | VertOffset => cs_vert_offset st
    | VertScale => cs_vert_scale st
    | HorizOffset => cs_horiz_offset st
    | HorizScale => cs_horiz_scale st
    | TrigOffset => cs_trig_offset st
    | TrigTime => cs_trig_time st
    end.

Definition set_column (fld : Field) (col : list float) (st : ChanStore) : ChanStore :=
    {| cs_cols := cs_cols st; cs_rows := cs_rows st; cs_attrs := cs_attrs st;
       cs_vert_offset := if fld is VertOffset then col else cs_vert_offset st;
       cs_vert_scale := if fld is VertScale then col else cs_vert_scale st;
       cs_horiz_offset := if fld is HorizOffset then col else cs_horiz_offset st;
       cs_horiz_scale := if fld is HorizScale then col else cs_horiz_scale st;
       cs_trig_offset := if fld is TrigOffset then col else cs_trig_offset st;
       cs_trig_time := if fld is TrigTime then col else cs_trig_time st |}.

  (** [dset[idx] = v] on one of the scalar columns. *)
Definition write_scalar (fld : Field) (idx : Z) (v : float) (st : ChanStore)
    : Result ChanStore :=
    match index (length (column fld st)) idx with
    | Raise e => Raise e
    | Ok j => Ok (set_column fld (<[j := v]> (column fld st)) st)
    end.

  (** [f["seconds_from_start"][idx] = v] *)
Definition write_seconds (idx : Z) (v : float) (f : H5File) : Result H5File :=
    match h5_seconds f with
    | None => Raise KeyError
    | Some col =>
        match index (length col) idx with
        | Raise e => Raise e
        | Ok j =>
            Ok {| h5_handle := h5_handle f; h5_attrs := h5_attrs f;
                  h5_chan := h5_chan f;
                  h5_seconds := Some (<[j := v]> col) |}
        end
    end.

Definition with_handle (h : Handle) (f : H5File) : H5File :=
    {| h5_handle := h; h5_attrs := h5_attrs f; h5_chan := h5_chan f;
       h5_seconds := h5_seconds f |}.

Definition with_attrs (a : gmap string string) (f : H5File) : H5File :=
    {| h5_handle := h5_handle f; h5_attrs := a; h5_chan := h5_chan f;
       h5_seconds := h5_seconds f |}.

End H5.

(** ** The world: oracle, log, container and the [current_dim] dictionary *)

Inductive ScopeCall : Type :=
| CConnect (ip : string) (timeout : Z)
| CClear
| CSetSequenceMode (n : Z)
| CGetSettings
| CSetSettings (s : gmap string string)
| CGetChannels
| CGetWavedesc (c : Z)
| CTrigger
| CGetWaveformAll (c : Z).

(** The lines the function prints. *)
Inductive Msg : Type :=
| MsgSequenceNotConfigured          (* "Could not configure sequence mode properly" *)
| MsgUsingSequence (n : Z)          (* "Using sequence mode with {n} traces per aquisition" *)
| MsgChannels (cs : list Z)         (* "Channels: ", channels *)
| MsgFetching (i : Z)               (* "\rSCOPE: fetching event: {i}" *)
| MsgError (e : PyExc)              (* "Error\n" + str(e) *)
| MsgInterrupted                    (* "\rUser interrupted fetch early or something happened..." *)
| MsgClosing.                       (* "Closing the file\r" *)

(** What the function does to the outside, in the order it does it.  A
    driver call is logged when it is made, whether it returns or raises;
    [EvWaveDesc c n] records that the driver returned a wave descriptor for
    channel [c] with [wave_array_count = n]; a container event is logged
    when the operation has succeeded. *)
Inductive Event : Type :=
| EvTime
| EvScope (call : ScopeCall)
| EvWaveDesc (c : Z) (count : Z)
| EvPrint (m : Msg)
| EvOpen (filename : string)
| EvCreate (c : Z) (rows cols : Z)
| EvCreateSeconds (rows : Z)
| EvResize (c : Z) (cols : Z)
| EvWriteRow (c : Z) (idx : Z) (row : list Z)
| EvWriteScalar (c : Z) (fld : Field) (idx : Z) (v : float)
| EvWriteSeconds (idx : Z) (v : float)
| EvClose.

(** The oracle.  The argument [k] of every field is the number of oracle
    calls made before this one. *)
Record Env : Type := {
  clock : nat -> float;
  on_connect : nat -> Result unit;
  on_clear : nat -> Result unit;
  on_set_sequence_mode : nat -> Result unit;
  on_get_settings : nat -> Result (gmap string string);
  on_set_settings : nat -> Result unit;
  on_get_channels : nat -> Result (list Z);
  on_get_wavedesc : nat -> Z -> Result WaveDesc;
  on_trigger : nat -> Result unit;
  on_get_waveform_all : nat -> Z -> Result Waveform;
  on_open : nat -> Result unit
}.

Record World : Type := {
  w_tick : nat;
  w_log : list Event;            (* most recent event first *)
  w_file : H5File;
  w_dim : gmap Z Z               (* current_dim *)
}.

Definition world0 : World :=
  {| w_tick := 0; w_log := []; w_file := H5.empty; w_dim := ∅ |}.

(** ** State and exception monad *)

Definition M (A : Type) : Type := World -> Result A * World.

Definition ret {A} (a : A) : M A := fun w => (Ok a, w).
Definition raise {A} (e : PyExc) : M A := fun w => (Raise e, w).
Definition bind {A B} (m : M A) (k : A -> M B) : M B :=
  fun w =>
    match m w with
    | (Ok a, w') => k a w'
    | (Raise e, w') => (Raise e, w')
    end.

#[global] Instance M_ret : MRet M := @ret.
#[global] Instance M_bind : MBind M := fun A B k m => bind m k.

Definition lift {A} (r : Result A) : M A := fun w => (r, w).

Definition emit (ev : Event) : M unit :=
  fun w => (Ok tt, {| w_tick := w_tick w; w_log := ev :: w_log w;
                      w_file := w_file w; w_dim := w_dim w |}).

(** One question to the oracle. *)
Definition ask {A} (q : nat -> Result A) : M A :=
  fun w => (q (w_tick w), {| w_tick := S (w_tick w); w_log := w_log w;
                             w_file := w_file w; w_dim := w_dim w |}).

Definition print (m : Msg) : M unit := emit (EvPrint m).

Definition scope_call {A} (call : ScopeCall) (q : nat -> Result A) : M A :=
  emit (EvScope call) ;; ask q.

Definition set_file (f : H5File) : M unit :=
  fun w => (Ok tt, {| w_tick := w_tick w; w_log := w_log w;
                      w_file := f; w_dim := w_dim w |}).

(** An operation on the whole file, logged when it succeeds. *)
Definition file_op (op : H5File -> Result H5File) (ev : Event) : M unit :=
  fun w =>
    match op (w_file w) with
    | Ok f => (set_file f ;; emit ev) w
    | Raise e => (Raise e, w)
    end.

(** An operation on the datasets of channel [c]; [f[name]] raises
    [KeyError] when there is no such dataset. *)
Definition chan_op (c : Z) (op : ChanStore -> Result ChanStore) (ev : Event) : M unit :=
  fun w =>
    match h5_chan (w_file w) !! c with
    | None => (Raise KeyError, w)
    | Some st =>
        match op st with
        | Ok st' => (set_file (H5.set_chan c st' (w_file w)) ;; emit ev) w
        | Raise e => (Raise e, w)
        end
    end.

(** [current_dim[c]] *)
Definition get_dim (c : Z) : M Z :=
  fun w =>
    match w_dim w !! c with
    | Some d => (Ok d, w)
    | None => (Raise KeyError, w)
    end.

(** [current_dim[c] = d] *)
Definition set_dim (c d : Z) : M unit :=
  fun w => (Ok tt, {| w_tick := w_tick w; w_log := w_log w;
                      w_file := w_file w; w_dim := <[c := d]> (w_dim w) |}).

Fixpoint for_each {A} (l : list A) (body : A -> M unit) : M unit :=
  match l with
  | [] => ret tt
  | x :: l' => body x ;; for_each l' body
  end.

(** A [for] loop whose body updates a local value. *)
Fixpoint for_fold {A S} (l : list A) (body : A -> S -> M S) (s : S) : M S :=
  match l with
  | [] => ret s
  | x :: l' => s' ← body x s; for_fold l' body s'
  end.

(** ** [fetchAndSaveFast] *)

(** The values fixed before the loop starts. *)
Record Session : Type := {
  nevents : Z;
  sequence_count : Z;
  channels : list Z;
  scopeSets : option (gmap string string);   (* unbound when [b16acq] is false *)
  startTime : float
}.

(** Lines 61-64. *)
Definition confirmed_sequence_count (settings : gmap string string) : Result Z :=
  match settings !! "SEQUENCE" with
  | None => Raise KeyError
  | Some v =>
      if Bytes.contains "ON" v then
        match Bytes.split "," v !! 1%nat with
        | None => Raise IndexError
        | Some field =>
            match Bytes.to_int field with
            | Some n => Ok n
            | None => Raise ValueError
            end
        end
      else Ok 1
  end.

(** Lines 52-54. *)
Definition decode_settings (s : gmap string string) : Result (gmap string string) :=
  if forallb (fun kv => Bytes.valid_utf8 kv.2) (map_to_list s)
  then Ok (<["COMM_FORMAT" := "CFMT DEF9,WORD,BIN"]> s)
  else Raise UnicodeDecodeError.

Section Program.

Variable env : Env.

Definition now : M float := emit EvTime ;; ask (fun k => Ok (clock env k)).

Definition scope_clear : M unit := scope_call CClear (on_clear env).
Definition scope_set_settings (s : gmap string string) : M unit :=
    scope_call (CSetSettings s) (on_set_settings env).
Definition scope_get_settings : M (gmap string string) :=
    scope_call CGetSettings (on_get_settings env).

  (** Lines 45-70: connection, configuration and read-back. *)
Definition configure (nevents_ nsequence : Z) (ip : string) (timeout : Z)
      (b16acq : bool) : M (Session * gmap string string) :=
    t0 ← now;
    scope_call (CConnect ip timeout) (on_connect env) ;;
    scope_clear ;;
    scope_call (CSetSequenceMode nsequence) (on_set_sequence_mode env) ;;
    sets ← (if b16acq then
               s ← scope_get_settings;
               s' ← lift (decode_settings s);
               scope_set_settings s' ;;
               ret (Some s')
             else ret None);
    chans ← scope_call CGetChannels (on_get_channels env);
    settings ← scope_get_settings;
    count ← lift (confirmed_sequence_count settings);
    (if decide (nsequence = count) then ret tt
     else print MsgSequenceNotConfigured) ;;
    (if decide (count = 1) then ret tt
     else print (MsgUsingSequence count)) ;;
    ret ({| nevents := nevents_; sequence_count := count; channels := chans;
            scopeSets := sets; startTime := t0 |}, settings).

  (** Lines 79-95, for one channel. *)
Definition create_channel (ss : Session) (c : Z) : M unit :=
    wave_desc ← scope_call (CGetWavedesc c) (fun k => on_get_wavedesc env k c);
    emit (EvWaveDesc c (wave_array_count wave_desc)) ;;
    d ← lift (Np.floordiv (wave_array_count wave_desc) (sequence_count ss));
    set_dim c d ;;
    file_op (H5.create_channel c (nevents ss) d wave_desc) (EvCreate c (nevents ss) d).

  (** Lines 72-96. *)
Definition create_file (filename : string) (ss : Session)
      (settings : gmap string string) : M unit :=
    ask (on_open env) ;;
    file_op (fun f => Ok (H5.with_attrs settings (H5.with_handle Opened f)))
            (EvOpen filename) ;;
    print (MsgChannels (channels ss)) ;;
    for_each (channels ss) (create_channel ss) ;;
    file_op (H5.create_seconds (nevents ss)) (EvCreateSeconds (nevents ss)).

  (** Lines 45-96. *)
Definition setup (filename : string) (nevents_ nsequence : Z) (ip : string)
      (timeout : Z) (b16acq : bool) : M Session :=
    cfg ← configure nevents_ nsequence ip timeout b16acq;
    create_file filename cfg.1 cfg.2 ;;
    ret cfg.1.

Section Loop.

Variable ss : Session.

Definition write_field (c : Z) (fld : Field) (idx : Z) (v : float) : M unit :=
      chan_op c (H5.write_scalar fld idx v) (EvWriteScalar c fld idx v).

    (** Lines 117-124: sub-event [n] of the batch that starts at [i]. *)
Definition save_subevent (c : Z) (wf : Waveform) (num_samples : Z)
        (traces : list (list Z)) (i n : Z) (scratch : list Z) : M (list Z) :=
      let wave_desc := wf_desc wf in
      let num_samples_toSave := num_samples in
      trace ← lift (Np.item traces n);
      scratch' ← lift (Np.assign_slice_to num_samples scratch
                         (Np.slice_to num_samples_toSave trace));
      chan_op c (H5.write_row (i + n) scratch') (EvWriteRow c (i + n) scratch') ;;
      write_field c VertOffset (i + n) (vertical_offset wave_desc) ;;
      write_field c VertScale (i + n) (vertical_gain wave_desc) ;;
      write_field c HorizOffset (i + n) (horiz_offset wave_desc) ;;
      write_field c HorizScale (i + n) (horiz_interval wave_desc) ;;
      off ← lift (Np.item (wf_trg_offsets wf) n);
      write_field c TrigOffset (i + n) off ;;
      tm ← lift (Np.item (wf_trg_times wf) n);
      write_field c TrigTime (i + n) tm ;;
      ret scratch'.

    (** Lines 110-112. *)
Definition grow (c : Z) (num_samples_toSave : Z) : M unit :=
      d ← get_dim c;
      if d <? num_samples_toSave then
        set_dim c num_samples_toSave ;;
        d' ← get_dim c;
        chan_op c (H5.resize_cols d') (EvResize c d')
      else ret tt.

    (** Lines 113-124: the rows of one channel. *)
Definition save_rows (c : Z) (wf : Waveform) (num_samples i : Z) : M unit :=
      lift (Np.floordiv (Z.of_nat (length (wf_array wf))) (sequence_count ss)) ;;
      traces ← lift (Np.reshape_rows (sequence_count ss) (wf_array wf));
      d ← get_dim c;
      scratch ← lift (Np.zeros d);
      for_fold (Np.range (sequence_count ss))
               (save_subevent c wf num_samples traces i) scratch ;;
      ret tt.

    (** Lines 107-124: one channel of the batch that starts at [i]. *)
Definition save_channel (i : Z) (c : Z) : M unit :=
      wf ← scope_call (CGetWaveformAll c) (fun k => on_get_waveform_all env k c);
      emit (EvWaveDesc c (wave_array_count (wf_desc wf))) ;;
      num_samples ← lift (Np.floordiv (wave_array_count (wf_desc wf))
                            (sequence_count ss));
      grow c num_samples ;;
      save_rows c wf num_samples i.

    (** Lines 104-124 with the channels to save as a parameter. *)
Definition batch_on (chans : list Z) (i : Z) : M unit :=
      t ← now;
      file_op (H5.write_seconds i (PrimFloat.sub t (startTime ss)))
              (EvWriteSeconds i (PrimFloat.sub t (startTime ss))) ;;
      scope_call CTrigger (on_trigger env) ;;
      for_each chans (save_channel i).

    (** Lines 104-124: the body of the inner [try]. *)
Definition batch (i : Z) : M unit := batch_on (channels ss) i.

    (** Lines 101-124: the progress line and the body of the inner [try]. *)
Definition attempt (i : Z) : M unit :=
      print (MsgFetching i) ;; batch i.

    (** Lines 127-129: the handler of [except Exception].  With
        [b16acq = False] the name [scopeSets] was never bound. *)
Definition recover (e : PyExc) : M unit :=
      print (MsgError e) ;;
      scope_clear ;;
      match scopeSets ss with
      | Some s => scope_set_settings s
      | None => raise UnboundLocalError
      end.

    (** How one pass through the body of the [while] ends: at the top of the
        loop with a cursor, or with an exception that leaves the loop. *)
Inductive Pass : Type :=
    | Next (i : Z)
    | Leaves (e : PyExc).

    (** Lines 101-131. *)
Definition iteration (i : Z) (w : World) : Pass * World :=
      match attempt i w with
      | (Ok _, w1) => (Next (i + sequence_count ss), w1)
      | (Raise e, w1) =>
          if is_Exception e then
            match recover e w1 with
            | (Ok _, w2) => (Next i, w2)
            | (Raise e', w2) => (Leaves e', w2)
            end
          else (Leaves e, w1)
      end.

    (** How the [while] ends. *)
Inductive Exit : Type :=
    | Completed (i : Z)               (* [i < nevents] became false *)
    | Aborted (i : Z) (e : PyExc).    (* caught by the bare [except:] *)

Definition cursor (x : Exit) : Z :=
      match x with Completed i | Aborted i _ => i end.

    (** Lines 100-131.  [None]: the loop is still running after [fuel]
        passes. *)
Fixpoint acquire (fuel : nat) (i : Z) (w : World) : option (Exit * World) :=
      if i <? nevents ss then
        match fuel with
        | O => None
        | S fuel' =>
            match iteration i w with
            | (Next i', w') => acquire fuel' i' w'
            | (Leaves e, w') => Some (Aborted i e, w')
            end
        end
      else Some (Completed i, w).

    (** Lines 132-140: the bare [except:] and the [finally] block. *)
Definition finish (x : Exit) : M Z :=
      (match x with
       | Completed _ => ret tt
       | Aborted _ _ => print MsgInterrupted
       end) ;;
      print MsgClosing ;;
      file_op (fun f => Ok (H5.with_handle Closed f)) EvClose ;;
      scope_clear ;;
      ret (cursor x).

End Loop.

  (** Lines 39-140.  [None]: the loop does not end within [fuel] passes. *)
Definition fetchAndSaveFast (fuel : nat) (filename : string)
      (nevents_ nsequence : Z) (ip : string) (timeout : Z) (b16acq : bool)
      (w : World) : option (Result Z * World) :=
    match setup filename nevents_ nsequence ip timeout b16acq w with
    | (Raise e, w1) => Some (Raise e, w1)
    | (Ok ss, w1) =>
        match acquire ss fuel 0 w1 with
        | None => None
        | Some (x, w2) => Some (finish x w2)
        end
    end.

End Program.

(** ** Scripted oracles for concrete runs *)

Fixpoint float_of_nat (n : nat) : float :=
  match n with
  | O => 0%float
  | S m => PrimFloat.add 1%float (float_of_nat m)
  end.

(** A driver that answers every call with fixed values, except at the ticks
    where [fault] names an exception; the clock reads the tick. *)
Definition scripted (settings : gmap string string) (chans : list Z)
    (desc : Z -> WaveDesc) (wave : nat -> Z -> Waveform)
    (fault : nat -> option PyExc) : Env :=
  let answer {A} (a : A) (k : nat) : Result A :=
    match fault k with
    | Some e => Raise e
    | None => Ok a
    end in
  {| clock := float_of_nat;
     on_connect := answer tt;
     on_clear := answer tt;
     on_set_sequence_mode := answer tt;
     on_get_settings := answer settings;
     on_set_settings := answer tt;
     on_get_channels := answer chans;
     on_get_wavedesc := fun k c => answer (desc c) k;
     on_trigger := answer tt;
     on_get_waveform_all := fun k c => answer (wave k c) k;
     on_open := answer tt |}.

Definition flat_desc (count : Z) : WaveDesc :=
  {| wave_array_count := count;
     vertical_offset := 0%float; vertical_gain := 1%float;
     horiz_offset := 0%float; horiz_interval := 1%float |}.

(** A payload of [seq] sub-events of [per] samples each, all samples equal
    to [v]. *)
Definition flat_wave (seq per v : Z) : Waveform :=
  {| wf_desc := flat_desc (seq * per);
     wf_trg_times := replicate (Z.to_nat seq) 0%float;
     wf_trg_offsets := replicate (Z.to_nat seq) 0%float;
     wf_array := replicate (Z.to_nat (seq * per)) v |}.

Definition no_fault : nat -> option PyExc := fun _ => None.
Definition fault_at (k : nat) (e : PyExc) : nat -> option PyExc :=
  fun j => if Nat.eqb j k then Some e else None.

(** ** Properties of states and logs *)

(** The column count of channel [c]'s sample array. *)
Definition cap_of (f : H5File) (c : Z) : option Z :=
  cs_cols <$> h5_chan f !! c.

Definition capacity (w : World) (c : Z) : option Z := cap_of (w_file w) c.

(** No channel's sample array has fewer columns in [w'] than in [w]. *)
Definition grown (w w' : World) : Prop :=
  ∀ c d, capacity w c = Some d → ∃ d', capacity w' c = Some d' ∧ d ≤ d'.

(** The column count of channel [c]'s sample array as the log tells it:
    the size given by the latest creation or resize. *)
Fixpoint capacity_at (log : list Event) (c : Z) : option Z :=
  match log with
  | [] => None
  | EvCreate c' _ cols :: older =>
      if decide (c' = c) then Some cols else capacity_at older c
  | EvResize c' cols :: older =>
      if decide (c' = c) then Some cols else capacity_at older c
  | _ :: older => capacity_at older c
  end.

(** The per-sub-event sample counts the driver has reported for channel
    [c], latest first. *)
Fixpoint observed (seq : Z) (log : list Event) (c : Z) : list Z :=
  match log with
  | [] => []
  | EvWaveDesc c' count :: older =>
      if decide (c' = c) then count / seq :: observed seq older c
      else observed seq older c
  | _ :: older => observed seq older c
  end.

Fixpoint max_list (l : list Z) : option Z :=
  match l with
  | [] => None
  | x :: l' =>
      match max_list l' with
      | None => Some x
      | Some m => Some (Z.max x m)
      end
  end.

(** A row written for channel [c] when the log was [older]: it has as
    many cells as the sample array has columns at that moment, and the cells
    after those of the slice [0:num_samples] are zero. *)
Definition row_ok (seq : Z) (older : list Event) (c : Z) (row : list Z) : Prop :=
  capacity_at older c = Some (Z.of_nat (length row)) ∧
  ∃ num, head (observed seq older c) = Some num ∧
         ∀ k, (Np.slice_stop (length row) num ≤ k < length row)%nat →
              row !! k = Some 0.

Fixpoint writes_ok (seq : Z) (log : list Event) : Prop :=
  match log with
  | [] => True
  | EvWriteRow c _ row :: older => row_ok seq older c row ∧ writes_ok seq older
  | _ :: older => writes_ok seq older
  end.

(** The datasets of one channel have the shapes they were created with:
    [n] rows everywhere, and every sample row has [cs_cols] cells. *)
Definition chan_ok (n : Z) (st : ChanStore) : Prop :=
  0 ≤ cs_cols st ∧
  Z.of_nat (length (cs_rows st)) = n ∧
  Forall (λ r, Z.of_nat (length r) = cs_cols st) (cs_rows st) ∧
  ∀ fld, Z.of_nat (length (H5.column fld st)) = n.

Definition FileOk (ss : Session) (f : H5File) : Prop :=
  (∀ c st, h5_chan f !! c = Some st → chan_ok (nevents ss) st) ∧
  (∀ c, c ∈ channels ss → is_Some (h5_chan f !! c)) ∧
  (∃ col, h5_seconds f = Some col ∧ Z.of_nat (length col) = nevents ss).

Definition FileInv (ss : Session) (w : World) : Prop := FileOk ss (w_file w).

(** The dictionary [current_dim], the container and the log agree, and
    the capacity of a channel is the largest per-sub-event sample count
    reported for it. *)
Definition DimInv (ss : Session) (w : World) : Prop :=
  ∀ c, w_dim w !! c = capacity w c ∧
       capacity_at (w_log w) c = capacity w c ∧
       max_list (observed (sequence_count ss) (w_log w) c) = capacity w c.

Definition StoreInv (ss : Session) (w : World) : Prop :=
  FileInv ss w ∧ DimInv ss w ∧ writes_ok (sequence_count ss) (w_log w).

(** Before the container exists: nothing in it, nothing in
    [current_dim], and only neutral events in the log. *)
Definition Blank (w : World) : Prop :=
  w_file w = H5.empty ∧ w_dim w = ∅ ∧
  (∀ seq c, capacity_at (w_log w) c = None ∧ observed seq (w_log w) c = [] ∧
            writes_ok seq (w_log w)).

(** While the datasets are created (lines 72-96). *)
Definition Creating (ss : Session) (w : World) : Prop :=
  (∀ c st, h5_chan (w_file w) !! c = Some st → chan_ok (nevents ss) st) ∧
  DimInv ss w ∧ writes_ok (sequence_count ss) (w_log w).

(** The invariant, together with growth since [w0]. *)
Definition Good (ss : Session) (w0 w : World) : Prop :=
  StoreInv ss w ∧ grown w0 w.

(** While channel [c] is being saved: the latest reported per-sub-event
    count is [num] and [current_dim[c]] is [d]. *)
Definition Saving (ss : Session) (c num d : Z) (w : World) : Prop :=
  head (observed (sequence_count ss) (w_log w) c) = Some num ∧
  w_dim w !! c = Some d.

Definition Busy (ss : Session) (w0 : World) (c num d : Z) (w : World) : Prop :=
  Good ss w0 w ∧ Saving ss c num d w.

(** The scratch row: as long as [current_dim[c]], zero after the slice
    [0:num]. *)
Definition scratch_ok (num d : Z) (scratch : list Z) : Prop :=
  Z.of_nat (length scratch) = d ∧
  ∀ k, (Np.slice_stop (length scratch) num ≤ k < length scratch)%nat →
       scratch !! k = Some 0.

(** Events that neither change a capacity, nor report a sample count, nor
    write a sample row. *)
Definition neutral (ev : Event) : bool :=
  match ev with
  | EvCreate _ _ _ | EvResize _ _ | EvWaveDesc _ _ | EvWriteRow _ _ _ => false
  | _ => true
  end.

(** The sample rows and the resizes in a log, latest first. *)
Definition row_writes (log : list Event) : list (Z * Z * list Z) :=
  omap (λ ev, match ev with
              | EvWriteRow c idx row => Some (c, idx, row)
              | _ => None
              end) log.

Definition resizes (log : list Event) : list (Z * Z) :=
  omap (λ ev, match ev with
              | EvResize c cols => Some (c, cols)
              | _ => None
              end) log.

(** Where sample rows were written: channel and row index, latest first. *)
Definition rows_of (log : list Event) : list (Z * Z) := fst <$> row_writes log.

(** The rows a batch starting at [i] is to write, in the order of writing:
    for every channel the indices [i .. i + sequence_count - 1]. *)
Definition batch_rows (ss : Session) (i : Z) : list (Z * Z) :=
  c ← channels ss; (λ n, (c, i + n)) <$> Np.range (sequence_count ss).

Definition is_row_write (ev : Event) : bool :=
  match ev with EvWriteRow _ _ _ => true | _ => false end.

Definition is_write (ev : Event) : bool :=
  match ev with EvWriteRow _ _ _ | EvWriteScalar _ _ _ _ => true | _ => false end.

(** The writes into the datasets of the channels, latest first. *)
Definition writes_of (log : list Event) : list Event := filter is_write log.

Definition is_resize (ev : Event) : bool :=
  match ev with EvResize _ _ => true | _ => false end.

(** C1 as it is stated: whenever the body of the inner [try] raises an
    [Exception], the pass ends at the top of the loop with the same
    cursor. *)
Definition retries_every_failed_batch (env : Env) (ss : Session) : Prop :=
  ∀ i w e w1,
    attempt env ss i w = (Raise e, w1) →
    is_Exception e = true →
    ∃ w2, iteration env ss i w = (Next i, w2).

Definition fault_from (k : nat) (e : PyExc) : nat → option PyExc :=
  λ j, if (k <=? j)%nat then Some e else None.

(** The states at the top of the [while] loop that a run passes through:
    [reaches env ss i w j w'] when passes that end at the top of the loop
    lead from cursor [i] in world [w] to cursor [j] in world [w']. *)
Inductive reaches (env : Env) (ss : Session) : Z → World → Z → World → Prop :=
| reaches_here (i : Z) (w : World) : reaches env ss i w i w
| reaches_pass (i : Z) (w : World) (i' : Z) (w' : World) (j : Z) (w'' : World) :
    i < nevents ss →
    iteration env ss i w = (Next i', w') →
    reaches env ss i' w' j w'' →
    reaches env ss i w j w''.

(** A run on two channels in sequence mode, two sub-events per trigger:
    the set-up finds three samples per sub-event, the driver later reports
    [per k] samples per sub-event at tick [k]. *)
Definition demo_settings : gmap string string :=
  {[ "SEQUENCE" := "SEQ ON,2,5E+3" ]}.

Definition demo_env (per : nat → Z) (fault : nat → option PyExc) : Env :=
  scripted demo_settings [1; 2] (λ _, flat_desc 6)
           (λ k _, flat_wave 2 (per k) (Z.of_nat k)) fault.

(** The session and the world that a set-up of [env] leaves. *)
Definition session_of (env : Env) (n nseq : Z) (b16acq : bool) : Session :=
  match setup env "out" n nseq "127.0.0.1" 1000 b16acq world0 with
  | (Ok ss, _) => ss
  | (Raise _, _) =>
      {| nevents := n; sequence_count := nseq; channels := [];
         scopeSets := None; startTime := 0%float |}
  end.

Definition world_of (env : Env) (n nseq : Z) (b16acq : bool) : World :=
  (setup env "out" n nseq "127.0.0.1" 1000 b16acq world0).2.

(** Concrete runs for C1: the third oracle call of the first batch (the
    trigger, tick 12) raises [ConnectionError]; in [c1_env] the driver
    answers again afterwards, in [c1_lost] it keeps raising. *)
Definition c1_env : Env := demo_env (λ _, 3) (fault_at 12 ConnectionError).
Definition c1_ss : Session := session_of c1_env 4 2 true.
Definition c1_w : World := world_of c1_env 4 2 true.
Definition c1_w1 : World := (attempt c1_env c1_ss 0 c1_w).2.
Definition c1_sets : gmap string string :=
  <["COMM_FORMAT" := "CFMT DEF9,WORD,BIN"]> demo_settings.

Definition c1_lost : Env := demo_env (λ _, 3) (fault_from 12 ConnectionError).
Definition c1_lost_ss : Session := session_of c1_lost 4 2 true.
Definition c1_lost_w : World := world_of c1_lost 4 2 true.

(** A concrete run for C3: the set-up finds three samples per sub-event,
    the first batch too, and from the second batch on the driver reports
    four. *)
Definition c3_env : Env :=
  demo_env (λ k, if (k <? 15)%nat then 3 else 4) no_fault.
Definition c3_ss : Session := session_of c3_env 4 2 true.
Definition c3_w1 : World := world_of c3_env 4 2 true.
Definition c3_w : World := (iteration c3_env c3_ss 0 c3_w1).2.
Definition c3_w' : World := (iteration c3_env c3_ss 2 c3_w).2.




(** C4 as it is stated: a pass in which a channel's payload cannot be cut
    into [sequence_count] sub-events has written no sample row when it
    ends. *)
Definition refused_batch_writes_no_row (env : Env) (ss : Session) (i : Z)
    (v : World) : Prop :=
  ∀ c pre post w wf,
    channels ss = pre ++ c :: post →
    (print (MsgFetching i) ;; batch_on env ss pre i) v = (Ok tt, w) →
    on_get_waveform_all env (w_tick w) c = Ok wf →
    wave_array_count (wf_desc wf) = Z.of_nat (length (wf_array wf)) →
    wave_array_count (wf_desc wf) mod sequence_count ss ≠ 0 →
    ∀ r w', attempt env ss i v = (r, w') →
            rows_of (w_log w') = rows_of (w_log v).

(** A concrete run for C4: the payload of the second channel has seven
    samples for two sub-events. *)
Definition c4_env : Env :=
  scripted demo_settings [1; 2] (λ _, flat_desc 6)
    (λ _ c, if decide (c = 2)
            then {| wf_desc := flat_desc 7;
                    wf_trg_times := [0%float; 0%float];
                    wf_trg_offsets := [0%float; 0%float];
                    wf_array := [1; 2; 3; 4; 5; 6; 7] |}
            else flat_wave 2 3 9)
    no_fault.
Definition c4_ss : Session := session_of c4_env 4 2 true.
Definition c4_v : World := world_of c4_env 4 2 true.
Definition c4_w : World :=
  ((print (MsgFetching 0) ;; batch_on c4_env c4_ss [1] 0) c4_v).2.
Definition c4_w' : World := (attempt c4_env c4_ss 0 c4_v).2.
Definition c4_wf : Waveform :=
  {| wf_desc := flat_desc 7;
     wf_trg_times := [0%float; 0%float];
     wf_trg_offsets := [0%float; 0%float];
     wf_array := [1; 2; 3; 4; 5; 6; 7] |}.

(** C5 as it is stated: whatever is written into a row of channel [c],
    only the first [configured] cells (the per-sub-event count found at the
    set-up) receive samples, so every cell after them is zero. *)
Definition copies_configured_length (log : list Event) (c configured : Z) : Prop :=
  ∀ idx row, (c, idx, row) ∈ row_writes log →
             ∀ k, (Z.to_nat configured ≤ k < length row)%nat → row !! k = Some 0.

(** Sub-event [n] of a reshaped payload. *)
Definition sub_event (traces : list (list Z)) (n : Z) : list Z :=
  default [] (traces !! Z.to_nat n).

(** The rows of channel [c] for the sub-events [l] of a batch at [i]: the
    [num] samples of each sub-event followed by zeros up to [d] cells. *)
Definition padded_rows (c i num d : Z) (traces : list (list Z)) (l : list Z)
  : list (Z * Z * list Z) :=
  (λ n, (c, i + n, sub_event traces n ++ replicate (Z.to_nat (d - num)) 0)) <$> l.

(** The scratch row between two sub-events, for [0 <= num <= d]: [d]
    cells, zero from cell [num] on. *)
Definition row_ready (num d : Z) (scratch : list Z) : Prop :=
  length scratch = Z.to_nat d ∧
  drop (Z.to_nat num) scratch = replicate (Z.to_nat (d - num)) 0.

(** A concrete run for C5: in the run of C3, the second batch (cursor 2),
    come to the first channel, whose payload now has four samples per
    sub-event where the set-up found three. *)
Definition c5_x : World :=
  ((print (MsgFetching 2) ;; batch_on c3_env c3_ss [] 2) c3_w).2.
Definition c5_x' : World := (save_channel c3_env c3_ss 2 1 c5_x).2.
Definition c5_wf : Waveform := flat_wave 2 4 17.

(** The indices of [seconds_from_start] that were written, latest first. *)
Definition seconds_of (log : list Event) : list Z :=
  omap (λ ev, match ev with EvWriteSeconds idx _ => Some idx | _ => None end) log.

Definition is_seconds_write (ev : Event) : bool :=
  match ev with EvWriteSeconds _ _ => true | _ => false end.

Fixpoint nondecreasing (l : list float) : bool :=
  match l with
  | x :: (y :: _) as l' => PrimFloat.leb x y && nondecreasing l'
  | _ => true
  end.

(** The run of C6: ten events, two per trigger, two channels, waveforms
    of five samples per sub-event, no error. *)
Definition c6_env : Env :=
  scripted demo_settings [1; 2] (λ _, flat_desc 10)
           (λ _ _, flat_wave 2 5 7) no_fault.
Definition c6_run : option (Result Z * World) :=
  fetchAndSaveFast c6_env 5 "out" 10 2 "127.0.0.1" 1000 true world0.
Definition c6_w : World :=
  match c6_run with
  | Some (_, w) => w
  | None => world0
  end.
Definition c6_seconds : list float := default [] (h5_seconds (w_file c6_w)).

(** A concrete state for C7: one channel with 1000 samples per sub-event
    at the set-up and in the first batch, which fills the rows 0 and 1. *)
Definition c7_env : Env :=
  scripted demo_settings [1] (λ _, flat_desc 2000)
           (λ _ _, flat_wave 2 1000 7) no_fault.
Definition c7_ss : Session := session_of c7_env 4 2 true.
Definition c7_w : World :=
  (iteration c7_env c7_ss 0 (world_of c7_env 4 2 true)).2.
Definition c7_st : ChanStore :=
  default {| cs_cols := 0; cs_rows := []; cs_attrs := flat_desc 0;
             cs_vert_offset := []; cs_vert_scale := [];
             cs_horiz_offset := []; cs_horiz_scale := [];
             cs_trig_offset := []; cs_trig_time := [] |}
          (h5_chan (w_file c7_w) !! 1).

(** C8 as it is stated: however the loop is left, the function returns the
    cursor, not an error. *)
Definition returns_count_on_every_exit (env : Env) (fuel : nat)
    (n nseq : Z) (b16acq : bool) : Prop :=
  ∀ ss w1 x w2,
    setup env "out" n nseq "127.0.0.1" 1000 b16acq world0 = (Ok ss, w1) →
    acquire env ss fuel 0 w1 = Some (x, w2) →
    ∃ w3, fetchAndSaveFast env fuel "out" n nseq "127.0.0.1" 1000 b16acq world0
          = Some (Ok (cursor x), w3).

(** C10 as it is stated: once the set-up has returned, whatever the function
    does it does not raise. *)
Definition never_propagates (env : Env) (fuel : nat)
    (n nseq : Z) (b16acq : bool) : Prop :=
  ∀ ss w1 r w3,
    setup env "out" n nseq "127.0.0.1" 1000 b16acq world0 = (Ok ss, w1) →
    fetchAndSaveFast env fuel "out" n nseq "127.0.0.1" 1000 b16acq world0
    = Some (r, w3) →
    is_ok r = true.

(** The events of the teardown, latest first. *)
Definition teardown_events (x : Exit) : list Event :=
  [EvScope CClear; EvClose; EvPrint MsgClosing] ++
  match x with
  | Completed _ => []
  | Aborted _ _ => [EvPrint MsgInterrupted]
  end.

(** Concrete runs for C8: ten events, two per trigger; the user interrupts
    the third trigger (tick 20), after four events.  In [c8_twice] every
    driver call from then on is interrupted too. *)
Definition c8_env : Env := demo_env (λ _, 3) (fault_at 20 KeyboardInterrupt).
Definition c8_ss : Session := session_of c8_env 10 2 true.
Definition c8_w1 : World := world_of c8_env 10 2 true.
Definition c8_w2 : World :=
  match acquire c8_env c8_ss 5 0 c8_w1 with
  | Some (_, w) => w
  | None => world0
  end.
Definition c8_w3 : World :=
  match fetchAndSaveFast c8_env 5 "out" 10 2 "127.0.0.1" 1000 true world0 with
  | Some (_, w) => w
  | None => world0
  end.

Definition c8_twice : Env := demo_env (λ _, 3) (fault_from 20 KeyboardInterrupt).

(** A concrete run for C10: the connection is lost at the first trigger
    (tick 12) and stays lost. *)
Definition c10_lost : Env := demo_env (λ _, 3) (fault_from 12 ConnectionError).

(** C9 as it is stated: when [nevents] is not a multiple of the batch
    size, the loop never ends by [i < nevents] becoming false. *)
Definition never_completes (env : Env) (ss : Session) (w1 : World) : Prop :=
  nevents ss mod sequence_count ss ≠ 0 →
  ∀ fuel i w, acquire env ss fuel 0 w1 ≠ Some (Completed i, w).

(** A concrete run for C9: three events, two per trigger, and no channel
    switched on. *)
Definition c9_env : Env :=
  scripted demo_settings [] (λ _, flat_desc 6) (λ _ _, flat_wave 2 3 7) no_fault.
Definition c9_ss : Session := session_of c9_env 3 2 true.
Definition c9_w1 : World := world_of c9_env 3 2 true.
Definition c9_w : World :=
  match acquire c9_env c9_ss 5 0 c9_w1 with
  | Some (_, w) => w
  | None => world0
  end.

(** A concrete run for the amended C9: three events, two per trigger, two
    channels. *)
Definition c9_two : Env := demo_env (λ _, 3) no_fault.
Definition c9_two_ss : Session := session_of c9_two 3 2 true.
Definition c9_two_w1 : World := world_of c9_two 3 2 true.

(** ** The set-up, the whole run and the file: further notions *)

(** What an operation on the datasets of channel [c] leaves alone: the
    handle, the file's attributes, the elapsed-seconds column and the
    datasets of every other channel. *)
Definition same_but (c : Z) (f f' : H5File) : Prop :=
  h5_handle f' = h5_handle f ∧ h5_attrs f' = h5_attrs f ∧
  h5_seconds f' = h5_seconds f ∧
  ∀ c', c' ≠ c → h5_chan f' !! c' = h5_chan f !! c'.

(** What the loop leaves alone: the handle, the file's attributes and the
    set of datasets. *)
Definition same_layout (f f' : H5File) : Prop :=
  h5_handle f' = h5_handle f ∧ h5_attrs f' = h5_attrs f ∧
  dom (h5_chan f') = dom (h5_chan f) ∧
  (is_Some (h5_seconds f') ↔ is_Some (h5_seconds f)).

(** The datasets of a channel as lines 81-95 create them: [n] rows of
    [cols] cells and six columns of [n] entries, all holding the fill
    value. *)
Definition fresh_store (n cols : Z) (d : WaveDesc) : ChanStore :=
  {| cs_cols := cols;
     cs_rows := replicate (Z.to_nat n) (replicate (Z.to_nat cols) 0);
     cs_attrs := d;
     cs_vert_offset := H5.new_column n;
     cs_vert_scale := H5.new_column n;
     cs_horiz_offset := H5.new_column n;
     cs_horiz_scale := H5.new_column n;
     cs_trig_offset := H5.new_column n;
     cs_trig_time := H5.new_column n |}.

(** Channel [c] as the loop of lines 78-95 leaves it: fresh datasets, as
    wide as a wave descriptor [wd] that the driver returned for [c] says,
    and the same width in [current_dim]. *)
Definition made (env : Env) (ss : Session) (w : World) (c : Z) : Prop :=
  ∃ k wd, on_get_wavedesc env k c = Ok wd ∧
          h5_chan (w_file w) !! c =
            Some (fresh_store (nevents ss)
                    (wave_array_count wd / sequence_count ss) wd) ∧
          w_dim w !! c = Some (wave_array_count wd / sequence_count ss).

(** The file while that loop runs, when the channels [done] have been dealt
    with. *)
Definition Made (env : Env) (ss : Session) (a : gmap string string)
    (done : list Z) (w : World) : Prop :=
  h5_handle (w_file w) = Opened ∧ h5_attrs (w_file w) = a ∧
  h5_seconds (w_file w) = None ∧
  NoDup done ∧
  dom (h5_chan (w_file w)) = list_to_set done ∧
  ∀ c, c ∈ done → made env ss w c.

(** The file and [current_dim] as the set-up leaves them. *)
Definition Fresh (env : Env) (ss : Session) (w : World) : Prop :=
  h5_handle (w_file w) = Opened ∧
  h5_seconds (w_file w) = Some (replicate (Z.to_nat (nevents ss)) 0%float) ∧
  dom (h5_chan (w_file w)) = list_to_set (channels ss) ∧
  ∀ c, c ∈ channels ss → made env ss w c.

Definition is_open (ev : Event) : bool :=
  match ev with EvOpen _ => true | _ => false end.

Definition is_close (ev : Event) : bool :=
  match ev with EvClose => true | _ => false end.

(** The set-up before [h5py.File] has returned (line 72): since the log was
    [L] nothing was opened or closed, and there is no file. *)
Definition BeforeOpen (L : list Event) (w : World) : Prop :=
  ∃ evs, w_log w = evs ++ L ∧ existsb is_close evs = false ∧
         existsb is_open evs = false ∧ w_file w = H5.empty.

(** The set-up after it: the file was opened, it is open, and it was not
    closed. *)
Definition AfterOpen (L : list Event) (w : World) : Prop :=
  ∃ evs, w_log w = evs ++ L ∧ existsb is_close evs = false ∧
         existsb is_open evs = true ∧ h5_handle (w_file w) = Opened.

(** [seconds_from_start] holds what [col] holds at every index that is not
    a multiple of [seq]. *)
Definition seconds_kept (seq : Z) (col : list float) (f : H5File) : Prop :=
  ∃ col', h5_seconds f = Some col' ∧ length col' = length col ∧
          ∀ j : nat, Z.of_nat j mod seq ≠ 0 → col' !! j = col !! j.

(** A payload the loop can store with a batch size of [seq]: as many samples
    as its descriptor says, a whole number of sub-events, and a trigger time
    and a trigger offset for each of them. *)
Definition payload_ok (seq : Z) (wf : Waveform) : Prop :=
  wave_array_count (wf_desc wf) = Z.of_nat (length (wf_array wf)) ∧
  wave_array_count (wf_desc wf) mod seq = 0 ∧
  seq ≤ Z.of_nat (length (wf_trg_offsets wf)) ∧
  seq ≤ Z.of_nat (length (wf_trg_times wf)).

(** From the oracle call number [k0] on the driver answers: a trigger and a
    clear return, and a waveform request returns a payload the loop can
    store. *)
Definition answers (env : Env) (ss : Session) (k0 : nat) : Prop :=
  ∀ k, (k0 ≤ k)%nat →
    on_trigger env k = Ok tt ∧ on_clear env k = Ok tt ∧
    ∀ c, c ∈ channels ss →
         ∃ wf, on_get_waveform_all env k c = Ok wf ∧
               payload_ok (sequence_count ss) wf.

(** The rows that [k] batches write, the first of them at cursor [i], in
    the order of writing. *)
Fixpoint run_rows (ss : Session) (i : Z) (k : nat) : list (Z * Z) :=
  match k with
  | O => []
  | S k' => batch_rows ss i ++ run_rows ss (i + sequence_count ss) k'
  end.

(** A set-up that fails after the file was opened: the driver times out
    when asked for the wave descriptor of the second channel (tick 10). *)
Definition late_env : Env := demo_env (λ _, 3) (fault_at 10 TimeoutError).
Definition late_w1 : World :=
  (setup late_env "out" 4 2 "127.0.0.1" 1000 true world0).2.

(** A run with [b16acq = False]: the set-up takes the ticks 0 to 8, and the
    first trigger (tick 10) finds the connection lost. *)
Definition plain_env : Env := demo_env (λ _, 3) (fault_at 10 ConnectionError).
Definition plain_ss : Session := session_of plain_env 4 2 false.
Definition plain_w1 : World := world_of plain_env 4 2 false.

(** The session and the world after the set-up of the error-free run of
    [c6_env]: ten events, two per trigger. *)
Definition full_ss : Session := session_of c6_env 10 2 true.
Definition full_w1 : World := world_of c6_env 10 2 true.

(** ** What the datasets hold *)

(** The datasets [st] after lines 118-124 have stored an event at entry
    [j]. *)
Definition store_event (j : nat) (row : list Z) (wd : WaveDesc)
    (off tm : float) (st : ChanStore) : ChanStore :=
  {| cs_cols := cs_cols st;
     cs_rows := <[j := row]> (cs_rows st);
     cs_attrs := cs_attrs st;
     cs_vert_offset := <[j := vertical_offset wd]> (cs_vert_offset st);
     cs_vert_scale := <[j := vertical_gain wd]> (cs_vert_scale st);
     cs_horiz_offset := <[j := horiz_offset wd]> (cs_horiz_offset st);
     cs_horiz_scale := <[j := horiz_interval wd]> (cs_horiz_scale st);
     cs_trig_offset := <[j := off]> (cs_trig_offset st);
     cs_trig_time := <[j := tm]> (cs_trig_time st) |}.

(** Entry [j] of the datasets [st] holds the sample row [row], the four
    scalars of the wave descriptor [wd], and the trigger offset [off] and
    the trigger time [tm]. *)
Definition holds (st : ChanStore) (j : nat) (row : list Z) (wd : WaveDesc)
    (off tm : float) : Prop :=
  cs_rows st !! j = Some row ∧
  cs_vert_offset st !! j = Some (vertical_offset wd) ∧
  cs_vert_scale st !! j = Some (vertical_gain wd) ∧
  cs_horiz_offset st !! j = Some (horiz_offset wd) ∧
  cs_horiz_scale st !! j = Some (horiz_interval wd) ∧
  cs_trig_offset st !! j = Some off ∧
  cs_trig_time st !! j = Some tm.

(** Entry [j] is in [st'] what it is in [st], its sample row brought to
    [cols] cells. *)
Definition kept (cols : Z) (st st' : ChanStore) (j : nat) : Prop :=
  cs_rows st' !! j = H5.fit_row (Z.to_nat cols) <$> cs_rows st !! j ∧
  ∀ fld, H5.column fld st' !! j = H5.column fld st !! j.

(** The datasets [st'] of a channel hold the batch at cursor [i] with the
    payload [wf], and otherwise what [st] holds: the sample array is as wide
    as the wider of [st] and the payload's sub-events; entry [i + n] holds
    sub-event [n], padded with zeros to that width, the four scalars of the
    payload's descriptor and the trigger offset and time number [n]; every
    entry outside the batch is as in [st], its row padded to the width. *)
Definition stored (ss : Session) (i : Z) (wf : Waveform) (st st' : ChanStore)
    : Prop :=
  let num := wave_array_count (wf_desc wf) / sequence_count ss in
  let d := Z.max (cs_cols st) num in
  let traces := Np.chunks (Z.to_nat (sequence_count ss)) (Z.to_nat num)
                          (wf_array wf) in
  cs_cols st' = d ∧
  (∀ n, 0 ≤ n < sequence_count ss →
     ∃ off tm,
       wf_trg_offsets wf !! Z.to_nat n = Some off ∧
       wf_trg_times wf !! Z.to_nat n = Some tm ∧
       holds st' (Z.to_nat (i + n))
             (sub_event traces n ++ replicate (Z.to_nat (d - num)) 0)
             (wf_desc wf) off tm) ∧
  (∀ j : nat, ¬ (i ≤ Z.of_nat j < i + sequence_count ss) → kept d st st' j).

(** ** The command line (lines 143-172) *)

(** The options after [parser.parse_args()]; an option that is not given
    has optparse's default. *)
Record Options : Type := {
  opt_ip : string;          (* -i, default "127.0.0.1" *)
  opt_nevents : Z;          (* -n, default 1000 *)
  opt_nsequence : Z;        (* -s, default 1 *)
  opt_time : bool           (* --time, default False *)
}.

(** The lines the script prints itself. *)
Inductive Line : Type :=
| LineSaving (filename : string)
    (* "Saving to file {filename}" *)
| LineCompleted (count : Z) (elapsed : float)
    (* "Completed {count} events in {elapsed:.3f} seconds." *)
| LineAveraged (elapsed : float) (count : Z).
    (* "Averaged {elapsed/count:.5f} seconds per acquisition." *)

(** How the script ends. *)
Inductive Ending : Type :=
| ExitUsage             (* sys.exit(parser.format_help()) *)
| ExitNotPositive       (* sys.exit("Arguments to -s or -n must be positive") *)
| Traceback (e : PyExc) (* an exception that nothing catches *)
| Done (count : Z).     (* the end of the script *)

(** Lines 170-172. *)
Definition summary (count : Z) (elapsed : float) : list Line :=
  if 0 <? count then [LineCompleted count elapsed; LineAveraged elapsed count]
  else [].

Section Script.

Variable env : Env.

(** [time.strftime("_%d_%b_%Y_%H:%M:%S", time.localtime())] as a function
    of the clock reading. *)
Variable strftime : float → string.

(** Lines 162-164. *)
Definition output_name (opts : Options) (prefix : string) : M string :=
    if opt_time opts then
      t ← now env;
      ret (prefix +:+ strftime t +:+ ".h5")
    else ret (prefix +:+ ".h5").

(** Lines 162-167: the file name and the start time. *)
Definition prologue (opts : Options) (prefix : string) : M (string * float) :=
    filename ← output_name opts prefix;
    start ← now env;
    ret (filename, start).

(** Lines 156-172, after the options are parsed.  [None]: the loop of
    [fetchAndSaveFast] does not end within [fuel] passes. *)
Definition main (fuel : nat) (opts : Options) (args : list string) (w : World)
    : option (Ending * list Line * World) :=
    match args with
    | [] => Some (ExitUsage, [], w)
    | prefix :: _ =>
        if (opt_nevents opts <? 1) || (opt_nsequence opts <? 1)
        then Some (ExitNotPositive, [], w)
        else
          match prologue opts prefix w with
          | (Raise e, w1) => Some (Traceback e, [], w1)
          | (Ok (filename, start), w1) =>
              match fetchAndSaveFast env fuel filename (opt_nevents opts)
                      (opt_nsequence opts) (opt_ip opts) 1000 true w1 with
              | None => None
              | Some (Raise e, w2) => Some (Traceback e, [LineSaving filename], w2)
              | Some (Ok count, w2) =>
                  match now env w2 with
                  | (Raise e, w3) =>
                      Some (Traceback e, [LineSaving filename], w3)
                  | (Ok t, w3) =>
                      Some (Done count,
                            LineSaving filename
                              :: summary count (PrimFloat.sub t start),
                            w3)
                  end
              end
          end
    end.

End Script.

(** A script run: ten events, two per trigger, and the user interrupts the
    third trigger (the script reads the clock once before the function
    starts, so this is tick 21). *)
Definition script_env : Env := demo_env (λ _, 3) (fault_at 21 KeyboardInterrupt).
Definition script_opts : Options :=
  {| opt_ip := "127.0.0.1"; opt_nevents := 10; opt_nsequence := 2;
     opt_time := false |}.
Definition script_stamp : float → string := λ _, "_01_Jan_2021_00:00:00".
Definition script_w1 : World :=
  (prologue script_env script_stamp script_opts "run" world0).2.
Definition script_ss : Session :=
  match setup script_env "run.h5" 10 2 "127.0.0.1" 1000 true script_w1 with
  | (Ok ss, _) => ss
  | (Raise _, _) =>
      {| nevents := 10; sequence_count := 2; channels := [];
         scopeSets := None; startTime := 0%float |}
  end.
Definition script_ws : World :=
  (setup script_env "run.h5" 10 2 "127.0.0.1" 1000 true script_w1).2.
Definition script_w2 : World :=
  match acquire script_env script_ss 5 0 script_ws with
  | Some (_, w) => w
  | None => world0
  end.

(** ** Whole runs: what the file holds, and a trigger that is lost *)

(** Entry [j] of the datasets [st] holds sub-event [n] of the payload [wf]:
    its samples followed by zeros up to the width of the sample array, the
    four scalars of the payload's descriptor, and the trigger offset and time
    number [n]. *)
Definition event_stored (ss : Session) (wf : Waveform) (n : Z)
    (st : ChanStore) (j : nat) : Prop :=
  let num := wave_array_count (wf_desc wf) / sequence_count ss in
  let traces := Np.chunks (Z.to_nat (sequence_count ss)) (Z.to_nat num)
                          (wf_array wf) in
  num ≤ cs_cols st ∧
  ∃ off tm,
    wf_trg_offsets wf !! Z.to_nat n = Some off ∧
    wf_trg_times wf !! Z.to_nat n = Some tm ∧
    holds st j (sub_event traces n ++ replicate (Z.to_nat (cs_cols st - num)) 0)
          (wf_desc wf) off tm.

(** The file holds the first [k] batches of a run without retries whose
    first pass began at the oracle call number [t0].  Batch [b] makes the
    calls [t0 + b * (2 + len(channels))] (the clock), the next one (the
    trigger) and then one per channel: [seconds_from_start] holds the clock
    reading less the start time at the first index of the batch, and for
    every channel the events [b * sequence_count + n] are the sub-events of
    the payload returned for the channel in that batch. *)
Definition filled (env : Env) (ss : Session) (t0 : nat) (k : nat) (w : World)
    : Prop :=
  (∃ col, h5_seconds (w_file w) = Some col ∧
          ∀ b : nat, (b < k)%nat →
            col !! Z.to_nat (Z.of_nat b * sequence_count ss)
            = Some (PrimFloat.sub
                      (clock env (t0 + b * (2 + length (channels ss))))
                      (startTime ss))) ∧
  ∀ (b p : nat) c, (b < k)%nat → channels ss !! p = Some c →
    ∃ wf st,
      on_get_waveform_all env (t0 + b * (2 + length (channels ss)) + 2 + p) c
      = Ok wf ∧
      h5_chan (w_file w) !! c = Some st ∧
      ∀ n, 0 ≤ n < sequence_count ss →
           event_stored ss wf n st
             (Z.to_nat (Z.of_nat b * sequence_count ss + n)).

(** From the oracle call number [k0] on, the instrument accepts a clear and
    its settings but every trigger fails with an [Exception]. *)
Definition trigger_dead (env : Env) (k0 : nat) : Prop :=
  ∀ k, (k0 ≤ k)%nat →
    (∃ e, on_trigger env k = Raise e ∧ is_Exception e = true) ∧
    on_clear env k = Ok tt ∧ on_set_settings env k = Ok tt.

(** An instrument that answers everything but a trigger, which times
    out. *)
Definition deaf_env : Env :=
  {| clock := float_of_nat;
     on_connect := λ _, Ok tt;
     on_clear := λ _, Ok tt;
     on_set_sequence_mode := λ _, Ok tt;
     on_get_settings := λ _, Ok demo_settings;
     on_set_settings := λ _, Ok tt;
     on_get_channels := λ _, Ok [1; 2];
     on_get_wavedesc := λ _ _, Ok (flat_desc 6);
     on_trigger := λ _, Raise TimeoutError;
     on_get_waveform_all := λ _ _, Ok (flat_wave 2 3 7);
     on_open := λ _, Ok tt |}.
Definition deaf_ss : Session := session_of deaf_env 4 2 true.
Definition deaf_w1 : World := world_of deaf_env 4 2 true.

(** ** Completed batches, and further concrete runs *)

(** The number of passes in which the body of the inner [try] completed,
    among the passes that the loop makes from cursor [i] in world [w] (at
    most [fuel] of them). *)
Fixpoint batches_done (env : Env) (ss : Session) (fuel : nat) (i : Z)
    (w : World) : nat :=
  if i <? nevents ss then
    match fuel with
    | O => 0%nat
    | S fuel' =>
        ((if is_ok (attempt env ss i w).1 then 1 else 0) +
         match iteration env ss i w with
         | (Next i', w') => batches_done env ss fuel' i' w'
         | (Leaves _, _) => 0
         end)%nat
    end
  else 0%nat.

(** The run of [c1_env] to its end: the first pass fails at the trigger and
    is retried, then two batches complete. *)
Definition x6_w : World :=
  match acquire c1_env c1_ss 5 0 c1_w with
  | Some (_, w) => w
  | None => world0
  end.

(** A concrete run for the amended C4: the payload of the second channel
    has nine samples for two sub-events, and its descriptor says so, where
    the set-up found three samples per sub-event. *)
Definition c4_wide_wf : Waveform :=
  {| wf_desc := flat_desc 9;
     wf_trg_times := [0%float; 0%float];
     wf_trg_offsets := [0%float; 0%float];
     wf_array := [1; 2; 3; 4; 5; 6; 7; 8; 9] |}.
Definition c4_wide : Env :=
  scripted demo_settings [1; 2] (λ _, flat_desc 6)
    (λ _ c, if decide (c = 2) then c4_wide_wf else flat_wave 2 3 9)
    no_fault.
Definition c4_wide_ss : Session := session_of c4_wide 4 2 true.
Definition c4_wide_v : World := world_of c4_wide 4 2 true.
Definition c4_wide_w : World :=
  ((print (MsgFetching 0) ;; batch_on c4_wide c4_wide_ss [1] 0) c4_wide_v).2.
Definition c4_wide_w' : World := (attempt c4_wide c4_wide_ss 0 c4_wide_v).2.

(** ** Reasoning rules *)

(** [hoare P m Q]: from a world in [P], whatever [m] returns or raises
    satisfies [Q]. *)
Definition hoare {A} (P : World → Prop) (m : M A)
    (Q : Result A → World → Prop) : Prop :=
  ∀ w r w', P w → m w = (r, w') → Q r w'.

(** [keeps P m]: [m] keeps [P], also when it raises. *)
Definition keeps {A} (P : World → Prop) (m : M A) : Prop :=
  hoare P m (λ _, P).

Lemma bind_run {A B} (m : M A) (k : A → M B) (w : World) :
  (m ≫= k) w = match m w with
               | (Ok a, w') => k a w'
               | (Raise e, w') => (Raise e, w')
               end.
Proof. reflexivity. Qed.

Lemma bind_ok {A B} (m : M A) (k : A → M B) (w w' : World) (b : B) :
  (m ≫= k) w = (Ok b, w') →
  ∃ a w1, m w = (Ok a, w1) ∧ k a w1 = (Ok b, w').
Proof.
  rewrite bind_run. destruct (m w) as [[a|e] w1]; [eauto | discriminate].
Qed.

Lemma bind_raise {A B} (m : M A) (k : A → M B) (w w' : World) (e : PyExc) :
  (m ≫= k) w = (Raise e, w') →
  m w = (Raise e, w') ∨ ∃ a w1, m w = (Ok a, w1) ∧ k a w1 = (Raise e, w').
Proof.
  rewrite bind_run. destruct (m w) as [[a|e1] w1]; [eauto | left; congruence].
Qed.

Lemma hoare_bind {A B} (P : World → Prop) (m : M A) (k : A → M B)
    (Q : Result A → World → Prop) (R : Result B → World → Prop) :
  hoare P m Q →
  (∀ a, hoare (Q (Ok a)) (k a) R) →
  (∀ e w, Q (Raise e) w → R (Raise e) w) →
  hoare P (m ≫= k) R.
Proof.
  intros Hm Hk He w r w' HP. rewrite bind_run.
  destruct (m w) as [[a|e] w1] eqn:E; specialize (Hm _ _ _ HP E).
  - intros H. exact (Hk a _ _ _ Hm H).
  - intros [= <- <-]. auto.
Qed.

Lemma keeps_run {A} (P : World → Prop) (m : M A) (w : World) (r : Result A)
    (w' : World) :
  keeps P m → P w → m w = (r, w') → P w'.
Proof. intros K HP E. exact (K _ _ _ HP E). Qed.

Lemma hoare_weaken {A} (P P' : World → Prop) (m : M A)
    (Q Q' : Result A → World → Prop) :
  hoare P' m Q' → (∀ w, P w → P' w) → (∀ r w, Q' r w → Q r w) → hoare P m Q.
Proof. intros H HP HQ w r w' Hw E. eauto. Qed.

Lemma keeps_bind {A B} (P : World → Prop) (m : M A) (k : A → M B) :
  keeps P m → (∀ a, keeps P (k a)) → keeps P (m ≫= k).
Proof. intros Hm Hk. eapply hoare_bind; eauto. Qed.

Lemma keeps_ret {A} (P : World → Prop) (a : A) : keeps P (mret a).
Proof. intros w r w' HP [= <- <-]. exact HP. Qed.

Lemma keeps_ret' {A} (P : World → Prop) (a : A) : keeps P (ret a).
Proof. intros w r w' HP [= <- <-]. exact HP. Qed.

Lemma keeps_raise {A} (P : World → Prop) (e : PyExc) : keeps P (@raise A e).
Proof. intros w r w' HP [= <- <-]. exact HP. Qed.

Lemma keeps_lift {A} (P : World → Prop) (x : Result A) : keeps P (lift x).
Proof. intros w r w' HP [= <- <-]. exact HP. Qed.

Lemma keeps_for_each {A} (P : World → Prop) (l : list A) (body : A → M unit) :
  (∀ x, keeps P (body x)) → keeps P (for_each l body).
Proof.
  intros Hb. induction l as [|x l IH]; simpl.
  - apply keeps_ret'.
  - apply keeps_bind; auto.
Qed.

Lemma keeps_for_fold {A S} (P : World → Prop) (l : list A)
    (body : A → S → M S) (s : S) :
  (∀ x s, keeps P (body x s)) → keeps P (for_fold l body s).
Proof.
  intros Hb. revert s. induction l as [|x l IH]; intros s; simpl.
  - apply keeps_ret'.
  - apply keeps_bind; auto.
Qed.

(** *** The primitive actions *)

Lemma emit_run (ev : Event) (w : World) :
  emit ev w = (Ok tt, {| w_tick := w_tick w; w_log := ev :: w_log w;
                         w_file := w_file w; w_dim := w_dim w |}).
Proof. reflexivity. Qed.

Lemma ask_run {A} (q : nat → Result A) (w : World) :
  ask q w = (q (w_tick w), {| w_tick := S (w_tick w); w_log := w_log w;
                              w_file := w_file w; w_dim := w_dim w |}).
Proof. reflexivity. Qed.

Lemma scope_call_run {A} (call : ScopeCall) (q : nat → Result A) (w : World) :
  scope_call call q w =
  (q (w_tick w), {| w_tick := S (w_tick w); w_log := EvScope call :: w_log w;
                    w_file := w_file w; w_dim := w_dim w |}).
Proof. reflexivity. Qed.

Lemma now_run (env : Env) (w : World) :
  now env w =
  (Ok (clock env (w_tick w)),
   {| w_tick := S (w_tick w); w_log := EvTime :: w_log w;
      w_file := w_file w; w_dim := w_dim w |}).
Proof. reflexivity. Qed.

Lemma chan_op_run (c : Z) (op : ChanStore → Result ChanStore) (ev : Event)
    (w : World) :
  chan_op c op ev w =
  match h5_chan (w_file w) !! c with
  | None => (Raise KeyError, w)
  | Some st =>
      match op st with
      | Ok st' => (Ok tt, {| w_tick := w_tick w; w_log := ev :: w_log w;
                             w_file := H5.set_chan c st' (w_file w);
                             w_dim := w_dim w |})
      | Raise e => (Raise e, w)
      end
  end.
Proof.
  unfold chan_op. destruct (h5_chan (w_file w) !! c) as [st|]; [|done].
  destruct (op st); reflexivity.
Qed.

Lemma file_op_run (op : H5File → Result H5File) (ev : Event) (w : World) :
  file_op op ev w =
  match op (w_file w) with
  | Ok f => (Ok tt, {| w_tick := w_tick w; w_log := ev :: w_log w;
                       w_file := f; w_dim := w_dim w |})
  | Raise e => (Raise e, w)
  end.
Proof. unfold file_op. destruct (op (w_file w)); reflexivity. Qed.

(** A property of the container alone is kept by whatever leaves the
    container alone. *)
Section FileOnly.

Variable F : H5File → Prop.
Lemma file_only_emit (ev : Event) : keeps (λ w, F (w_file w)) (emit ev).
Proof. intros w r w' HP [= <- <-]. exact HP. Qed.

Lemma file_only_ask {A} (q : nat → Result A) : keeps (λ w, F (w_file w)) (ask q).
Proof. intros w r w' HP [= <- <-]. exact HP. Qed.

Lemma file_only_scope_call {A} (call : ScopeCall) (q : nat → Result A) :
  keeps (λ w, F (w_file w)) (scope_call call q).
Proof. intros w r w' HP. rewrite scope_call_run. intros [= <- <-]. exact HP. Qed.

Lemma file_only_get_dim (c : Z) : keeps (λ w, F (w_file w)) (get_dim c).
Proof.
  intros w r w' HP. unfold get_dim.
  destruct (w_dim w !! c); intros [= <- <-]; exact HP.
Qed.

Lemma file_only_set_dim (c d : Z) : keeps (λ w, F (w_file w)) (set_dim c d).
Proof. intros w r w' HP [= <- <-]. exact HP. Qed.

Lemma file_only_chan_op (c : Z) (op : ChanStore → Result ChanStore) (ev : Event) :
  (∀ f st st', F f → h5_chan f !! c = Some st → op st = Ok st' →
               F (H5.set_chan c st' f)) →
  keeps (λ w, F (w_file w)) (chan_op c op ev).
Proof.
  intros Hop w r w' HP. rewrite chan_op_run.
  destruct (h5_chan (w_file w) !! c) as [st|] eqn:E.
  - destruct (op st) as [st'|e] eqn:E'; intros [= <- <-]; [|exact HP].
    simpl. eauto.
  - intros [= <- <-]. exact HP.
Qed.

Lemma file_only_file_op (op : H5File → Result H5File) (ev : Event) :
  (∀ f f', F f → op f = Ok f' → F f') → keeps (λ w, F (w_file w)) (file_op op ev).
Proof.
  intros Hop w r w' HP. rewrite file_op_run.
  destruct (op (w_file w)) as [f'|e] eqn:E; intros [= <- <-]; [|exact HP].
  simpl. eauto.
Qed.

End FileOnly.

(** *** Shapes are kept by the container's operations *)

Lemma index_ok (len : nat) (i : Z) (j : nat) :
  Np.index len i = Ok j → (j < len)%nat.
Proof.
  unfold Np.index.
  destruct ((0 <=? _) && (_ <? _)) eqn:E; [|discriminate].
  intros [= <-]. apply andb_true_iff in E as [E1 E2]. lia.
Qed.

Lemma index_in_range (len : nat) (i : Z) :
  0 ≤ i → i < Z.of_nat len → Np.index len i = Ok (Z.to_nat i).
Proof.
  intros H0 H1. unfold Np.index.
  destruct (i <? 0) eqn:E; [lia|].
  destruct ((0 <=? i) && (i <? Z.of_nat len)) eqn:E'; [done|].
  apply andb_false_iff in E' as [E'|E']; lia.
Qed.

Lemma index_past_end (len : nat) (i : Z) :
  Z.of_nat len ≤ i → Np.index len i = Raise IndexError.
Proof.
  intros H. unfold Np.index.
  destruct (i <? 0) eqn:E; [lia|].
  destruct ((0 <=? i) && (i <? Z.of_nat len)) eqn:E'; [|done].
  apply andb_true_iff in E' as [E1 E2]. lia.
Qed.

Lemma write_row_ok (n idx : Z) (row : list Z) (st st' : ChanStore) :
  chan_ok n st → H5.write_row idx row st = Ok st' →
  chan_ok n st' ∧ cs_cols st' = cs_cols st.
Proof.
  intros (Hc & Hn & Hr & Hf). unfold H5.write_row, H5.index.
  destruct (Np.index _ idx) as [j|e] eqn:E; [|discriminate].
  assert (∀ r, Z.of_nat (length r) = cs_cols st →
    chan_ok n {| cs_cols := cs_cols st; cs_rows := <[j:=r]> (cs_rows st);
                 cs_attrs := cs_attrs st;
                 cs_vert_offset := cs_vert_offset st;
                 cs_vert_scale := cs_vert_scale st;
                 cs_horiz_offset := cs_horiz_offset st;
                 cs_horiz_scale := cs_horiz_scale st;
                 cs_trig_offset := cs_trig_offset st;
                 cs_trig_time := cs_trig_time st |}) as Hput.
  { intros r Hlen. split; [|split; [|split]]; simpl.
    - done.
    - by rewrite length_insert.
    - apply Forall_insert; done.
    - exact Hf. }
  destruct (Z.of_nat (length row) =? cs_cols st) eqn:El.
  - intros [= <-]. split; [apply Hput; lia | done].
  - destruct row as [|x [|? ?]]; try discriminate.
    intros [= <-]. split; [|done]. apply Hput.
    rewrite length_replicate. lia.
Qed.

Lemma write_scalar_ok (n idx : Z) (fld : Field) (v : float) (st st' : ChanStore) :
  chan_ok n st → H5.write_scalar fld idx v st = Ok st' →
  chan_ok n st' ∧ cs_cols st' = cs_cols st ∧ cs_rows st' = cs_rows st.
Proof.
  intros (Hc & Hn & Hr & Hf). unfold H5.write_scalar, H5.index.
  destruct (Np.index _ idx) as [j|e] eqn:E; [|discriminate].
  intros [= <-]. split; [|done]. split; [|split; [|split]]; simpl; try done.
  intros fld'. pose proof (Hf fld') as H1. pose proof (Hf fld) as H2.
  destruct fld, fld'; simpl in *; rewrite ?length_insert; done.
Qed.

Lemma length_fit_row (cols : nat) (row : list Z) :
  length (H5.fit_row cols row) = cols.
Proof.
  unfold H5.fit_row. rewrite length_app, length_take, length_replicate. lia.
Qed.

Lemma resize_cols_ok (n size : Z) (st st' : ChanStore) :
  chan_ok n st → H5.resize_cols size st = Ok st' →
  chan_ok n st' ∧ cs_cols st' = size.
Proof.
  intros (Hc & Hn & Hr & Hf). unfold H5.resize_cols.
  destruct (size <? 0) eqn:E; [discriminate|].
  intros [= <-]. split; [|done]. split; [|split; [|split]]; simpl.
  - lia.
  - by rewrite length_fmap.
  - apply Forall_fmap, Forall_true.
    intros r; simpl. rewrite length_fit_row. lia.
  - exact Hf.
Qed.

Lemma file_ok_set_chan (ss : Session) (f : H5File) (c : Z) (st : ChanStore) :
  FileOk ss f → chan_ok (nevents ss) st → FileOk ss (H5.set_chan c st f).
Proof.
  intros (Hch & Hin & Hsec) Hst. split; [|split]; simpl.
  - intros c' st'. rewrite lookup_insert. case_decide.
    + intros [= <-]. exact Hst.
    + apply Hch.
  - intros c' Hc'. rewrite lookup_insert. case_decide; [eauto | auto].
  - exact Hsec.
Qed.

Lemma file_ok_write_seconds (ss : Session) (f f' : H5File) (idx : Z) (v : float) :
  FileOk ss f → H5.write_seconds idx v f = Ok f' → FileOk ss f'.
Proof.
  intros (Hch & Hin & col & Hcol & Hlen). unfold H5.write_seconds.
  rewrite Hcol. destruct (H5.index _ idx) as [j|e]; [|discriminate].
  intros [= <-]. split; [|split]; simpl; try done.
  eexists; split; [done|]. by rewrite length_insert.
Qed.

(** *** The container keeps its shapes through the loop *)

Ltac keeps_file_with F known :=
  repeat first
    [ known
    | apply keeps_bind; [|intros ?]
    | apply keeps_ret'
    | apply keeps_lift
    | apply keeps_raise
    | apply (file_only_emit F)
    | apply (file_only_ask F)
    | apply (file_only_scope_call F)
    | apply (file_only_get_dim F)
    | apply (file_only_set_dim F)
    | apply keeps_for_each; intros ?
    | apply keeps_for_fold; intros ? ? ].

Ltac keeps_file F := keeps_file_with F fail.

Section FileShapes.

Variable env : Env.
Variable ss : Session.

Lemma write_row_keeps_file (c idx : Z) (row : list Z) (ev : Event) :
  keeps (FileInv ss) (chan_op c (H5.write_row idx row) ev).
Proof.
  apply (file_only_chan_op (FileOk ss)). intros f st st' Hf Hst Hop.
  apply file_ok_set_chan; [done|].
  eapply write_row_ok; [|exact Hop]. destruct Hf as (Hch & _). eauto.
Qed.

Lemma write_field_keeps_file (c : Z) (fld : Field) (idx : Z) (v : float) :
  keeps (FileInv ss) (write_field c fld idx v).
Proof.
  apply (file_only_chan_op (FileOk ss)). intros f st st' Hf Hst Hop.
  apply file_ok_set_chan; [done|].
  eapply write_scalar_ok; [|exact Hop]. destruct Hf as (Hch & _). eauto.
Qed.

Lemma resize_keeps_file (c d : Z) (ev : Event) :
  keeps (FileInv ss) (chan_op c (H5.resize_cols d) ev).
Proof.
  apply (file_only_chan_op (FileOk ss)). intros f st st' Hf Hst Hop.
  apply file_ok_set_chan; [done|].
  eapply resize_cols_ok; [|exact Hop]. destruct Hf as (Hch & _). eauto.
Qed.

Lemma save_subevent_keeps_file (c : Z) (wf : Waveform) (num : Z)
    (traces : list (list Z)) (i n : Z) (scratch : list Z) :
  keeps (FileInv ss) (save_subevent c wf num traces i n scratch).
Proof.
  unfold save_subevent.
  keeps_file_with (FileOk ss)
    ltac:(first [apply write_row_keeps_file | apply write_field_keeps_file]).
Qed.

Lemma grow_keeps_file (c num : Z) : keeps (FileInv ss) (grow c num).
Proof.
  unfold grow. apply keeps_bind; [apply (file_only_get_dim (FileOk ss))|].
  intros d. destruct (d <? num).
  - keeps_file_with (FileOk ss) ltac:(apply resize_keeps_file).
  - apply keeps_ret'.
Qed.

Lemma save_channel_keeps_file (i c : Z) :
  keeps (FileInv ss) (save_channel env ss i c).
Proof.
  unfold save_channel.
  keeps_file_with (FileOk ss)
    ltac:(first [apply grow_keeps_file | apply save_subevent_keeps_file]).
Qed.

Lemma batch_keeps_file (i : Z) : keeps (FileInv ss) (batch env ss i).
Proof.
  unfold batch, batch_on, now.
  keeps_file_with (FileOk ss) ltac:(apply save_channel_keeps_file).
  apply (file_only_file_op (FileOk ss)).
  intros f f' Hf Hop. eapply file_ok_write_seconds; eauto.
Qed.

Lemma recover_keeps_file (e : PyExc) : keeps (FileInv ss) (recover env ss e).
Proof.
  unfold recover, scope_clear, scope_set_settings, print.
  keeps_file (FileOk ss). destruct (scopeSets ss); keeps_file (FileOk ss).
Qed.

End FileShapes.

(** *** The invariant through the loop *)

Lemma grown_refl (w : World) : grown w w.
Proof. intros c d H. exists d. split; [done | lia]. Qed.

Lemma grown_trans (w1 w2 w3 : World) : grown w1 w2 → grown w2 w3 → grown w1 w3.
Proof.
  intros H12 H23 c d H. destruct (H12 c d H) as (d2 & H2 & Hle).
  destruct (H23 c d2 H2) as (d3 & H3 & Hle'). exists d3. split; [done | lia].
Qed.

Lemma cap_of_set_chan (f : H5File) (c c' : Z) (st : ChanStore) :
  cap_of (H5.set_chan c st f) c' =
  if decide (c = c') then Some (cs_cols st) else cap_of f c'.
Proof.
  unfold cap_of; simpl. rewrite lookup_insert. by case_decide.
Qed.

Lemma cap_of_set_chan_same (f : H5File) (c c' : Z) (st st' : ChanStore) :
  h5_chan f !! c = Some st → cs_cols st' = cs_cols st →
  cap_of (H5.set_chan c st' f) c' = cap_of f c'.
Proof.
  intros Hst Hc. rewrite cap_of_set_chan. case_decide; [subst c'|done].
  unfold cap_of. rewrite Hst; simpl. by rewrite Hc.
Qed.

Lemma neutral_log (seq : Z) (ev : Event) (log : list Event) :
  neutral ev = true →
  (∀ c, capacity_at (ev :: log) c = capacity_at log c) ∧
  (∀ c, observed seq (ev :: log) c = observed seq log c) ∧
  (writes_ok seq (ev :: log) ↔ writes_ok seq log).
Proof. destruct ev; try discriminate; intros _; done. Qed.

(** What a step may change without disturbing the invariant. *)
Lemma good_transfer (ss : Session) (w0 w w' : World) :
  Good ss w0 w →
  FileOk ss (w_file w') →
  (∀ c, cap_of (w_file w') c = cap_of (w_file w) c) →
  w_dim w' = w_dim w →
  (∀ c, capacity_at (w_log w') c = capacity_at (w_log w) c) →
  (∀ c, observed (sequence_count ss) (w_log w') c =
        observed (sequence_count ss) (w_log w) c) →
  writes_ok (sequence_count ss) (w_log w') →
  Good ss w0 w'.
Proof.
  intros [(Hf & Hd & Hw) Hg] Hf' Hcap Hdim Hlog Hobs Hw'.
  split; [split; [exact Hf'|split; [|exact Hw']]|].
  - intros c. destruct (Hd c) as (H1 & H2 & H3). unfold capacity in *.
    rewrite Hdim, Hlog, Hobs, Hcap. done.
  - intros c d H. destruct (Hg c d H) as (d' & H' & Hle).
    exists d'. split; [|done]. unfold capacity in *. by rewrite Hcap.
Qed.

Lemma saving_transfer (ss : Session) (c num d : Z) (w w' : World) :
  Saving ss c num d w →
  w_dim w' = w_dim w →
  (∀ c, observed (sequence_count ss) (w_log w') c =
        observed (sequence_count ss) (w_log w) c) →
  Saving ss c num d w'.
Proof. intros [H1 H2] Hdim Hobs. split; [by rewrite Hobs | by rewrite Hdim]. Qed.

Section Invariant.

Variable env : Env.
Variable ss : Session.
Variable w0 : World.

Lemma good_emit (ev : Event) : neutral ev = true → keeps (Good ss w0) (emit ev).
Proof.
  intros Hn w r w' HG [= <- <-].
  destruct (neutral_log (sequence_count ss) ev (w_log w) Hn) as (H1 & H2 & H3).
  eapply good_transfer; eauto; simpl; try done.
  - apply HG.
  - apply H3, HG.
Qed.

Lemma busy_emit (c num d : Z) (ev : Event) :
  neutral ev = true → keeps (Busy ss w0 c num d) (emit ev).
Proof.
  intros Hn w r w' [HG HS] E. split; [by eapply good_emit|].
  injection E as <- <-.
  destruct (neutral_log (sequence_count ss) ev (w_log w) Hn) as (H1 & H2 & H3).
  eapply saving_transfer; eauto.
Qed.

Lemma good_ask {A} (q : nat → Result A) : keeps (Good ss w0) (ask q).
Proof.
  intros w r w' HG [= <- <-].
  eapply good_transfer; eauto; simpl; try done; apply HG.
Qed.

Lemma busy_ask {A} (c num d : Z) (q : nat → Result A) :
  keeps (Busy ss w0 c num d) (ask q).
Proof.
  intros w r w' [HG HS] E. split; [by eapply good_ask|].
  injection E as <- <-. eapply saving_transfer; eauto.
Qed.

Lemma good_scope_call {A} (call : ScopeCall) (q : nat → Result A) :
  keeps (Good ss w0) (scope_call call q).
Proof. apply keeps_bind; [by apply good_emit | intros _; apply good_ask]. Qed.

Lemma busy_get_dim (c num d c' : Z) : keeps (Busy ss w0 c num d) (get_dim c').
Proof.
  intros w r w' HP. unfold get_dim.
  destruct (w_dim w !! c'); intros [= <- <-]; exact HP.
Qed.

(** A write into a scalar column. *)
Lemma busy_write_field (c num d c' : Z) (fld : Field) (idx : Z) (v : float) :
  keeps (Busy ss w0 c num d) (write_field c' fld idx v).
Proof.
  intros w r w' [HG HS]. unfold write_field. rewrite chan_op_run.
  destruct (h5_chan (w_file w) !! c') as [st|] eqn:Est;
    [|intros [= <- <-]; done].
  destruct (H5.write_scalar fld idx v st) as [st'|e] eqn:Eop;
    intros [= <- <-]; [|done].
  assert (chan_ok (nevents ss) st) as Hst.
  { destruct HG as [((Hch & _) & _) _]. eauto. }
  destruct (write_scalar_ok _ _ _ _ _ _ Hst Eop) as (Hst' & Hcols & _).
  split.
  - eapply good_transfer; eauto; simpl; try done.
    + apply file_ok_set_chan; [apply HG | done].
    + intros c0. by eapply cap_of_set_chan_same.
    + apply HG.
  - eapply saving_transfer; eauto.
Qed.

(** The write of the scratch row. *)
Lemma busy_write_row (c num d idx : Z) (row : list Z) :
  scratch_ok num d row →
  keeps (Busy ss w0 c num d) (chan_op c (H5.write_row idx row) (EvWriteRow c idx row)).
Proof.
  intros [Hlen Hzero] w r w' [HG HS]. rewrite chan_op_run.
  destruct (h5_chan (w_file w) !! c) as [st|] eqn:Est;
    [|intros [= <- <-]; done].
  destruct (H5.write_row idx row st) as [st'|e] eqn:Eop;
    intros [= <- <-]; [|done].
  assert (chan_ok (nevents ss) st) as Hst.
  { destruct HG as [((Hch & _) & _) _]. eauto. }
  destruct (write_row_ok _ _ _ _ _ Hst Eop) as (Hst' & Hcols).
  split.
  - eapply good_transfer; eauto; simpl; try done.
    + apply file_ok_set_chan; [apply HG | done].
    + intros c0. by eapply cap_of_set_chan_same.
    + split; [|apply HG]. destruct HS as [Hobs Hdim].
      destruct HG as [(_ & Hd & _) _]. destruct (Hd c) as (H1 & H2 & _).
      split.
      * rewrite H2, <- H1, Hdim, Hlen. done.
      * exists num. split; done.
  - eapply saving_transfer; eauto.
Qed.

End Invariant.

(** *** The scratch row *)

Lemma slice_stop_le (len : nat) (k : Z) : (Np.slice_stop len k ≤ len)%nat.
Proof. unfold Np.slice_stop. destruct (k <? 0) eqn:E; lia. Qed.

Lemma slice_stop_exact (len : nat) (k : Z) :
  0 ≤ k → k ≤ Z.of_nat len → Np.slice_stop len k = Z.to_nat k.
Proof. intros H0 H1. unfold Np.slice_stop. destruct (k <? 0) eqn:E; lia. Qed.

Lemma zeros_scratch_ok (num d : Z) (scratch : list Z) :
  Np.zeros d = Ok scratch → scratch_ok num d scratch.
Proof.
  unfold Np.zeros. destruct (d <? 0) eqn:E; [discriminate|].
  intros [= <-]. split.
  - rewrite length_replicate. lia.
  - intros k Hk. rewrite length_replicate in Hk.
    apply lookup_replicate_2. lia.
Qed.

Lemma assign_slice_scratch_ok (num d : Z) (scratch v scratch' : list Z) :
  scratch_ok num d scratch →
  Np.assign_slice_to num scratch v = Ok scratch' →
  scratch_ok num d scratch'.
Proof.
  intros [Hlen Hzero]. unfold Np.assign_slice_to.
  pose proof (slice_stop_le (length scratch) num) as Hle.
  set (m := Np.slice_stop (length scratch) num) in *.
  assert (∀ u, length u = m → scratch_ok num d (u ++ drop m scratch)) as Hput.
  { intros u Hu.
    assert (length (u ++ drop m scratch) = length scratch) as Hl.
    { rewrite length_app, length_drop. lia. }
    split; [by rewrite Hl|]. rewrite Hl. fold m. intros k Hk.
    rewrite lookup_app_r by lia. rewrite lookup_drop.
    replace (m + (k - length u))%nat with k by lia. apply Hzero. done. }
  destruct (Nat.eqb (length v) m) eqn:E.
  - intros [= <-]. apply Hput. by apply Nat.eqb_eq.
  - destruct v as [|x [|? ?]]; try discriminate.
    intros [= <-]. apply Hput. apply length_replicate.
Qed.

Lemma hoare_for_fold {A S} (P : World → Prop) (I : S → Prop) (l : list A)
    (body : A → S → M S) (s : S) :
  (∀ x s, I s → hoare P (body x s) (λ r w, P w ∧ ∀ s', r = Ok s' → I s')) →
  I s →
  hoare P (for_fold l body s) (λ r w, P w ∧ ∀ s', r = Ok s' → I s').
Proof.
  intros Hb. revert s. induction l as [|x l IH]; intros s Hs; simpl.
  - intros w r w' HP [= <- <-]. split; [done|]. by intros s' [= <-].
  - eapply hoare_bind; [exact (Hb x s Hs)| |].
    + intros s1 w r w' [HP Hs1] E. exact (IH s1 (Hs1 s1 eq_refl) w r w' HP E).
    + intros e w [HP _]. split; [done|]. intros s' [=].
Qed.

Section Saving.

Variable env : Env.
Variable ss : Session.
Variable w0 : World.

Lemma busy_save_subevent (c num d : Z) (wf : Waveform)
    (traces : list (list Z)) (i n : Z) (scratch : list Z) :
  scratch_ok num d scratch →
  hoare (Busy ss w0 c num d)
        (save_subevent c wf num traces i n scratch)
        (λ r w, Busy ss w0 c num d w ∧ ∀ s', r = Ok s' → scratch_ok num d s').
Proof.
  intros Hs w r w' HP. unfold save_subevent.
  rewrite bind_run. unfold lift at 1.
  destruct (Np.item traces n) as [trace|e]; [|intros [= <- <-]; split; [done|intros ? [=]]].
  rewrite bind_run. unfold lift at 1.
  destruct (Np.assign_slice_to _ _ _) as [scratch'|e] eqn:Ea;
    [|intros [= <- <-]; split; [done|intros ? [=]]].
  pose proof (assign_slice_scratch_ok _ _ _ _ _ Hs Ea) as Hs'.
  intros E. split.
  - revert w r w' HP E. apply keeps_bind; [by apply busy_write_row|].
    intros _.
    repeat first
      [ apply busy_write_field
      | apply keeps_bind; [|intros ?]
      | apply keeps_lift
      | apply keeps_ret' ].
  - intros s' ->.
    repeat (apply bind_ok in E as (? & ? & _ & E)).
    by injection E as <- _.
Qed.

End Saving.

Section Channel.

Variable env : Env.
Variable ss : Session.
Variable w0 : World.

Lemma busy_save_rows (c num d : Z) (wf : Waveform) (i : Z) :
  keeps (Busy ss w0 c num d) (save_rows ss c wf num i).
Proof.
  intros w r w' HP. unfold save_rows.
  rewrite bind_run. unfold lift at 1.
  destruct (Np.floordiv _ _) as [?|e]; [|intros [= <- <-]; done].
  rewrite bind_run. unfold lift at 1.
  destruct (Np.reshape_rows _ _) as [traces|e]; [|intros [= <- <-]; done].
  rewrite bind_run. unfold get_dim at 1.
  destruct HP as [HG [Hobs Hdim]]. rewrite Hdim.
  rewrite bind_run. unfold lift at 1.
  destruct (Np.zeros d) as [scratch|e] eqn:Ez; [|intros [= <- <-]; done].
  rewrite bind_run.
  destruct (for_fold _ _ _ w) as [r1 w1] eqn:Ef.
  assert (Busy ss w0 c num d w1) as HB.
  { eapply (hoare_for_fold (Busy ss w0 c num d) (scratch_ok num d)); [| |done|exact Ef].
    - intros x s Hs. by apply busy_save_subevent.
    - by eapply zeros_scratch_ok. }
  destruct r1; intros [= <- <-]; exact HB.
Qed.

(** Lines 108-112 after the driver has answered: under the invariant the
    growth step cannot fail, and it restores the invariant. *)
Lemma grow_restores (c count : Z) (w : World) :
  sequence_count ss ≠ 0 → c ∈ channels ss → Good ss w0 w →
  ∃ w2 d,
    grow c (count / sequence_count ss)
      {| w_tick := w_tick w; w_log := EvWaveDesc c count :: w_log w;
         w_file := w_file w; w_dim := w_dim w |} = (Ok tt, w2) ∧
    Busy ss w0 c (count / sequence_count ss) d w2.
Proof.
  intros Hseq Hc [(Hf & Hd & Hw) Hg].
  set (num := count / sequence_count ss).
  destruct Hf as (Hch & Hin & Hsec).
  destruct (Hin c Hc) as [st Hst]. pose proof (Hch c st Hst) as Hok.
  destruct (Hd c) as (Hdim & Hcap & Hobs).
  unfold capacity, cap_of in Hdim, Hcap, Hobs. rewrite Hst in Hdim, Hcap, Hobs.
  simpl in Hdim, Hcap, Hobs.
  unfold grow. rewrite bind_run. unfold get_dim at 1. simpl w_dim. rewrite Hdim.
  destruct (cs_cols st <? num) eqn:Elt.
  - (* the array grows *)
    apply Z.ltb_lt in Elt.
    rewrite bind_run. unfold set_dim at 1. simpl.
    rewrite bind_run. unfold get_dim at 1. simpl. rewrite lookup_insert_eq.
    rewrite chan_op_run. simpl. rewrite Hst.
    destruct (H5.resize_cols num st) as [st'|e] eqn:Er.
    2:{ unfold H5.resize_cols in Er. destruct Hok as (H0 & _).
        destruct (num <? 0) eqn:E0; [lia | discriminate]. }
    destruct (resize_cols_ok _ _ _ _ Hok Er) as (Hok' & Hcols').
    eexists _, num. split; [reflexivity|].
    split; [split; [split; [|split]|]|split]; simpl.
    + apply file_ok_set_chan; [by split|done].
    + intros c'. unfold capacity; simpl. rewrite cap_of_set_chan, lookup_insert.
      destruct (Hd c') as (Hdim' & Hcap' & Hobs'). unfold capacity in *.
      destruct (decide (c = c')) as [<-|Hcc].
      * rewrite Hcols'. simpl. rewrite Hobs; simpl.
        repeat split. f_equal. fold num. lia.
      * done.
    + done.
    + intros c' d Hc'. destruct (Hg c' d Hc') as (d' & Hd' & Hle).
      unfold capacity in *; simpl. rewrite cap_of_set_chan.
      destruct (decide (c = c')) as [<-|Hcc].
      * unfold cap_of in Hd'. rewrite Hst in Hd'. simpl in Hd'.
        injection Hd' as <-. exists num. split; [by rewrite Hcols'|lia].
      * eauto.
    + rewrite decide_True by done. done.
    + apply lookup_insert_eq.
  - (* it does not *)
    apply Z.ltb_ge in Elt.
    eexists _, (cs_cols st). split; [reflexivity|].
    split; [split; [split; [|split]|]|split]; simpl.
    + by split.
    + intros c'. unfold capacity; simpl.
      destruct (Hd c') as (Hdim' & Hcap' & Hobs'). unfold capacity in *.
      split; [done|split; [done|]].
      destruct (decide (c = c')) as [<-|Hcc]; [|done]. simpl.
      rewrite Hobs. unfold cap_of. rewrite Hst. simpl. f_equal. fold num. lia.
    + done.
    + done.
    + rewrite decide_True by done. done.
    + done.
Qed.

Lemma good_save_channel (i c : Z) :
  sequence_count ss ≠ 0 → c ∈ channels ss →
  keeps (Good ss w0) (save_channel env ss i c).
Proof.
  intros Hseq Hc w r w' HG. unfold save_channel.
  rewrite bind_run.
  destruct (scope_call _ _ w) as [[wf|e] w1] eqn:E1.
  2:{ intros [= <- <-]. eapply good_scope_call; eauto. }
  assert (Good ss w0 w1) as HG1 by (eapply good_scope_call; eauto).
  rewrite bind_run, emit_run, bind_run. unfold lift at 1.
  unfold Np.floordiv. destruct (sequence_count ss =? 0) eqn:E0; [lia|].
  destruct (grow_restores c (wave_array_count (wf_desc wf)) w1 Hseq Hc HG1)
    as (w2 & d & Hgrow & HB).
  rewrite bind_run, Hgrow. intros E.
  eapply busy_save_rows; eauto.
Qed.

End Channel.

Lemma keeps_for_each_in {A} (P : World → Prop) (l : list A) (body : A → M unit) :
  (∀ x, x ∈ l → keeps P (body x)) → keeps P (for_each l body).
Proof.
  induction l as [|x l IH]; intros Hb; simpl.
  - apply keeps_ret'.
  - apply keeps_bind.
    + apply Hb. by left.
    + intros _. apply IH. intros y Hy. apply Hb. by right.
Qed.

Section Passes.

Variable env : Env.
Variable ss : Session.
Variable w0 : World.
Hypothesis seq_nonzero : ∀ c, c ∈ channels ss → sequence_count ss ≠ 0.

Lemma good_write_seconds (idx : Z) (v : float) :
  keeps (Good ss w0) (file_op (H5.write_seconds idx v) (EvWriteSeconds idx v)).
Proof.
  intros w r w' HG. rewrite file_op_run.
  destruct (H5.write_seconds idx v (w_file w)) as [f|e] eqn:E;
    intros [= <- <-]; [|done].
  eapply good_transfer; eauto; simpl; try done.
  - eapply file_ok_write_seconds; [|exact E]. apply HG.
  - intros c. unfold H5.write_seconds in E.
    destruct (h5_seconds (w_file w)); [|discriminate].
    destruct (H5.index _ idx); [|discriminate]. by injection E as <-.
  - apply HG.
Qed.

Lemma good_batch_on (chans : list Z) (i : Z) :
  chans ⊆ channels ss → keeps (Good ss w0) (batch_on env ss chans i).
Proof.
  intros Hsub. unfold batch_on, now.
  repeat first
    [ apply good_write_seconds
    | apply good_scope_call
    | apply good_ask
    | apply good_emit; reflexivity
    | apply keeps_bind; [|intros ?] ].
  apply keeps_for_each_in. intros c Hc. apply good_save_channel; eauto.
Qed.

Lemma good_batch (i : Z) : keeps (Good ss w0) (batch env ss i).
Proof. by apply good_batch_on. Qed.

Lemma good_recover (e : PyExc) : keeps (Good ss w0) (recover env ss e).
Proof.
  unfold recover, scope_clear, scope_set_settings, print.
  apply keeps_bind; [by apply good_emit|intros _].
  apply keeps_bind; [apply good_scope_call|intros _].
  destruct (scopeSets ss); [apply good_scope_call | apply keeps_raise].
Qed.

Lemma good_iteration (i : Z) (w w' : World) (p : Pass) :
  Good ss w0 w → iteration env ss i w = (p, w') → Good ss w0 w'.
Proof.
  intros HG. unfold iteration.
  assert (keeps (Good ss w0) (attempt env ss i)) as K.
  { apply keeps_bind; [by apply good_emit | intros _; apply good_batch]. }
  destruct (attempt env ss i w) as [[[]|e] w1] eqn:E1.
  - intros [= <- <-]. eapply K; eauto.
  - assert (Good ss w0 w1) as HG1 by (eapply K; eauto).
    destruct (is_Exception e); [|intros [= <- <-]; done].
    destruct (recover env ss e w1) as [[[]|e'] w2] eqn:E2;
      intros [= <- <-]; eapply good_recover; eauto.
Qed.

Lemma good_acquire (fuel : nat) (i : Z) (w w' : World) (x : Exit) :
  Good ss w0 w → acquire env ss fuel i w = Some (x, w') → Good ss w0 w'.
Proof.
  revert i w. induction fuel as [|fuel IH]; intros i w HG; simpl.
  - destruct (i <? nevents ss); [discriminate|]. by intros [= <- <-].
  - destruct (i <? nevents ss); [|by intros [= <- <-]].
    destruct (iteration env ss i w) as [[i'|e] w1] eqn:E.
    + apply IH. eapply good_iteration; eauto.
    + intros [= <- <-]. eapply good_iteration; eauto.
Qed.

End Passes.

(** *** The invariant after the set-up *)

Section Setup.

Variable env : Env.

Lemma blank_world0 : Blank world0.
Proof. repeat split. Qed.

Lemma blank_emit (ev : Event) : neutral ev = true → keeps Blank (emit ev).
Proof.
  intros Hn w r w' (Hf & Hd & Hl) [= <- <-]. split; [done|split; [done|]].
  intros seq c. destruct (Hl seq c) as (H1 & H2 & H3).
  destruct (neutral_log seq ev (w_log w) Hn) as (N1 & N2 & N3).
  simpl w_log. rewrite N1, N2, N3. done.
Qed.

Lemma blank_ask {A} (q : nat → Result A) : keeps Blank (ask q).
Proof. intros w r w' H [= <- <-]. exact H. Qed.

Lemma blank_scope_call {A} (call : ScopeCall) (q : nat → Result A) :
  keeps Blank (scope_call call q).
Proof. apply keeps_bind; [by apply blank_emit | intros _; apply blank_ask]. Qed.

Lemma blank_configure (n nseq : Z) (ip : string) (timeout : Z) (b : bool) :
  keeps Blank (configure env n nseq ip timeout b).
Proof.
  unfold configure, now, scope_clear, scope_get_settings, scope_set_settings, print.
  repeat first
    [ apply blank_scope_call
    | apply blank_ask
    | apply blank_emit; reflexivity
    | apply keeps_lift
    | apply keeps_ret'
    | match goal with |- keeps _ (if ?b then _ else _) => destruct b end
    | apply keeps_bind; [|intros ?] ].
Qed.

Lemma configure_session (n nseq : Z) (ip : string) (timeout : Z) (b : bool)
    (w w' : World) (ss : Session) (settings : gmap string string) :
  configure env n nseq ip timeout b w = (Ok (ss, settings), w') →
  nevents ss = n ∧
  confirmed_sequence_count settings = Ok (sequence_count ss) ∧
  (b = false → scopeSets ss = None) ∧
  (b = true → is_Some (scopeSets ss)).
Proof.
  unfold configure. intros E.
  apply bind_ok in E as (t0 & w1 & _ & E).
  apply bind_ok in E as (? & w2 & _ & E).
  apply bind_ok in E as (? & w3 & _ & E).
  apply bind_ok in E as (? & w4 & _ & E).
  apply bind_ok in E as (sets & w5 & Es & E).
  apply bind_ok in E as (chans & w6 & _ & E).
  apply bind_ok in E as (settings' & w7 & _ & E).
  apply bind_ok in E as (count & w8 & Ec & E).
  apply bind_ok in E as (? & w9 & _ & E).
  apply bind_ok in E as (? & w10 & _ & E).
  injection E as <- <- _. simpl.
  unfold lift in Ec. injection Ec as -> _.
  split; [done|split; [done|]].
  destruct b.
  - split; [done|intros _].
    apply bind_ok in Es as (? & ? & _ & Es).
    apply bind_ok in Es as (? & ? & _ & Es).
    apply bind_ok in Es as (? & ? & _ & Es).
    injection Es as <- _. eauto.
  - split; [|done]. intros _. by injection Es as <- _.
Qed.

Lemma blank_creating (ss : Session) (w : World) : Blank w → Creating ss w.
Proof.
  intros (Hf & Hd & Hl). split; [|split].
  - intros c st. rewrite Hf. simpl. by rewrite lookup_empty.
  - intros c. destruct (Hl (sequence_count ss) c) as (H1 & H2 & H3).
    unfold capacity, cap_of. rewrite Hf, Hd, H1, H2. simpl.
    rewrite !lookup_empty. done.
  - apply (Hl (sequence_count ss) 0).
Qed.

Lemma creating_create_channel (ss : Session) (c : Z) (w w' : World) :
  Creating ss w → create_channel env ss c w = (Ok tt, w') →
  Creating ss w' ∧ is_Some (h5_chan (w_file w') !! c) ∧
  (∀ c', is_Some (h5_chan (w_file w) !! c') → is_Some (h5_chan (w_file w') !! c')) ∧
  sequence_count ss ≠ 0.
Proof.
  intros (Hch & Hd & Hw) E. unfold create_channel in E.
  apply bind_ok in E as (wd & w1 & E1 & E).
  rewrite scope_call_run in E1. injection E1 as _ <-.
  apply bind_ok in E as (? & w2 & E2 & E). rewrite emit_run in E2.
  injection E2 as _ <-.
  apply bind_ok in E as (d & w3 & E3 & E). unfold lift in E3.
  injection E3 as E3 <-. unfold Np.floordiv in E3.
  destruct (sequence_count ss =? 0) eqn:E0; [discriminate|].
  injection E3 as <-.
  apply bind_ok in E as (? & w4 & E4 & E). injection E4 as _ <-.
  rewrite file_op_run in E. simpl w_file in E.
  set (d := wave_array_count wd / sequence_count ss) in *.
  destruct (H5.create_channel c (nevents ss) d wd (w_file w)) as [f'|?] eqn:Ecr;
    [|discriminate].
  injection E as <-. unfold H5.create_channel in Ecr.
  destruct (h5_chan (w_file w) !! c) as [?|] eqn:Enone; [discriminate|].
  destruct ((nevents ss <? 0) || (d <? 0)) eqn:Eneg; [discriminate|].
  apply orb_false_iff in Eneg as [En Ed].
  injection Ecr as <-.
  split; [split; [|split]|split; [|split]]; simpl.
  - intros c' st'. rewrite lookup_insert. case_decide; [|apply Hch].
    intros [= <-]. split; [|split; [|split]]; simpl.
    + lia.
    + rewrite length_replicate. lia.
    + apply Forall_replicate. rewrite length_replicate. lia.
    + intros []; simpl; unfold H5.new_column; rewrite length_replicate; lia.
  - intros c'. destruct (Hd c') as (H1 & H2 & H3).
    unfold capacity, cap_of in *. simpl. rewrite !lookup_insert.
    destruct (decide (c = c')) as [<-|Hne]; [|done]. simpl.
    rewrite Enone in H3. simpl in H3. rewrite H3. done.
  - simpl. done.
  - rewrite lookup_insert_eq. eauto.
  - intros c' Hc'. rewrite lookup_insert. case_decide; eauto.
  - lia.
Qed.

Lemma creating_channels (ss : Session) (l : list Z) (w w' : World) :
  Creating ss w → for_each l (create_channel env ss) w = (Ok tt, w') →
  Creating ss w' ∧
  (∀ c, c ∈ l → is_Some (h5_chan (w_file w') !! c)) ∧
  (∀ c', is_Some (h5_chan (w_file w) !! c') → is_Some (h5_chan (w_file w') !! c')) ∧
  (∀ c, c ∈ l → sequence_count ss ≠ 0).
Proof.
  revert w. induction l as [|c l IH]; intros w HC; simpl.
  - intros [= <-]. split; [done|].
    split; [|split; [done|]]; intros c Hc; inversion Hc.
  - intros E. apply bind_ok in E as ([] & w1 & E1 & E).
    destruct (creating_create_channel _ _ _ _ HC E1) as (HC1 & Hc1 & Hkeep1 & Hseq).
    destruct (IH _ HC1 E) as (HC' & Hall & Hkeep & _).
    split; [done|]. split; [|split].
    + intros c' Hc'. apply elem_of_cons in Hc' as [->|Hc']; eauto.
    + eauto.
    + done.
Qed.

(** A set-up that returns leaves the loop invariant behind it. *)
Lemma setup_establishes (filename : string) (n nseq : Z) (ip : string)
    (timeout : Z) (b : bool) (w w' : World) (ss : Session) :
  Blank w →
  setup env filename n nseq ip timeout b w = (Ok ss, w') →
  StoreInv ss w' ∧ (∀ c, c ∈ channels ss → sequence_count ss ≠ 0).
Proof.
  intros HB E. unfold setup in E.
  apply bind_ok in E as ([ss' settings] & w1 & E1 & E).
  assert (Blank w1) as HB1 by (eapply blank_configure; eauto).
  apply bind_ok in E as (? & w2 & E2 & E). injection E as <- <-. simpl in E2.
  pose proof (blank_creating ss' _ HB1) as HC1.
  unfold create_file in E2.
  apply bind_ok in E2 as (? & w3 & E3 & E2). rewrite ask_run in E3.
  injection E3 as _ <-.
  apply bind_ok in E2 as (? & w4 & E4 & E2). rewrite file_op_run in E4.
  injection E4 as _ <-.
  apply bind_ok in E2 as (? & w5 & E5 & E2). injection E5 as _ <-.
  apply bind_ok in E2 as ([] & w6 & E6 & E2).
  match type of E6 with for_each _ _ ?w = _ =>
    assert (Creating ss' w) as HC4 end.
  { destruct HC1 as (H1 & H2 & H3). split; [|split]; simpl; done. }
  destruct (creating_channels _ _ _ _ HC4 E6) as ((Hch & Hd & Hw) & Hall & _ & Hseq).
  rewrite file_op_run in E2.
  destruct (H5.create_seconds (nevents ss') (w_file w6)) as [f'|?] eqn:Ecr;
    [|discriminate].
  injection E2 as _ <-. unfold H5.create_seconds in Ecr.
  destruct (h5_seconds (w_file w6)); [discriminate|].
  destruct (nevents ss' <? 0) eqn:En; [discriminate|].
  injection Ecr as <-. split; [|done].
  split; [split; [|split]|split]; simpl; try done.
  eexists. split; [done|]. unfold H5.new_column. rewrite length_replicate. lia.
Qed.

End Setup.

(** *** What depends on the oracle alone *)











(** *** The log only grows *)






(** * The claims *)

Lemma good_reaches (env : Env) (ss : Session) (w0 : World) (i j : Z) (w w' : World) :
  (∀ c, c ∈ channels ss → sequence_count ss ≠ 0) →
  reaches env ss i w j w' → Good ss w0 w → Good ss w0 w'.
Proof.
  intros Hseq H. induction H as [|i w i' w' j w'' Hlt Hit _ IH]; [done|].
  intros HG. apply IH. eapply good_iteration; eauto.
Qed.

(** C3. Through the whole run (every world at the top of the loop that is
    reached from a set-up that returned, and the world after any further
    pass, whether the pass ends normally, in recovery or by leaving the
    loop): no channel's column count ever decreases; it is the value of
    [current_dim] and the largest per-sub-event sample count reported for the
    channel so far; and every sample row written so far had, when it was
    written, as many cells as the array had columns, with zeros after the
    cells of the slice that received the samples. *)
Theorem C3_capacity_grows_rows_padded
    (env : Env) (filename : string) (n nseq : Z) (ip : string) (timeout : Z)
    (b16acq : bool) (ss : Session) (w1 : World)
    (i : Z) (w : World) (p : Pass) (w' : World) :
  setup env filename n nseq ip timeout b16acq world0 = (Ok ss, w1) →
  reaches env ss 0 w1 i w →
  iteration env ss i w = (p, w') →
  grown w1 w ∧ grown w w' ∧
  (∀ c, capacity w' c = max_list (observed (sequence_count ss) (w_log w') c) ∧
        capacity w' c = w_dim w' !! c ∧
        capacity w' c = capacity_at (w_log w') c) ∧
  writes_ok (sequence_count ss) (w_log w') ∧
  (∀ c st, h5_chan (w_file w') !! c = Some st →
           Forall (λ row, Z.of_nat (length row) = cs_cols st) (cs_rows st)).
Proof.
  intros Hsetup Hreach Hpass.
  destruct (setup_establishes _ _ _ _ _ _ _ _ _ _ blank_world0 Hsetup)
    as [Hinv Hseq].
  assert (Good ss w1 w) as HG.
  { eapply good_reaches; eauto. split; [done | apply grown_refl]. }
  assert (Good ss w w') as [Hinv' Hgrown'].
  { eapply good_iteration; eauto. split; [apply HG | apply grown_refl]. }
  destruct Hinv' as ((Hch & _) & Hd & Hw).
  split; [apply HG|]. split; [done|]. split; [|split; [done|]].
  - intros c. destruct (Hd c) as (H1 & H2 & H3). by rewrite H1, H2, H3.
  - intros c st Hst. by destruct (Hch c st Hst) as (_ & _ & ? & _).
Qed.

Lemma C3_witness :
  setup c3_env "out" 4 2 "127.0.0.1" 1000 true world0 = (Ok c3_ss, c3_w1) ∧
  reaches c3_env c3_ss 0 c3_w1 2 c3_w ∧
  iteration c3_env c3_ss 2 c3_w = (Next 4, c3_w') ∧
  capacity c3_w1 1 = Some 3 ∧ capacity c3_w' 1 = Some 4 ∧
  grown c3_w1 c3_w ∧ grown c3_w c3_w' ∧
  writes_ok (sequence_count c3_ss) (w_log c3_w').
Proof.
  assert (setup c3_env "out" 4 2 "127.0.0.1" 1000 true world0
          = (Ok c3_ss, c3_w1)) as Hs by (vm_compute; reflexivity).
  assert (0 < nevents c3_ss) as Hlt by (vm_compute; reflexivity).
  assert (iteration c3_env c3_ss 0 c3_w1 = (Next 2, c3_w)) as Hp0
    by (vm_compute; reflexivity).
  assert (iteration c3_env c3_ss 2 c3_w = (Next 4, c3_w')) as Hp
    by (vm_compute; reflexivity).
  pose proof (reaches_pass c3_env c3_ss 0 c3_w1 2 c3_w 2 c3_w Hlt Hp0
                (reaches_here c3_env c3_ss 2 c3_w)) as Hr.
  pose proof (C3_capacity_grows_rows_padded c3_env "out" 4 2 "127.0.0.1" 1000
                true c3_ss c3_w1 2 c3_w (Next 4) c3_w' Hs Hr Hp) as T.
  split; [exact Hs|]. split; [exact Hr|]. split; [exact Hp|].
  split; [vm_compute; reflexivity|]. split; [vm_compute; reflexivity|].
  split; [exact (proj1 T)|]. split; [exact (proj1 (proj2 T))|].
  exact (proj1 (proj2 (proj2 (proj2 T)))).
Defined.

(** *** What a step adds to a view of the log *)

(** A view [g] of the log that only the events outside [quiet] change is
    left alone by every step that logs quiet events only. *)
Section LogView.

Context {T : Type}.
Variable g : list Event → T.
Variable quiet : Event → bool.
Hypothesis g_quiet : ∀ ev log, quiet ev = true → g (ev :: log) = g log.
Variable v : T.
Lemma view_emit (ev : Event) : quiet ev = true → keeps (λ w, g (w_log w) = v) (emit ev).
Proof.
  intros Hq w r w' HP [= <- <-]. simpl. by rewrite g_quiet.
Qed.

Lemma view_ask {A} (q : nat → Result A) : keeps (λ w, g (w_log w) = v) (ask q).
Proof. intros w r w' HP [= <- <-]. exact HP. Qed.

Lemma view_get_dim (c : Z) : keeps (λ w, g (w_log w) = v) (get_dim c).
Proof.
  intros w r w' HP. unfold get_dim.
  destruct (w_dim w !! c); intros [= <- <-]; exact HP.
Qed.

Lemma view_set_dim (c d : Z) : keeps (λ w, g (w_log w) = v) (set_dim c d).
Proof. intros w r w' HP [= <- <-]. exact HP. Qed.

Lemma view_chan_op (c : Z) (op : ChanStore → Result ChanStore) (ev : Event) :
  quiet ev = true → keeps (λ w, g (w_log w) = v) (chan_op c op ev).
Proof.
  intros Hq w r w' HP. rewrite chan_op_run.
  destruct (h5_chan (w_file w) !! c) as [st|]; [|intros [= <- <-]; exact HP].
  destruct (op st); intros [= <- <-]; [|exact HP].
  simpl. by rewrite g_quiet.
Qed.

Lemma view_file_op (op : H5File → Result H5File) (ev : Event) :
  quiet ev = true → keeps (λ w, g (w_log w) = v) (file_op op ev).
Proof.
  intros Hq w r w' HP. rewrite file_op_run.
  destruct (op (w_file w)); intros [= <- <-]; [|exact HP].
  simpl. by rewrite g_quiet.
Qed.

End LogView.

Ltac keeps_view g quiet Hq known :=
  repeat first
    [ known
    | apply keeps_ret'
    | apply keeps_lift
    | apply keeps_raise
    | apply (view_emit g quiet Hq); reflexivity
    | apply (view_ask g)
    | apply (view_get_dim g)
    | apply (view_set_dim g)
    | apply (view_chan_op g quiet Hq); reflexivity
    | apply (view_file_op g quiet Hq); reflexivity
    | apply keeps_for_each; intros ?
    | apply keeps_for_fold; intros ? ?
    | match goal with |- keeps _ (if ?b then _ else _) => destruct b end
    | match goal with |- keeps _ (match ?o with Some _ => _ | None => _ end) =>
        destruct o end
    | apply keeps_bind; [|intros ?] ].

Lemma rows_of_quiet (ev : Event) (log : list Event) :
  negb (is_row_write ev) = true → rows_of (ev :: log) = rows_of log.
Proof. by destruct ev. Qed.

Lemma resizes_quiet (ev : Event) (log : list Event) :
  negb (is_resize ev) = true → resizes (ev :: log) = resizes log.
Proof. by destruct ev. Qed.

Section RowsWritten.

Variable env : Env.
Variable ss : Session.

Lemma rows_grow (c num : Z) (L : list (Z * Z)) :
  keeps (λ w, rows_of (w_log w) = L) (grow c num).
Proof.
  unfold grow.
  keeps_view rows_of (λ ev, negb (is_row_write ev)) rows_of_quiet fail.
Qed.

Lemma rows_recover (e : PyExc) (L : list (Z * Z)) :
  keeps (λ w, rows_of (w_log w) = L) (recover env ss e).
Proof.
  unfold recover, scope_clear, scope_set_settings, scope_call, print.
  keeps_view rows_of (λ ev, negb (is_row_write ev)) rows_of_quiet fail.
Qed.

Lemma rows_save_subevent (c : Z) (wf : Waveform) (num : Z)
    (traces : list (list Z)) (i n : Z) (scratch s' : list Z) (w w' : World) :
  save_subevent c wf num traces i n scratch w = (Ok s', w') →
  rows_of (w_log w') = (c, i + n) :: rows_of (w_log w).
Proof.
  unfold save_subevent. intros E.
  apply bind_ok in E as (trace & w1 & E1 & E). injection E1 as _ <-.
  apply bind_ok in E as (scratch' & w2 & E2 & E). injection E2 as _ <-.
  apply bind_ok in E as (? & w3 & E3 & E).
  rewrite chan_op_run in E3.
  destruct (h5_chan (w_file w) !! c) as [st|]; [|discriminate].
  destruct (H5.write_row _ _ st) as [st'|]; [|discriminate].
  injection E3 as _ <-.
  change ((c, i + n) :: rows_of (w_log w)) with
    (rows_of (w_log {| w_tick := w_tick w;
                       w_log := EvWriteRow c (i + n) scratch' :: w_log w;
                       w_file := H5.set_chan c st' (w_file w);
                       w_dim := w_dim w |})).
  symmetry. revert E. generalize (Ok s'). revert w'.
  match goal with |- ∀ w' r, ?m ?w = _ → _ =>
    cut (keeps (λ x, rows_of (w_log x) = rows_of (w_log w)) m);
      [intros K w' r E; symmetry; exact (K _ _ _ eq_refl E)|]
  end.
  unfold write_field.
  keeps_view rows_of (λ ev, negb (is_row_write ev)) rows_of_quiet fail.
Qed.

Lemma rows_for_fold (c : Z) (wf : Waveform) (num : Z) (traces : list (list Z))
    (i : Z) (l : list Z) (scratch s' : list Z) (w w' : World) :
  for_fold l (save_subevent c wf num traces i) scratch w = (Ok s', w') →
  rows_of (w_log w') = reverse ((λ n, (c, i + n)) <$> l) ++ rows_of (w_log w).
Proof.
  revert scratch w. induction l as [|n l IH]; intros scratch w; simpl.
  - by intros [= _ <-].
  - intros E. apply bind_ok in E as (s1 & w1 & E1 & E).
    rewrite (IH _ _ E), (rows_save_subevent _ _ _ _ _ _ _ _ _ _ E1).
    rewrite reverse_cons, <- app_assoc. done.
Qed.

Lemma rows_save_channel (i c : Z) (w w' : World) :
  save_channel env ss i c w = (Ok tt, w') →
  rows_of (w_log w') =
  reverse ((λ n, (c, i + n)) <$> Np.range (sequence_count ss)) ++ rows_of (w_log w).
Proof.
  unfold save_channel. intros E.
  apply bind_ok in E as (wf & w1 & E1 & E).
  rewrite scope_call_run in E1. injection E1 as _ <-.
  apply bind_ok in E as (? & w2 & E2 & E). injection E2 as _ <-.
  apply bind_ok in E as (num & w3 & E3 & E). injection E3 as _ <-.
  apply bind_ok in E as (? & w4 & E4 & E).
  apply (rows_grow c num _ _ _ _ eq_refl) in E4. simpl in E4.
  unfold save_rows in E.
  apply bind_ok in E as (? & w5 & E5 & E). injection E5 as _ <-.
  apply bind_ok in E as (traces & w6 & E6 & E). injection E6 as _ <-.
  apply bind_ok in E as (d & w7 & E7 & E).
  unfold get_dim in E7. destruct (w_dim w4 !! c); [|discriminate].
  injection E7 as _ <-.
  apply bind_ok in E as (scratch & w8 & E8 & E). injection E8 as _ <-.
  apply bind_ok in E as (s' & w9 & E9 & E). injection E as <-.
  rewrite (rows_for_fold _ _ _ _ _ _ _ _ _ _ E9), E4. done.
Qed.

Lemma rows_channels (i : Z) (l : list Z) (w w' : World) :
  for_each l (save_channel env ss i) w = (Ok tt, w') →
  rows_of (w_log w') =
  reverse (c ← l; (λ n, (c, i + n)) <$> Np.range (sequence_count ss))
  ++ rows_of (w_log w).
Proof.
  revert w. induction l as [|c l IH]; intros w; simpl.
  - by intros [= <-].
  - intros E. apply bind_ok in E as ([] & w1 & E1 & E).
    rewrite (IH _ E), (rows_save_channel _ _ _ _ E1).
    rewrite reverse_app, <- app_assoc. done.
Qed.

(** The progress line and the start of the body, then the channels
    [chans]: when this completes it has written, in this order, the rows
    [i .. i + sequence_count - 1] of every channel of [chans] and no
    others. *)
Lemma rows_batch_on (chans : list Z) (i : Z) (w w' : World) :
  (print (MsgFetching i) ;; batch_on env ss chans i) w = (Ok tt, w') →
  rows_of (w_log w') =
  reverse (c ← chans; (λ n, (c, i + n)) <$> Np.range (sequence_count ss))
  ++ rows_of (w_log w).
Proof.
  intros E.
  apply bind_ok in E as (? & w1 & E1 & E). injection E1 as _ <-.
  unfold batch_on in E.
  apply bind_ok in E as (t & w2 & E2 & E). rewrite now_run in E2.
  injection E2 as _ <-.
  apply bind_ok in E as (? & w3 & E3 & E). rewrite file_op_run in E3.
  simpl w_file in E3.
  destruct (H5.write_seconds _ _ _) as [f|]; [|discriminate].
  injection E3 as _ <-.
  apply bind_ok in E as (? & w4 & E4 & E). rewrite scope_call_run in E4.
  injection E4 as _ <-.
  by rewrite (rows_channels _ _ _ _ E).
Qed.

(** A body of the inner [try] that completes has written, in this order,
    the rows [batch_rows ss i] and no others. *)
Lemma rows_batch (i : Z) (w w' : World) :
  attempt env ss i w = (Ok tt, w') →
  rows_of (w_log w') = reverse (batch_rows ss i) ++ rows_of (w_log w).
Proof. apply rows_batch_on. Qed.

End RowsWritten.

(** C1, as amended.  When the body of the inner [try] raises an [Exception]
    at cursor [i] and [scopeSets] is bound (the function was called with
    [b16acq] true), the handler prints the error and calls [clear] and then
    [set_settings(scopeSets)].  If both calls return, the pass ends at the
    top of the loop with the same cursor [i] and an unchanged container.  If
    [clear] raises, [set_settings] is not called and the exception leaves
    the loop; if [set_settings] raises, its exception leaves the loop: in
    both cases the loop ends there, at cursor [i], without another pass.
    Whenever the body completes at cursor [i], it has written exactly the
    rows [i .. i + sequence_count - 1] of every channel and the cursor
    becomes [i + sequence_count].  No pass changes the cursor in any other
    way: a pass that ends at the top of the loop either completed its body
    and added [sequence_count], or had its body raise an [Exception] and
    kept the cursor. *)
Theorem C1_failed_batch_retried_from_same_index
    (env : Env) (ss : Session) (i : Z) (w w1 : World) (e : PyExc)
    (s : gmap string string) :
  attempt env ss i w = (Raise e, w1) →
  is_Exception e = true →
  scopeSets ss = Some s →
  let cleared := {| w_tick := S (w_tick w1);
                    w_log := EvScope CClear :: EvPrint (MsgError e) :: w_log w1;
                    w_file := w_file w1;
                    w_dim := w_dim w1 |} in
  let w2 := {| w_tick := S (S (w_tick w1));
               w_log := EvScope (CSetSettings s) :: EvScope CClear ::
                        EvPrint (MsgError e) :: w_log w1;
               w_file := w_file w1;
               w_dim := w_dim w1 |} in
  (on_clear env (w_tick w1) = Ok tt →
   on_set_settings env (S (w_tick w1)) = Ok tt →
   iteration env ss i w = (Next i, w2)) ∧
  (∀ e', on_clear env (w_tick w1) = Raise e' →
         iteration env ss i w = (Leaves e', cleared) ∧
         (i < nevents ss →
          ∀ fuel, acquire env ss (S fuel) i w = Some (Aborted i e', cleared))) ∧
  (∀ e', on_clear env (w_tick w1) = Ok tt →
         on_set_settings env (S (w_tick w1)) = Raise e' →
         iteration env ss i w = (Leaves e', w2) ∧
         (i < nevents ss →
          ∀ fuel, acquire env ss (S fuel) i w = Some (Aborted i e', w2))) ∧
  (∀ v v', attempt env ss i v = (Ok tt, v') →
           iteration env ss i v = (Next (i + sequence_count ss), v') ∧
           rows_of (w_log v') = reverse (batch_rows ss i) ++ rows_of (w_log v)) ∧
  (∀ j v j' v',
      iteration env ss j v = (Next j', v') →
      (j' = j + sequence_count ss ∧
       attempt env ss j v = (Ok tt, v')) ∨
      (j' = j ∧
       ∃ e' v1, attempt env ss j v = (Raise e', v1) ∧
                is_Exception e' = true)).
Proof.
  intros Hbody Hexc Hsets cleared w2.
  assert (∀ p v, iteration env ss i w = (Leaves p, v) → i < nevents ss →
                 ∀ fuel, acquire env ss (S fuel) i w = Some (Aborted i p, v))
    as Hleave.
  { intros p v Hit Hlt fuel. simpl.
    destruct (i <? nevents ss) eqn:E; [|lia]. by rewrite Hit. }
  assert (recover env ss e w1 =
          match on_clear env (w_tick w1) with
          | Ok _ => (on_set_settings env (S (w_tick w1)), w2)
          | Raise e' => (Raise e', cleared)
          end) as Hrec.
  { unfold recover, print, scope_clear, scope_set_settings. rewrite Hsets.
    rewrite bind_run, emit_run, bind_run, scope_call_run. simpl w_tick.
    destruct (on_clear env (w_tick w1)) as [[]|e']; [|reflexivity].
    by rewrite scope_call_run. }
  split; [|split; [|split; [|split]]].
  - intros Hclear Hset. unfold iteration.
    by rewrite Hbody, Hexc, Hrec, Hclear, Hset.
  - intros e' Hclear.
    assert (iteration env ss i w = (Leaves e', cleared)) as Hit.
    { unfold iteration. by rewrite Hbody, Hexc, Hrec, Hclear. }
    split; [exact Hit|]. by apply Hleave.
  - intros e' Hclear Hset.
    assert (iteration env ss i w = (Leaves e', w2)) as Hit.
    { unfold iteration. by rewrite Hbody, Hexc, Hrec, Hclear, Hset. }
    split; [exact Hit|]. by apply Hleave.
  - intros v v' Hok. split; [|by apply (rows_batch env)].
    unfold iteration. by rewrite Hok.
  - intros j v j' v'. unfold iteration.
    destruct (attempt env ss j v) as [[[]|e'] v1] eqn:E.
    + intros [= <- <-]. by left.
    + destruct (is_Exception e') eqn:Ee; [|discriminate].
      destruct (recover env ss e' v1) as [[[]|?] v2]; [|discriminate].
      intros [= <- <-]. right. eauto.
Qed.

Lemma C1_witness :
  attempt c1_env c1_ss 0 c1_w = (Raise ConnectionError, c1_w1) ∧
  is_Exception ConnectionError = true ∧
  scopeSets c1_ss = Some c1_sets ∧
  on_clear c1_env (w_tick c1_w1) = Ok tt ∧
  on_set_settings c1_env (S (w_tick c1_w1)) = Ok tt ∧
  iteration c1_env c1_ss 0 c1_w =
  (Next 0, {| w_tick := S (S (w_tick c1_w1));
              w_log := EvScope (CSetSettings c1_sets) :: EvScope CClear ::
                       EvPrint (MsgError ConnectionError) :: w_log c1_w1;
              w_file := w_file c1_w1;
              w_dim := w_dim c1_w1 |}).
Proof.
  assert (attempt c1_env c1_ss 0 c1_w = (Raise ConnectionError, c1_w1)) as Hb
    by (vm_compute; reflexivity).
  assert (scopeSets c1_ss = Some c1_sets) as Hs by (vm_compute; reflexivity).
  assert (on_clear c1_env (w_tick c1_w1) = Ok tt) as Hc
    by (vm_compute; reflexivity).
  assert (on_set_settings c1_env (S (w_tick c1_w1)) = Ok tt) as Hc'
    by (vm_compute; reflexivity).
  split; [exact Hb|]. split; [reflexivity|]. split; [exact Hs|].
  split; [exact Hc|]. split; [exact Hc'|].
  exact (proj1 (C1_failed_batch_retried_from_same_index
                  c1_env c1_ss 0 c1_w c1_w1 ConnectionError c1_sets
                  Hb eq_refl Hs) Hc Hc').
Defined.

Lemma C1_counterexample : ¬ retries_every_failed_batch c1_lost c1_lost_ss.
Proof.
  intros H.
  assert (attempt c1_lost c1_lost_ss 0 c1_lost_w =
          (Raise ConnectionError, (attempt c1_lost c1_lost_ss 0 c1_lost_w).2))
    as Hb by (vm_compute; reflexivity).
  destruct (H 0 c1_lost_w ConnectionError _ Hb eq_refl) as [w2 Hw2].
  assert ((iteration c1_lost c1_lost_ss 0 c1_lost_w).1 = Leaves ConnectionError)
    as Hl by (vm_compute; reflexivity).
  pose proof (eq_trans (eq_sym (f_equal fst Hw2)) Hl) as Hno.
  discriminate Hno.
Qed.



(** *** A payload that cannot be cut into sub-events *)

Lemma for_each_app {A} (l1 l2 : list A) (body : A → M unit) (w : World) :
  for_each (l1 ++ l2) body w = (for_each l1 body ;; for_each l2 body) w.
Proof.
  revert w. induction l1 as [|x l1 IH]; intros w; simpl.
  - reflexivity.
  - rewrite !bind_run. destruct (body x w) as [[[]|e] w1]; [|done].
    rewrite IH. by rewrite bind_run.
Qed.

Lemma batch_on_app (env : Env) (ss : Session) (pre post : list Z) (i : Z)
    (v w : World) :
  batch_on env ss pre i v = (Ok tt, w) →
  batch_on env ss (pre ++ post) i v = for_each post (save_channel env ss i) w.
Proof.
  unfold batch_on. rewrite !bind_run.
  destruct (now env v) as [[t|e] v1]; [|discriminate].
  rewrite !bind_run. destruct (file_op _ _ v1) as [[[]|e] v2]; [|discriminate].
  rewrite !bind_run. destruct (scope_call _ _ v2) as [[[]|e] v3]; [|discriminate].
  intros E. by rewrite for_each_app, bind_run, E.
Qed.

Lemma reshape_rows_indivisible (seq : Z) (a : list Z) :
  0 < seq → Z.of_nat (length a) mod seq ≠ 0 →
  Np.reshape_rows seq a = Raise ValueError.
Proof.
  intros Hseq Hmod. unfold Np.reshape_rows.
  destruct (0 <? seq) eqn:E0; [|lia]. simpl.
  destruct (_ =? _) eqn:E; [|done]. apply Z.eqb_eq in E.
  pose proof (Z.div_mod (Z.of_nat (length a)) seq). lia.
Qed.

Lemma writes_of_quiet (ev : Event) (log : list Event) :
  negb (is_write ev) = true → writes_of (ev :: log) = writes_of log.
Proof. by destruct ev. Qed.

Lemma writes_grow (ss : Session) (c num : Z) (L : list Event) :
  keeps (λ w, writes_of (w_log w) = L) (grow c num).
Proof.
  unfold grow.
  keeps_view writes_of (λ ev, negb (is_write ev)) writes_of_quiet fail.
Qed.

(** Lines 110-112 on a channel whose [current_dim] and column count are
    [d]: no oracle call, the column count becomes the larger of [d] and
    [num], and a resize is logged exactly when [d < num]. *)
Lemma grow_outcome (c num d : Z) (w w1 : World) (st : ChanStore) :
  w_dim w !! c = Some d → h5_chan (w_file w) !! c = Some st → cs_cols st = d →
  grow c num w = (Ok tt, w1) →
  w_tick w1 = w_tick w ∧
  capacity w1 c = Some (Z.max d num) ∧
  resizes (w_log w1)
  = (if d <? num then [(c, num)] else []) ++ resizes (w_log w).
Proof.
  intros Hd Hst Hcols. unfold grow. rewrite bind_run. unfold get_dim at 1.
  rewrite Hd. destruct (d <? num) eqn:Elt.
  - apply Z.ltb_lt in Elt. rewrite bind_run. unfold set_dim at 1.
    rewrite bind_run. unfold get_dim at 1. cbn [w_dim].
    rewrite lookup_insert_eq, chan_op_run. cbn [w_file]. rewrite Hst.
    unfold H5.resize_cols. destruct (num <? 0); [discriminate|].
    intros [= <-]. unfold capacity, cap_of. simpl.
    rewrite lookup_insert_eq. simpl. split; [done|]. split; [|done].
    f_equal. lia.
  - apply Z.ltb_ge in Elt. intros [= <-]. unfold capacity, cap_of.
    rewrite Hst. simpl. split; [done|]. split; [|done]. f_equal. lia.
Qed.

(** C4, as amended.  In a pass that has come, without an exception, to a
    channel whose payload has a sample array that cannot be cut into
    [sequence_count] equal parts (its size is not a multiple of the confirmed
    batch size), saving that channel raises [ValueError] (numpy refuses the
    reshape of line 113) before anything is written for the channel, neither
    a sample row nor a scalar.  Lines 110-112 come before the reshape: when
    the payload's descriptor reports more samples per sub-event than the
    channel's array has columns, the array has been resized to that count,
    and it stays resized.  The sample rows that the pass has written when it
    fails are those of the channels saved before it, all their rows
    [i .. i + sequence_count - 1].  The body of the [try] raises that
    [ValueError], and the handler of line 126 prints it and calls [clear]
    and [set_settings(scopeSets)]; when both return, the pass ends at the
    top of the loop with the same cursor. *)
Theorem C4_indivisible_payload_is_refused
    (env : Env) (ss : Session) (w0 : World) (i c : Z) (pre post : list Z)
    (v w : World) (wf : Waveform) :
  0 < sequence_count ss →
  Good ss w0 v →
  channels ss = pre ++ c :: post →
  (print (MsgFetching i) ;; batch_on env ss pre i) v = (Ok tt, w) →
  on_get_waveform_all env (w_tick w) c = Ok wf →
  Z.of_nat (length (wf_array wf)) mod sequence_count ss ≠ 0 →
  let num := wave_array_count (wf_desc wf) / sequence_count ss in
  ∃ w' d,
    save_channel env ss i c w = (Raise ValueError, w') ∧
    attempt env ss i v = (Raise ValueError, w') ∧
    w_tick w' = S (w_tick w) ∧
    writes_of (w_log w') = writes_of (w_log w) ∧
    rows_of (w_log w') =
    reverse (c' ← pre; (λ n, (c', i + n)) <$> Np.range (sequence_count ss))
    ++ rows_of (w_log v) ∧
    capacity w c = Some d ∧
    capacity w' c = Some (Z.max d num) ∧
    resizes (w_log w')
    = (if d <? num then [(c, num)] else []) ++ resizes (w_log w) ∧
    ∀ s, scopeSets ss = Some s →
         on_clear env (w_tick w') = Ok tt →
         on_set_settings env (S (w_tick w')) = Ok tt →
         iteration env ss i v =
         (Next i, {| w_tick := S (S (w_tick w'));
                     w_log := EvScope (CSetSettings s) :: EvScope CClear ::
                              EvPrint (MsgError ValueError) :: w_log w';
                     w_file := w_file w';
                     w_dim := w_dim w' |}).
Proof.
  intros Hseq HG Hch Hpre Hwf Hmod num.
  assert (c ∈ channels ss) as Hc by (rewrite Hch; set_solver).
  assert (Good ss w0 w) as HGw.
  { revert Hpre. apply keeps_bind; [by apply good_emit| |done].
    intros _. apply good_batch_on; [by intros; lia|].
    rewrite Hch. set_solver. }
  assert (sequence_count ss ≠ 0) as Hnz by lia.
  set (wa := {| w_tick := S (w_tick w);
                w_log := EvScope (CGetWaveformAll c) :: w_log w;
                w_file := w_file w; w_dim := w_dim w |}).
  set (wb := {| w_tick := w_tick wa;
                w_log := EvWaveDesc c (wave_array_count (wf_desc wf))
                         :: w_log wa;
                w_file := w_file wa; w_dim := w_dim wa |}).
  destruct (grow_restores ss w0 c (wave_array_count (wf_desc wf)) wa Hnz Hc)
    as (w2 & d' & Hgrow & HB).
  { exact (good_scope_call ss w0 (CGetWaveformAll c)
             (λ k, on_get_waveform_all env k c) _ _ _ HGw
             (scope_call_run _ _ w)). }
  fold wb in Hgrow. fold num in Hgrow.
  destruct HGw as [((Hchans & Hin & _) & Hdim & _) _].
  destruct (Hin c Hc) as [st Hst].
  destruct (Hdim c) as (Hd & _).
  unfold capacity, cap_of in Hd. rewrite Hst in Hd. simpl in Hd.
  destruct (grow_outcome c num (cs_cols st) wb w2 st Hd Hst eq_refl Hgrow)
    as (Htick & Hcap & Hres).
  exists w2, (cs_cols st).
  assert (save_channel env ss i c w = (Raise ValueError, w2)) as Hsave.
  { unfold save_channel.
    rewrite bind_run, scope_call_run, Hwf, bind_run, emit_run, bind_run.
    unfold lift at 1, Np.floordiv.
    destruct (sequence_count ss =? 0) eqn:E0; [lia|].
    rewrite bind_run. fold wa. fold wb. fold num. rewrite Hgrow.
    unfold save_rows.
    rewrite bind_run. unfold lift at 1, Np.floordiv. rewrite E0.
    rewrite bind_run. unfold lift at 1.
    by rewrite reshape_rows_indivisible. }
  assert (attempt env ss i v = (Raise ValueError, w2)) as Hatt.
  { unfold attempt, batch. rewrite bind_run.
    rewrite bind_run in Hpre.
    destruct (print (MsgFetching i) v) as [[[]|e] v1]; [|discriminate].
    rewrite Hch, (batch_on_app _ _ _ _ _ _ _ Hpre). simpl.
    by rewrite bind_run, Hsave. }
  split; [exact Hsave|]. split; [exact Hatt|]. split; [exact Htick|].
  split; [|split; [|split; [|split; [exact Hcap|split; [exact Hres|]]]]].
  - refine (writes_grow ss c _ (writes_of (w_log w)) _ _ _ _ Hgrow).
    reflexivity.
  - rewrite <- (rows_batch_on env ss pre i v w Hpre).
    refine (rows_grow c _ (rows_of (w_log w)) _ _ _ _ Hgrow). reflexivity.
  - unfold capacity, cap_of. by rewrite Hst.
  - intros s Hs Hclear Hset. unfold iteration. rewrite Hatt. simpl.
    unfold recover, print, scope_clear, scope_set_settings. rewrite Hs.
    rewrite bind_run, emit_run, bind_run, scope_call_run. simpl w_tick.
    rewrite Hclear, scope_call_run. simpl w_tick. by rewrite Hset.
Qed.

Lemma C4_witness :
  0 < sequence_count c4_wide_ss ∧
  channels c4_wide_ss = [1] ++ 2 :: [] ∧
  (print (MsgFetching 0) ;; batch_on c4_wide c4_wide_ss [1] 0) c4_wide_v
  = (Ok tt, c4_wide_w) ∧
  on_get_waveform_all c4_wide (w_tick c4_wide_w) 2 = Ok c4_wide_wf ∧
  Z.of_nat (length (wf_array c4_wide_wf)) mod sequence_count c4_wide_ss ≠ 0 ∧
  attempt c4_wide c4_wide_ss 0 c4_wide_v = (Raise ValueError, c4_wide_w') ∧
  rows_of (w_log c4_wide_w') = [(1, 1); (1, 0)] ∧
  capacity c4_wide_w 2 = Some 3 ∧
  capacity c4_wide_w' 2 = Some 4 ∧
  resizes (w_log c4_wide_w') = [(2, 4)] ∧
  ∃ w' d,
    save_channel c4_wide c4_wide_ss 0 2 c4_wide_w = (Raise ValueError, w') ∧
    attempt c4_wide c4_wide_ss 0 c4_wide_v = (Raise ValueError, w') ∧
    w_tick w' = S (w_tick c4_wide_w) ∧
    writes_of (w_log w') = writes_of (w_log c4_wide_w) ∧
    rows_of (w_log w') =
    reverse (c' ← [1];
             (λ n, (c', 0 + n)) <$> Np.range (sequence_count c4_wide_ss))
    ++ rows_of (w_log c4_wide_v) ∧
    capacity c4_wide_w 2 = Some d ∧
    capacity w' 2
    = Some (Z.max d (wave_array_count (wf_desc c4_wide_wf)
                     / sequence_count c4_wide_ss)) ∧
    resizes (w_log w')
    = (if d <? wave_array_count (wf_desc c4_wide_wf) / sequence_count c4_wide_ss
       then [(2, wave_array_count (wf_desc c4_wide_wf)
                 / sequence_count c4_wide_ss)]
       else []) ++ resizes (w_log c4_wide_w) ∧
    ∀ s, scopeSets c4_wide_ss = Some s →
         on_clear c4_wide (w_tick w') = Ok tt →
         on_set_settings c4_wide (S (w_tick w')) = Ok tt →
         iteration c4_wide c4_wide_ss 0 c4_wide_v =
         (Next 0, {| w_tick := S (S (w_tick w'));
                     w_log := EvScope (CSetSettings s) :: EvScope CClear ::
                              EvPrint (MsgError ValueError) :: w_log w';
                     w_file := w_file w';
                     w_dim := w_dim w' |}).
Proof.
  assert (0 < sequence_count c4_wide_ss) as H1 by (vm_compute; reflexivity).
  assert (channels c4_wide_ss = [1] ++ 2 :: []) as H2
    by (vm_compute; reflexivity).
  assert ((print (MsgFetching 0) ;; batch_on c4_wide c4_wide_ss [1] 0) c4_wide_v
          = (Ok tt, c4_wide_w)) as H3 by (vm_compute; reflexivity).
  assert (on_get_waveform_all c4_wide (w_tick c4_wide_w) 2 = Ok c4_wide_wf)
    as H4 by (vm_compute; reflexivity).
  assert (Z.of_nat (length (wf_array c4_wide_wf)) mod sequence_count c4_wide_ss
          ≠ 0) as H5 by (vm_compute; discriminate).
  assert (setup c4_wide "out" 4 2 "127.0.0.1" 1000 true world0
          = (Ok c4_wide_ss, c4_wide_v)) as Hs by (vm_compute; reflexivity).
  pose proof (conj (proj1 (setup_establishes _ _ _ _ _ _ _ _ _ _ blank_world0 Hs))
                   (grown_refl c4_wide_v)
              : Good c4_wide_ss c4_wide_v c4_wide_v) as HG.
  split; [exact H1|]. split; [exact H2|]. split; [exact H3|].
  split; [exact H4|]. split; [exact H5|].
  split; [vm_compute; reflexivity|]. split; [vm_compute; reflexivity|].
  split; [vm_compute; reflexivity|]. split; [vm_compute; reflexivity|].
  split; [vm_compute; reflexivity|].
  exact (C4_indivisible_payload_is_refused c4_wide c4_wide_ss c4_wide_v 0 2
           [1] [] c4_wide_v c4_wide_w c4_wide_wf H1 HG H2 H3 H4 H5).
Defined.

Lemma C4_counterexample : ¬ refused_batch_writes_no_row c4_env c4_ss 0 c4_v.
Proof.
  intros H.
  assert (channels c4_ss = [1] ++ 2 :: []) as H2 by (vm_compute; reflexivity).
  assert ((print (MsgFetching 0) ;; batch_on c4_env c4_ss [1] 0) c4_v
          = (Ok tt, c4_w)) as H3 by (vm_compute; reflexivity).
  assert (on_get_waveform_all c4_env (w_tick c4_w) 2 = Ok c4_wf) as H4
    by (vm_compute; reflexivity).
  assert (wave_array_count (wf_desc c4_wf) mod sequence_count c4_ss ≠ 0) as H5
    by (vm_compute; discriminate).
  assert (attempt c4_env c4_ss 0 c4_v = (Raise ValueError, c4_w')) as Ha
    by (vm_compute; reflexivity).
  pose proof (H 2 [1] [] c4_w c4_wf H2 H3 H4 eq_refl H5
                (Raise ValueError) c4_w' Ha) as Hrows.
  assert (rows_of (w_log c4_w') = [(1, 1); (1, 0)]) as E1
    by (vm_compute; reflexivity).
  assert (rows_of (w_log c4_v) = []) as E2 by (vm_compute; reflexivity).
  pose proof (eq_trans (eq_sym E1) (eq_trans Hrows E2)) as Hno.
  discriminate Hno.
Qed.

(** *** What a saved channel holds *)

Lemma row_writes_quiet (ev : Event) (log : list Event) :
  negb (is_row_write ev) = true → row_writes (ev :: log) = row_writes log.
Proof. by destruct ev. Qed.

Lemma written_save_subevent (c : Z) (wf : Waveform) (num : Z)
    (traces : list (list Z)) (i n : Z) (scratch s' : list Z) (w w' : World) :
  save_subevent c wf num traces i n scratch w = (Ok s', w') →
  ∃ trace, Np.item traces n = Ok trace ∧
           Np.assign_slice_to num scratch (Np.slice_to num trace) = Ok s' ∧
           row_writes (w_log w') = (c, i + n, s') :: row_writes (w_log w).
Proof.
  unfold save_subevent. intros E.
  apply bind_ok in E as (trace & w1 & E1 & E). injection E1 as E1 <-.
  apply bind_ok in E as (scratch' & w2 & E2 & E). injection E2 as E2 <-.
  assert (s' = scratch') as ->.
  { repeat (apply bind_ok in E as (? & ? & _ & E)). by injection E as <- _. }
  exists trace. split; [done|]. split; [done|].
  apply bind_ok in E as (? & w3 & E3 & E).
  rewrite chan_op_run in E3.
  destruct (h5_chan (w_file w) !! c) as [st|]; [|discriminate].
  destruct (H5.write_row _ _ st) as [st'|]; [|discriminate].
  injection E3 as _ <-.
  eapply (keeps_run
            (λ x, row_writes (w_log x)
                  = (c, i + n, scratch') :: row_writes (w_log w)));
    [| |exact E]; [|reflexivity].
  unfold write_field.
  keeps_view row_writes (λ ev, negb (is_row_write ev)) row_writes_quiet fail.
Qed.

Lemma item_nonneg {A} (a : list A) (n : Z) (x : A) :
  0 ≤ n → Np.item a n = Ok x → a !! Z.to_nat n = Some x.
Proof.
  intros Hn. unfold Np.item, Np.index.
  destruct (n <? 0) eqn:E; [lia|].
  destruct ((0 <=? n) && (n <? Z.of_nat (length a))); [|discriminate].
  destruct (a !! Z.to_nat n); [|discriminate]. by intros [= <-].
Qed.

Lemma chunks_length (r w : nat) (a : list Z) :
  length (Np.chunks r w a) = r.
Proof. revert a. induction r as [|r IH]; intros a; simpl; [done|]. by rewrite IH. Qed.

Lemma chunks_widths (r w : nat) (a : list Z) :
  length a = (r * w)%nat → Forall (λ t, length t = w) (Np.chunks r w a).
Proof.
  revert a. induction r as [|r IH]; intros a Ha; simpl; [done|].
  constructor.
  - rewrite length_take. lia.
  - apply IH. rewrite length_drop. lia.
Qed.

Section Padded.

Variables (c i num d : Z) (wf : Waveform) (traces : list (list Z)).
Hypothesis num_nonneg : 0 ≤ num.
Hypothesis num_le_d : num ≤ d.
Hypothesis widths : Forall (λ t, length t = Z.to_nat num) traces.

Lemma ready_zeros (scratch : list Z) : Np.zeros d = Ok scratch → row_ready num d scratch.
Proof.
  unfold Np.zeros. destruct (d <? 0); [discriminate|]. intros [= <-]. split.
  - apply length_replicate.
  - rewrite drop_replicate. f_equal. lia.
Qed.

Lemma padded_assign (scratch trace s' : list Z) :
  row_ready num d scratch → length trace = Z.to_nat num →
  Np.assign_slice_to num scratch (Np.slice_to num trace) = Ok s' →
  s' = trace ++ replicate (Z.to_nat (d - num)) 0 ∧ row_ready num d s'.
Proof.
  intros [Hlen Hdrop] Htr. unfold Np.assign_slice_to, Np.slice_to.
  rewrite !slice_stop_exact by lia.
  rewrite take_ge by lia. rewrite Htr, Nat.eqb_refl.
  intros [= <-]. rewrite Hdrop. split; [done|]. split.
  - rewrite length_app, length_replicate. lia.
  - rewrite drop_app_length'; done.
Qed.

Lemma written_fold (l : list Z) (scratch s' : list Z) (w w' : World) :
  (∀ n, n ∈ l → 0 ≤ n) → row_ready num d scratch →
  for_fold l (save_subevent c wf num traces i) scratch w = (Ok s', w') →
  row_writes (w_log w') =
  reverse (padded_rows c i num d traces l) ++ row_writes (w_log w).
Proof.
  revert scratch w. induction l as [|n l IH]; intros scratch w Hl Hs; simpl.
  - by intros [= _ <-].
  - intros E. apply bind_ok in E as (s1 & w1 & E1 & E).
    destruct (written_save_subevent _ _ _ _ _ _ _ _ _ _ E1)
      as (trace & Hitem & Hassign & Hrows).
    apply item_nonneg in Hitem; [|apply Hl; by left].
    assert (length trace = Z.to_nat num) as Htr.
    { rewrite Forall_lookup in widths. eauto. }
    destruct (padded_assign _ _ _ Hs Htr Hassign) as [-> Hs1].
    rewrite (IH _ _ (λ m Hm, Hl m (proj2 (elem_of_cons _ _ _) (or_intror Hm))) Hs1 E), Hrows.
    unfold padded_rows. simpl. rewrite reverse_cons, <- app_assoc. simpl.
    unfold sub_event. by rewrite Hitem.
Qed.

End Padded.

Lemma grow_dim (c num d0 : Z) (w w' : World) :
  w_dim w !! c = Some d0 → grow c num w = (Ok tt, w') →
  w_dim w' !! c = Some (Z.max d0 num) ∧
  row_writes (w_log w') = row_writes (w_log w).
Proof.
  intros Hd E. split.
  - unfold grow in E. rewrite bind_run in E. unfold get_dim at 1 in E.
    rewrite Hd in E. destruct (d0 <? num) eqn:Elt.
    + apply bind_ok in E as (? & w1 & E1 & E). injection E1 as _ <-.
      apply bind_ok in E as (d' & w2 & E2 & E).
      unfold get_dim in E2. simpl in E2. rewrite lookup_insert_eq in E2.
      injection E2 as <- <-. rewrite chan_op_run in E. simpl in E.
      destruct (h5_chan (w_file w) !! c); [|discriminate].
      destruct (H5.resize_cols num _); [|discriminate].
      injection E as <-. simpl. rewrite lookup_insert_eq. f_equal. lia.
    + injection E as <-. rewrite Hd. f_equal. lia.
  - eapply (keeps_run (λ x, row_writes (w_log x) = row_writes (w_log w)));
      [| |exact E]; [|reflexivity].
    unfold grow.
    keeps_view row_writes (λ ev, negb (is_row_write ev)) row_writes_quiet fail.
Qed.

(** C5, as amended.  When a channel of a batch is saved, the number of
    samples copied into each zero-padded row is the per-sub-event sample
    count of the payload just fetched, [wave_array_count // sequence_count]
    of that payload, not a length fixed at configuration: the row written at
    index [i + n] is sub-event [n] of the payload in full, followed by zeros
    up to the channel's capacity, which is the larger of the previous
    capacity and that count. *)
Theorem C5_copy_length_is_the_current_count
    (env : Env) (ss : Session) (i c d0 : Z) (w w' : World) (wf : Waveform) :
  0 < sequence_count ss →
  on_get_waveform_all env (w_tick w) c = Ok wf →
  wave_array_count (wf_desc wf) = Z.of_nat (length (wf_array wf)) →
  w_dim w !! c = Some d0 →
  save_channel env ss i c w = (Ok tt, w') →
  let num := wave_array_count (wf_desc wf) / sequence_count ss in
  let d := Z.max d0 num in
  let traces := Np.chunks (Z.to_nat (sequence_count ss)) (Z.to_nat num)
                          (wf_array wf) in
  w_dim w' !! c = Some d ∧
  Forall (λ t, length t = Z.to_nat num) traces ∧
  row_writes (w_log w') =
  reverse (padded_rows c i num d traces (Np.range (sequence_count ss)))
  ++ row_writes (w_log w).
Proof.
  intros Hseq Hwf Hsize Hd E num d traces. unfold save_channel in E.
  rewrite bind_run, scope_call_run, Hwf in E.
  apply bind_ok in E as (? & w2 & E2 & E). injection E2 as _ <-.
  apply bind_ok in E as (num' & w3 & E3 & E). injection E3 as E3 <-.
  unfold Np.floordiv in E3. destruct (sequence_count ss =? 0) eqn:E0; [lia|].
  injection E3 as <-. fold num in E.
  apply bind_ok in E as ([] & w4 & E4 & E).
  apply (grow_dim c num d0) in E4 as [Hd4 Hrows4]; [|exact Hd]. fold d in Hd4.
  simpl in Hrows4. unfold save_rows in E.
  apply bind_ok in E as (? & w5 & E5 & E). injection E5 as _ <-.
  apply bind_ok in E as (traces' & w6 & E6 & E). injection E6 as E6 <-.
  unfold Np.reshape_rows in E6. rewrite <- Hsize in E6. fold num in E6.
  destruct ((0 <? sequence_count ss) && (_ =? _)) eqn:Eshape; [|discriminate].
  injection E6 as <-. fold traces in E.
  apply andb_true_iff in Eshape as [_ Eshape]. apply Z.eqb_eq in Eshape.
  apply bind_ok in E as (d' & w7 & E7 & E).
  unfold get_dim in E7. rewrite Hd4 in E7. injection E7 as <- <-.
  apply bind_ok in E as (scratch & w8 & E8 & E). injection E8 as E8 <-.
  apply bind_ok in E as (s' & w9 & E9 & E). injection E as <-.
  assert (0 ≤ num) as Hnum by (apply Z.div_pos; lia).
  assert (Forall (λ t, length t = Z.to_nat num) traces) as Hw.
  { apply chunks_widths. nia. }
  split; [|split; [exact Hw|]].
  - eapply (keeps_run (λ x, w_dim x !! c = Some d)); [| |exact E9]; [|exact Hd4].
    apply keeps_for_fold. intros n s. unfold save_subevent, write_field.
    repeat first
      [ apply keeps_lift | apply keeps_ret'
      | apply keeps_bind; [|intros ?]
      | intros ? ? ? HP; rewrite chan_op_run;
        destruct (h5_chan _ !! c); [|by intros [= <- <-]];
        match goal with |- context [match ?o with _ => _ end] => destruct o end;
        by intros [= <- <-] ].
  - assert (num ≤ d) as Hle by (unfold d; lia).
    assert (∀ n, n ∈ Np.range (sequence_count ss) → 0 ≤ n) as Hrange.
    { intros n Hn. apply elem_of_seqZ in Hn. lia. }
    rewrite (written_fold c i num d wf traces Hnum Hle Hw _ _ _ _ _
               Hrange ltac:(eapply ready_zeros; eauto) E9).
    by rewrite Hrows4.
Qed.

Lemma C5_witness :
  0 < sequence_count c3_ss ∧
  on_get_waveform_all c3_env (w_tick c5_x) 1 = Ok c5_wf ∧
  wave_array_count (wf_desc c5_wf) = Z.of_nat (length (wf_array c5_wf)) ∧
  w_dim c5_x !! 1 = Some 3 ∧
  save_channel c3_env c3_ss 2 1 c5_x = (Ok tt, c5_x') ∧
  row_writes (w_log c5_x') =
  reverse
    (padded_rows 1 2
       (wave_array_count (wf_desc c5_wf) / sequence_count c3_ss)
       (Z.max 3 (wave_array_count (wf_desc c5_wf) / sequence_count c3_ss))
       (Np.chunks (Z.to_nat (sequence_count c3_ss))
          (Z.to_nat (wave_array_count (wf_desc c5_wf) / sequence_count c3_ss))
          (wf_array c5_wf))
       (Np.range (sequence_count c3_ss)))
  ++ row_writes (w_log c5_x).
Proof.
  assert (0 < sequence_count c3_ss) as H1 by (vm_compute; reflexivity).
  assert (on_get_waveform_all c3_env (w_tick c5_x) 1 = Ok c5_wf) as H2
    by (vm_compute; reflexivity).
  assert (w_dim c5_x !! 1 = Some 3) as H3 by (vm_compute; reflexivity).
  assert (save_channel c3_env c3_ss 2 1 c5_x = (Ok tt, c5_x')) as H4
    by (vm_compute; reflexivity).
  split; [exact H1|]. split; [exact H2|]. split; [reflexivity|].
  split; [exact H3|]. split; [exact H4|].
  exact (proj2 (proj2 (C5_copy_length_is_the_current_count
                         c3_env c3_ss 2 1 3 c5_x c5_x' c5_wf
                         H1 H2 eq_refl H3 H4))).
Defined.

Lemma C5_counterexample :
  capacity c3_w1 1 = Some 3 ∧ ¬ copies_configured_length (w_log c3_w') 1 3.
Proof.
  split; [vm_compute; reflexivity|]. intros H.
  assert (row_writes (w_log c3_w') !! 3%nat = Some (1, 2, [17; 17; 17; 17]))
    as Hl by (vm_compute; reflexivity).
  pose proof (H 2 [17; 17; 17; 17]
                (proj2 (list_elem_of_lookup _ _) (ex_intro _ 3%nat Hl))
                3%nat) as Hz.
  simpl in Hz. specialize (Hz ltac:(lia)). discriminate Hz.
Qed.

(** *** The elapsed-seconds column *)

Lemma seconds_of_quiet (ev : Event) (log : list Event) :
  negb (is_seconds_write ev) = true → seconds_of (ev :: log) = seconds_of log.
Proof. by destruct ev. Qed.

Lemma seconds_save_channel (env : Env) (ss : Session) (i c : Z) (L : list Z) :
  keeps (λ w, seconds_of (w_log w) = L) (save_channel env ss i c).
Proof.
  unfold save_channel, save_rows, save_subevent, write_field, grow.
  keeps_view seconds_of (λ ev, negb (is_seconds_write ev)) seconds_of_quiet fail.
Qed.

(** Whatever the batch size, a body of the [try] that completes at cursor
    [i] has written [seconds_from_start] at index [i] and nowhere else. *)
Lemma seconds_attempt (env : Env) (ss : Session) (i : Z) (w w' : World) :
  attempt env ss i w = (Ok tt, w') →
  seconds_of (w_log w') = i :: seconds_of (w_log w).
Proof.
  unfold attempt, batch, batch_on. intros E.
  apply bind_ok in E as (? & w1 & E1 & E). injection E1 as _ <-.
  apply bind_ok in E as (t & w2 & E2 & E). rewrite now_run in E2.
  injection E2 as _ <-.
  apply bind_ok in E as (? & w3 & E3 & E). rewrite file_op_run in E3.
  destruct (H5.write_seconds _ _ _) as [f|]; [|discriminate].
  injection E3 as _ <-.
  eapply (keeps_run (λ x, seconds_of (w_log x) = i :: seconds_of (w_log w)));
    [| |exact E]; [|reflexivity].
  apply keeps_bind; [|intros _; apply keeps_for_each; intros c;
                      apply seconds_save_channel].
  keeps_view seconds_of (λ ev, negb (is_seconds_write ev)) seconds_of_quiet fail.
Qed.

(** C6, the code at the failing input.  In the error-free run with
    [nevents = 10] and batch size 2 the function returns 10, but
    [seconds_from_start] was written at the indices 0, 2, 4, 6 and 8 only;
    the slots 1, 3, 5, 7 and 9 still hold the fill value 0, and the column
    is not non-decreasing. *)
Theorem C6_seconds_written_once_per_batch :
  c6_run = Some (Ok 10, c6_w) ∧
  seconds_of (w_log c6_w) = [8; 6; 4; 2; 0] ∧
  c6_seconds = [11; 0; 15; 0; 19; 0; 23; 0; 27; 0]%float ∧
  nondecreasing c6_seconds = false.
Proof.
  split; [vm_compute; reflexivity|].
  split; [vm_compute; reflexivity|].
  split; vm_compute; reflexivity.
Qed.

(** *** Growth of the sample dimension *)

Lemma fit_row_longer (cols : nat) (row : list Z) :
  (length row ≤ cols)%nat →
  H5.fit_row cols row = row ++ replicate (cols - length row) 0.
Proof. intros H. unfold H5.fit_row. by rewrite take_ge. Qed.

Lemma resizes_save_rows (ss : Session) (c : Z) (wf : Waveform) (num i : Z)
    (L : list (Z * Z)) :
  keeps (λ w, resizes (w_log w) = L) (save_rows ss c wf num i).
Proof.
  unfold save_rows, save_subevent, write_field.
  keeps_view resizes (λ ev, negb (is_resize ev)) resizes_quiet fail.
Qed.

Lemma grow_once (c d m : Z) (st : ChanStore) (v : World) :
  w_dim v !! c = Some d →
  h5_chan (w_file v) !! c = Some st →
  Forall (λ row, Z.of_nat (length row) = d) (cs_rows st) →
  0 ≤ d → d < m →
  ∃ v' st',
    grow c m v = (Ok tt, v') ∧
    w_log v' = EvResize c m :: w_log v ∧
    w_dim v' !! c = Some m ∧
    h5_chan (w_file v') !! c = Some st' ∧
    cs_cols st' = m ∧
    cs_rows st' = (λ row, row ++ replicate (Z.to_nat (m - d)) 0) <$> cs_rows st.
Proof.
  intros Hd Hst Hrows Hd0 Hlt.
  unfold grow. rewrite bind_run. unfold get_dim at 1. rewrite Hd.
  destruct (d <? m) eqn:E; [|lia].
  rewrite bind_run. unfold set_dim at 1.
  rewrite bind_run. unfold get_dim at 1. simpl w_dim. rewrite lookup_insert_eq.
  rewrite chan_op_run. simpl w_file. rewrite Hst.
  unfold H5.resize_cols. destruct (m <? 0) eqn:E0; [lia|].
  eexists _, _. split; [reflexivity|]. simpl.
  split; [done|]. split; [apply lookup_insert_eq|].
  split; [apply lookup_insert_eq|]. split; [done|]. simpl.
  apply Forall_fmap_ext. eapply Forall_impl; [exact Hrows|].
  intros row Hrow. simpl in Hrow. rewrite fit_row_longer by lia.
  do 2 f_equal. lia.
Qed.

(** C7.  When [current_dim] and the column count of channel [c] are [d]
    and a payload reports [m > d] samples per sub-event, lines 110-112
    resize the sample dimension once, to [m]: the step succeeds, logs the one
    resize, sets [current_dim] and the column count to [m], and every row of
    the channel becomes its former [d] cells followed by [m - d] zeros.  The
    same report again does not resize again, and the whole saving of the
    channel, however it ends, contains this one resize and no other.  (With
    [d = 1000] and [m = 1200]: the first 1000 cells unchanged, the cells
    1000-1199 zero.) *)
Theorem C7_growth_resizes_once_and_pads
    (c d m : Z) (w : World) (st : ChanStore) :
  w_dim w !! c = Some d →
  h5_chan (w_file w) !! c = Some st →
  cs_cols st = d →
  Forall (λ row, Z.of_nat (length row) = d) (cs_rows st) →
  0 ≤ d → d < m →
  ∃ w' st',
    grow c m w = (Ok tt, w') ∧
    w_log w' = EvResize c m :: w_log w ∧
    w_dim w' !! c = Some m ∧
    h5_chan (w_file w') !! c = Some st' ∧
    cs_cols st' = m ∧
    cs_rows st' = (λ row, row ++ replicate (Z.to_nat (m - d)) 0) <$> cs_rows st ∧
    grow c m w' = (Ok tt, w') ∧
    (∀ env ss i wf r w'',
        sequence_count ss ≠ 0 →
        on_get_waveform_all env (w_tick w) c = Ok wf →
        wave_array_count (wf_desc wf) / sequence_count ss = m →
        save_channel env ss i c w = (r, w'') →
        resizes (w_log w'') = (c, m) :: resizes (w_log w)).
Proof.
  intros Hd Hst Hcols Hrows Hd0 Hlt.
  destruct (grow_once c d m st w Hd Hst Hrows Hd0 Hlt)
    as (w' & st' & Hgrow & Hlog & Hd' & Hst' & Hcols' & Hrows').
  exists w', st'. repeat (split; [assumption|]). split.
  - unfold grow. rewrite bind_run. unfold get_dim at 1. rewrite Hd'.
    destruct (m <? m) eqn:E; [lia|]. reflexivity.
  - intros env ss i wf r w'' Hseq Hwf Hm. unfold save_channel.
    rewrite bind_run, scope_call_run, Hwf, bind_run, emit_run, bind_run.
    unfold lift at 1, Np.floordiv.
    destruct (sequence_count ss =? 0) eqn:E0; [lia|]. rewrite Hm, bind_run.
    destruct (grow_once c d m st
                {| w_tick := S (w_tick w);
                   w_log := EvWaveDesc c (wave_array_count (wf_desc wf))
                            :: EvScope (CGetWaveformAll c) :: w_log w;
                   w_file := w_file w; w_dim := w_dim w |}
                Hd Hst Hrows Hd0 Hlt)
      as (v' & st2 & Hgrow2 & Hlog2 & _).
    cbn [w_tick w_log w_file w_dim] in Hgrow2 |- *. rewrite Hgrow2.
    intros E.
    eapply (keeps_run (λ x, resizes (w_log x) = (c, m) :: resizes (w_log w)));
      [apply resizes_save_rows| |exact E].
    by rewrite Hlog2.
Qed.

Lemma C7_witness :
  w_dim c7_w !! 1 = Some 1000 ∧
  h5_chan (w_file c7_w) !! 1 = Some c7_st ∧
  cs_cols c7_st = 1000 ∧
  length (cs_rows c7_st) = 4%nat ∧
  ∃ w' st',
    grow 1 1200 c7_w = (Ok tt, w') ∧
    w_log w' = EvResize 1 1200 :: w_log c7_w ∧
    w_dim w' !! 1 = Some 1200 ∧
    h5_chan (w_file w') !! 1 = Some st' ∧
    cs_cols st' = 1200 ∧
    cs_rows st' =
      (λ row, row ++ replicate (Z.to_nat (1200 - 1000)) 0) <$> cs_rows c7_st ∧
    grow 1 1200 w' = (Ok tt, w') ∧
    (∀ env ss i wf r w'',
        sequence_count ss ≠ 0 →
        on_get_waveform_all env (w_tick c7_w) 1 = Ok wf →
        wave_array_count (wf_desc wf) / sequence_count ss = 1200 →
        save_channel env ss i 1 c7_w = (r, w'') →
        resizes (w_log w'') = (1, 1200) :: resizes (w_log c7_w)).
Proof.
  assert (w_dim c7_w !! 1 = Some 1000) as H1 by (vm_compute; reflexivity).
  assert (h5_chan (w_file c7_w) !! 1 = Some c7_st) as H2
    by (vm_compute; reflexivity).
  assert (cs_cols c7_st = 1000) as H3 by (vm_compute; reflexivity).
  assert (Forall (λ row, Z.of_nat (length row) = 1000) (cs_rows c7_st)) as H4.
  { apply (bool_decide_unpack _). vm_compute. exact I. }
  split; [exact H1|]. split; [exact H2|]. split; [exact H3|].
  split; [vm_compute; reflexivity|].
  exact (C7_growth_resizes_once_and_pads 1 1000 1200 c7_w c7_st
           H1 H2 H3 H4 ltac:(lia) ltac:(lia)).
Defined.

(** *** What the log keeps *)

(** A property of the log that no further event undoes is kept by
    everything the function does. *)
Section LogGrows.

Variable P : list Event → Prop.
Hypothesis P_cons : ∀ ev log, P log → P (ev :: log).

Lemma grows_emit (ev : Event) : keeps (λ w, P (w_log w)) (emit ev).
Proof. intros w r w' HP [= <- <-]. simpl. by apply P_cons. Qed.

Lemma grows_ask {A} (q : nat → Result A) : keeps (λ w, P (w_log w)) (ask q).
Proof. intros w r w' HP [= <- <-]. exact HP. Qed.

Lemma grows_get_dim (c : Z) : keeps (λ w, P (w_log w)) (get_dim c).
Proof.
  intros w r w' HP. unfold get_dim.
  destruct (w_dim w !! c); intros [= <- <-]; exact HP.
Qed.

Lemma grows_set_dim (c d : Z) : keeps (λ w, P (w_log w)) (set_dim c d).
Proof. intros w r w' HP [= <- <-]. exact HP. Qed.

Lemma grows_chan_op (c : Z) (op : ChanStore → Result ChanStore) (ev : Event) :
  keeps (λ w, P (w_log w)) (chan_op c op ev).
Proof.
  intros w r w' HP. rewrite chan_op_run.
  destruct (h5_chan (w_file w) !! c) as [st|]; [|intros [= <- <-]; exact HP].
  destruct (op st); intros [= <- <-]; [|exact HP]. simpl. by apply P_cons.
Qed.

Lemma grows_file_op (op : H5File → Result H5File) (ev : Event) :
  keeps (λ w, P (w_log w)) (file_op op ev).
Proof.
  intros w r w' HP. rewrite file_op_run.
  destruct (op (w_file w)); intros [= <- <-]; [|exact HP].
  simpl. by apply P_cons.
Qed.

Ltac keeps_log :=
  repeat first
    [ apply keeps_ret'
    | apply keeps_lift
    | apply keeps_raise
    | apply grows_emit
    | apply grows_ask
    | apply grows_get_dim
    | apply grows_set_dim
    | apply grows_chan_op
    | apply grows_file_op
    | apply keeps_for_each; intros ?
    | apply keeps_for_fold; intros ? ?
    | match goal with |- keeps _ (if ?b then _ else _) => destruct b end
    | match goal with |- keeps _ (match ?o with Some _ => _ | None => _ end) =>
        destruct o end
    | apply keeps_bind; [|intros ?] ].

Variable env : Env.
Variable ss : Session.

Lemma grows_attempt (i : Z) : keeps (λ w, P (w_log w)) (attempt env ss i).
Proof.
  unfold attempt, batch, batch_on, now, print, scope_call, save_channel,
    save_rows, save_subevent, write_field, grow.
  keeps_log.
Qed.

Lemma grows_recover (e : PyExc) : keeps (λ w, P (w_log w)) (recover env ss e).
Proof.
  unfold recover, scope_clear, scope_set_settings, scope_call, print.
  keeps_log.
Qed.

Lemma grows_iteration (i : Z) (w w' : World) (p : Pass) :
  P (w_log w) → iteration env ss i w = (p, w') → P (w_log w').
Proof.
  intros HP. unfold iteration.
  destruct (attempt env ss i w) as [[[]|e] w1] eqn:E1.
  - intros [= <- <-]. eapply grows_attempt; eauto.
  - assert (P (w_log w1)) as HP1 by (eapply grows_attempt; eauto).
    destruct (is_Exception e); [|by intros [= <- <-]].
    destruct (recover env ss e w1) as [[[]|e'] w2] eqn:E2;
      intros [= <- <-]; eapply grows_recover; eauto.
Qed.

Lemma grows_acquire (fuel : nat) (i : Z) (w w' : World) (x : Exit) :
  P (w_log w) → acquire env ss fuel i w = Some (x, w') → P (w_log w').
Proof.
  revert i w. induction fuel as [|fuel IH]; intros i w HP; simpl.
  - destruct (i <? nevents ss); [discriminate|]. by intros [= <- <-].
  - destruct (i <? nevents ss); [|by intros [= <- <-]].
    destruct (iteration env ss i w) as [[i'|e] w1] eqn:E.
    + apply IH. eapply grows_iteration; eauto.
    + intros [= <- <-]. eapply grows_iteration; eauto.
Qed.

End LogGrows.

Lemma rows_of_cons (p : Z * Z) (ev : Event) (log : list Event) :
  p ∈ rows_of log → p ∈ rows_of (ev :: log).
Proof.
  unfold rows_of. destruct ev; simpl; try done. intros H. by right.
Qed.

Lemma batch_rows_in (ss : Session) (i : Z) (c j : Z) :
  c ∈ channels ss → i ≤ j < i + sequence_count ss → (c, j) ∈ batch_rows ss i.
Proof.
  intros Hc Hj. unfold batch_rows. apply list_elem_of_bind.
  exists c. split; [|done]. apply list_elem_of_fmap.
  exists (j - i). split; [f_equal; lia|]. apply elem_of_seqZ. lia.
Qed.

(** The loop from cursor [i]: where it ends, how many bodies completed on
    the way, and which rows have been written by then. *)
Lemma acquire_counts (env : Env) (ss : Session) (fuel : nat) (i : Z)
    (w w' : World) (x : Exit) :
  acquire env ss fuel i w = Some (x, w') →
  let k := batches_done env ss fuel i w in
  cursor x = i + Z.of_nat k * sequence_count ss ∧
  (k ≤ fuel)%nat ∧
  (∀ c j, c ∈ channels ss → i ≤ j < cursor x → (c, j) ∈ rows_of (w_log w')) ∧
  match x with
  | Completed j =>
      nevents ss ≤ j ∧ (k ≠ 0%nat → j - sequence_count ss < nevents ss)
  | Aborted j _ => j < nevents ss
  end.
Proof.
  revert i w. induction fuel as [|fuel IH]; intros i w; simpl.
  - destruct (i <? nevents ss) eqn:E; [discriminate|]. intros [= <- <-].
    simpl. split; [lia|]. split; [lia|]. split; [intros; lia|]. split; [lia|done].
  - destruct (i <? nevents ss) eqn:E.
    2:{ intros [= <- <-]. simpl. split; [lia|]. split; [lia|].
        split; [intros; lia|]. split; [lia|done]. }
    apply Z.ltb_lt in E. unfold iteration.
    destruct (attempt env ss i w) as [[[]|e] w1] eqn:Ea; simpl.
    + intros Ha. destruct (IH _ _ Ha) as (Hc & Hk & Hrows & Hx).
      set (k := batches_done env ss fuel (i + sequence_count ss) w1) in *.
      split; [lia|]. split; [lia|]. split.
      * intros c j Hin Hj.
        destruct (decide (j < i + sequence_count ss)) as [Hlt|Hge].
        -- refine (grows_acquire (λ log, (c, j) ∈ rows_of log) _ env ss
                     fuel _ w1 w' x _ Ha).
           { intros ev log. apply rows_of_cons. }
           rewrite (rows_batch env ss i w w1 Ea).
           apply elem_of_app. left. apply elem_of_reverse.
           apply batch_rows_in; [done|lia].
        -- apply Hrows; [done|lia].
      * destruct x as [j|j e]; [|done]. destruct Hx as [H1 H2].
        split; [done|]. intros _. simpl in Hc.
        destruct k as [|k']; [lia|]. by apply H2.
    + destruct (is_Exception e).
      * destruct (recover env ss e w1) as [[[]|e'] w2] eqn:Er.
        -- intros Ha. destruct (IH _ _ Ha) as (Hc & Hk & Hrows & Hx).
           split; [exact Hc|]. split; [lia|]. split; [exact Hrows|exact Hx].
        -- intros [= <- <-]. simpl. split; [lia|]. split; [lia|].
           split; [intros; lia|done].
      * intros [= <- <-]. simpl. split; [lia|]. split; [lia|].
        split; [intros; lia|done].
Qed.

(** *** Leaving the loop *)

Lemma finish_run (env : Env) (x : Exit) (w : World) :
  finish env x w =
  (match on_clear env (w_tick w) with
   | Ok _ => Ok (cursor x)
   | Raise e => Raise e
   end,
   {| w_tick := S (w_tick w);
      w_log := teardown_events x ++ w_log w;
      w_file := H5.with_handle Closed (w_file w);
      w_dim := w_dim w |}).
Proof.
  unfold finish, scope_clear, print.
  destruct x as [i|i e]; simpl;
    repeat (rewrite ?bind_run, ?emit_run, ?file_op_run, ?scope_call_run;
            cbn [w_tick w_log w_file w_dim ret]);
    destruct (on_clear env (w_tick w)) as [[]|e']; reflexivity.
Qed.

(** However the loop was left. *)
Lemma fetch_after_setup (env : Env) (fuel : nat) (filename : string)
    (n nseq : Z) (ip : string) (timeout : Z) (b : bool) (w w1 w2 : World)
    (ss : Session) (x : Exit) :
  setup env filename n nseq ip timeout b w = (Ok ss, w1) →
  acquire env ss fuel 0 w1 = Some (x, w2) →
  fetchAndSaveFast env fuel filename n nseq ip timeout b w
  = Some (finish env x w2).
Proof. intros Hs Ha. unfold fetchAndSaveFast. by rewrite Hs, Ha. Qed.

Lemma rows_of_app_r (p : Z * Z) (evs log : list Event) :
  p ∈ rows_of log → p ∈ rows_of (evs ++ log).
Proof.
  intros H. induction evs as [|ev evs IH]; [done|]. by apply rows_of_cons.
Qed.

(** C8, as amended.  On every exit from the loop -- [i < nevents] false, or
    an exception caught by the bare [except:], a user interrupt included --
    the function closes the file and calls [scope.clear()], in this order and
    as its last two actions, leaving the datasets as the loop left them; when
    that call returns, the function returns the cursor [i]; when it raises,
    the function raises its exception.  The cursor is the batch size times
    the number of passes whose body completed, and every event below it has
    had its sample row written for every channel. *)
Theorem C8_teardown_on_every_exit
    (env : Env) (fuel : nat) (filename : string) (n nseq : Z) (ip : string)
    (timeout : Z) (b16acq : bool) (w w1 w2 : World) (ss : Session) (x : Exit) :
  setup env filename n nseq ip timeout b16acq w = (Ok ss, w1) →
  acquire env ss fuel 0 w1 = Some (x, w2) →
  ∃ r w3,
    fetchAndSaveFast env fuel filename n nseq ip timeout b16acq w = Some (r, w3) ∧
    h5_handle (w_file w3) = Closed ∧
    w_log w3 = teardown_events x ++ w_log w2 ∧
    h5_chan (w_file w3) = h5_chan (w_file w2) ∧
    h5_seconds (w_file w3) = h5_seconds (w_file w2) ∧
    (on_clear env (w_tick w2) = Ok tt → r = Ok (cursor x)) ∧
    (∀ e, on_clear env (w_tick w2) = Raise e → r = Raise e) ∧
    cursor x = Z.of_nat (batches_done env ss fuel 0 w1) * sequence_count ss ∧
    (∀ c j, c ∈ channels ss → 0 ≤ j < cursor x → (c, j) ∈ rows_of (w_log w3)).
Proof.
  intros Hs Ha. rewrite (fetch_after_setup _ _ _ _ _ _ _ _ _ _ _ _ _ Hs Ha).
  rewrite finish_run.
  destruct (acquire_counts _ _ _ _ _ _ _ Ha) as (Hc & _ & Hrows & _).
  eexists _, _. split; [reflexivity|]. simpl.
  repeat (split; [reflexivity|]).
  split; [by intros ->|]. split; [by intros e ->|]. split; [exact Hc|].
  intros c j Hin Hj.
  apply (rows_of_app_r (c, j) (_ :: _ :: _ :: _)). by apply Hrows.
Qed.

Lemma C8_witness :
  setup c8_env "out" 10 2 "127.0.0.1" 1000 true world0 = (Ok c8_ss, c8_w1) ∧
  acquire c8_env c8_ss 5 0 c8_w1 = Some (Aborted 4 KeyboardInterrupt, c8_w2) ∧
  fetchAndSaveFast c8_env 5 "out" 10 2 "127.0.0.1" 1000 true world0
  = Some (Ok 4, c8_w3) ∧
  rows_of (w_log c8_w3) =
  [(2, 3); (2, 2); (1, 3); (1, 2); (2, 1); (2, 0); (1, 1); (1, 0)] ∧
  batches_done c8_env c8_ss 5 0 c8_w1 = 2%nat ∧
  ∃ r w3,
    fetchAndSaveFast c8_env 5 "out" 10 2 "127.0.0.1" 1000 true world0
    = Some (r, w3) ∧
    h5_handle (w_file w3) = Closed ∧
    w_log w3 = teardown_events (Aborted 4 KeyboardInterrupt) ++ w_log c8_w2 ∧
    h5_chan (w_file w3) = h5_chan (w_file c8_w2) ∧
    h5_seconds (w_file w3) = h5_seconds (w_file c8_w2) ∧
    (on_clear c8_env (w_tick c8_w2) = Ok tt →
     r = Ok (cursor (Aborted 4 KeyboardInterrupt))) ∧
    (∀ e, on_clear c8_env (w_tick c8_w2) = Raise e → r = Raise e) ∧
    cursor (Aborted 4 KeyboardInterrupt)
    = Z.of_nat (batches_done c8_env c8_ss 5 0 c8_w1) * sequence_count c8_ss ∧
    (∀ c j, c ∈ channels c8_ss → 0 ≤ j < cursor (Aborted 4 KeyboardInterrupt) →
            (c, j) ∈ rows_of (w_log w3)).
Proof.
  assert (setup c8_env "out" 10 2 "127.0.0.1" 1000 true world0
          = (Ok c8_ss, c8_w1)) as Hs by (vm_compute; reflexivity).
  assert (acquire c8_env c8_ss 5 0 c8_w1
          = Some (Aborted 4 KeyboardInterrupt, c8_w2)) as Ha
    by (vm_compute; reflexivity).
  split; [exact Hs|]. split; [exact Ha|].
  split; [vm_compute; reflexivity|]. split; [vm_compute; reflexivity|].
  split; [vm_compute; reflexivity|].
  exact (C8_teardown_on_every_exit c8_env 5 "out" 10 2 "127.0.0.1" 1000 true
           world0 c8_w1 c8_w2 c8_ss (Aborted 4 KeyboardInterrupt) Hs Ha).
Defined.

Lemma C8_counterexample : ¬ returns_count_on_every_exit c8_twice 5 10 2 true.
Proof.
  intros H.
  pose (ss := session_of c8_twice 10 2 true).
  pose (w1 := world_of c8_twice 10 2 true).
  pose (w2 := match acquire c8_twice ss 5 0 w1 with
              | Some (_, w) => w
              | None => world0
              end).
  assert (setup c8_twice "out" 10 2 "127.0.0.1" 1000 true world0 = (Ok ss, w1))
    as Hs by (vm_compute; reflexivity).
  assert (acquire c8_twice ss 5 0 w1 = Some (Aborted 4 KeyboardInterrupt, w2))
    as Ha by (vm_compute; reflexivity).
  destruct (H ss w1 _ w2 Hs Ha) as [w3 Hret].
  assert ((λ o, match o with Some (r, _) => Some r | None => None end)
            (fetchAndSaveFast c8_twice 5 "out" 10 2 "127.0.0.1" 1000 true world0)
          = Some (Raise KeyboardInterrupt)) as Hr by (vm_compute; reflexivity).
  rewrite Hret in Hr. discriminate Hr.
Qed.

(** C10, as amended.  Once the set-up has returned, no exception raised in
    the loop -- in the body of a pass, in the recovery handler, a user
    interrupt -- reaches the caller: the loop ends in some exit [x], and the
    function returns the cursor of [x] whenever the [scope.clear()] of the
    [finally] block returns.  The one exception that does reach the caller is
    an exception raised by that call itself, which happens before the
    [return]. *)
Theorem C10_only_the_teardown_can_raise
    (env : Env) (fuel : nat) (filename : string) (n nseq : Z) (ip : string)
    (timeout : Z) (b16acq : bool) (w w1 w3 : World) (ss : Session)
    (r : Result Z) :
  setup env filename n nseq ip timeout b16acq w = (Ok ss, w1) →
  fetchAndSaveFast env fuel filename n nseq ip timeout b16acq w = Some (r, w3) →
  ∃ x w2,
    acquire env ss fuel 0 w1 = Some (x, w2) ∧
    (on_clear env (w_tick w2) = Ok tt → r = Ok (cursor x)) ∧
    (∀ e, r = Raise e → on_clear env (w_tick w2) = Raise e).
Proof.
  intros Hs Hf. unfold fetchAndSaveFast in Hf. rewrite Hs in Hf.
  destruct (acquire env ss fuel 0 w1) as [[x w2]|] eqn:Ha; [|discriminate].
  rewrite finish_run in Hf. injection Hf as <- _.
  exists x, w2. split; [done|].
  destruct (on_clear env (w_tick w2)) as [[]|e']; split; try done.
  by intros e [= <-].
Qed.

Lemma C10_witness :
  setup c8_env "out" 10 2 "127.0.0.1" 1000 true world0 = (Ok c8_ss, c8_w1) ∧
  fetchAndSaveFast c8_env 5 "out" 10 2 "127.0.0.1" 1000 true world0
  = Some (Ok 4, c8_w3) ∧
  ∃ x w2,
    acquire c8_env c8_ss 5 0 c8_w1 = Some (x, w2) ∧
    (on_clear c8_env (w_tick w2) = Ok tt → Ok 4 = Ok (cursor x)) ∧
    (∀ e, Ok 4 = Raise e → on_clear c8_env (w_tick w2) = Raise e).
Proof.
  assert (setup c8_env "out" 10 2 "127.0.0.1" 1000 true world0
          = (Ok c8_ss, c8_w1)) as Hs by (vm_compute; reflexivity).
  assert (fetchAndSaveFast c8_env 5 "out" 10 2 "127.0.0.1" 1000 true world0
          = Some (Ok 4, c8_w3)) as Hf by (vm_compute; reflexivity).
  split; [exact Hs|]. split; [exact Hf|].
  exact (C10_only_the_teardown_can_raise c8_env 5 "out" 10 2 "127.0.0.1" 1000
           true world0 c8_w1 c8_w3 c8_ss (Ok 4) Hs Hf).
Defined.

Lemma C10_counterexample : ¬ never_propagates c10_lost 5 4 2 true.
Proof.
  intros H.
  pose (ss := session_of c10_lost 4 2 true).
  pose (w1 := world_of c10_lost 4 2 true).
  pose (w3 := match fetchAndSaveFast c10_lost 5 "out" 4 2 "127.0.0.1" 1000
                      true world0 with
              | Some (_, w) => w
              | None => world0
              end).
  assert (setup c10_lost "out" 4 2 "127.0.0.1" 1000 true world0 = (Ok ss, w1))
    as Hs by (vm_compute; reflexivity).
  assert (fetchAndSaveFast c10_lost 5 "out" 4 2 "127.0.0.1" 1000 true world0
          = Some (Raise ConnectionError, w3)) as Hf by (vm_compute; reflexivity).
  pose proof (H ss w1 (Raise ConnectionError) w3 Hs Hf) as Hok.
  discriminate Hok.
Qed.

(** *** A last batch that does not fit *)

Lemma write_row_past_end (n idx : Z) (row : list Z) (st : ChanStore) :
  chan_ok n st → n ≤ idx → H5.write_row idx row st = Raise IndexError.
Proof.
  intros (_ & Hn & _) Hidx. unfold H5.write_row, H5.index.
  rewrite index_past_end by lia. reflexivity.
Qed.

Section PastEnd.

Variable env : Env.
Variable ss : Session.
Hypothesis seq_pos : 0 < sequence_count ss.

Lemma save_subevent_past_end (c : Z) (wf : Waveform) (num : Z)
    (traces : list (list Z)) (i n : Z) (scratch s' : list Z) (w w' : World) :
  FileInv ss w → nevents ss ≤ i + n →
  save_subevent c wf num traces i n scratch w = (Ok s', w') → False.
Proof.
  intros (Hch & _) Hn E. unfold save_subevent in E.
  apply bind_ok in E as (trace & w1 & E1 & E). injection E1 as _ <-.
  apply bind_ok in E as (scratch' & w2 & E2 & E). injection E2 as _ <-.
  apply bind_ok in E as (? & w3 & E3 & _). rewrite chan_op_run in E3.
  destruct (h5_chan (w_file w) !! c) as [st|] eqn:Est; [|discriminate].
  rewrite (write_row_past_end (nevents ss)) in E3; [discriminate|eauto|done].
Qed.

Lemma fold_past_end (c : Z) (wf : Waveform) (num : Z) (traces : list (list Z))
    (i : Z) (l : list Z) (scratch s' : list Z) (w w' : World) :
  FileInv ss w → (nevents ss - i) ∈ l →
  for_fold l (save_subevent c wf num traces i) scratch w = (Ok s', w') → False.
Proof.
  revert scratch w. induction l as [|n l IH]; intros scratch w HF Hin; simpl.
  - inversion Hin.
  - intros E. apply bind_ok in E as (s1 & w1 & E1 & E).
    apply elem_of_cons in Hin as [Hn|Hin].
    + eapply save_subevent_past_end; [exact HF| |exact E1]. lia.
    + eapply IH; [|exact Hin|exact E].
      eapply save_subevent_keeps_file; eauto.
Qed.

Lemma save_channel_past_end (i c : Z) (w w' : World) :
  FileInv ss w → i < nevents ss < i + sequence_count ss →
  save_channel env ss i c w = (Ok tt, w') → False.
Proof.
  intros HF Hi E. unfold save_channel in E.
  apply bind_ok in E as (wf & w1 & E1 & E).
  assert (FileInv ss w1) as HF1.
  { eapply (file_only_scope_call (FileOk ss)); eauto. }
  apply bind_ok in E as (? & w2 & E2 & E).
  assert (FileInv ss w2) as HF2.
  { eapply (file_only_emit (FileOk ss)); eauto. }
  apply bind_ok in E as (num & w3 & E3 & E). injection E3 as _ <-.
  apply bind_ok in E as (? & w4 & E4 & E).
  assert (FileInv ss w4) as HF4 by (eapply grow_keeps_file; eauto).
  unfold save_rows in E.
  apply bind_ok in E as (? & w5 & E5 & E). injection E5 as _ <-.
  apply bind_ok in E as (traces & w6 & E6 & E). injection E6 as _ <-.
  apply bind_ok in E as (d & w7 & E7 & E).
  assert (w7 = w4) as ->.
  { unfold get_dim in E7. destruct (w_dim w4 !! c); [|discriminate].
    by injection E7 as _ <-. }
  apply bind_ok in E as (scratch & w8 & E8 & E). injection E8 as _ <-.
  apply bind_ok in E as (s' & w9 & E9 & _).
  eapply fold_past_end; [exact HF4| |exact E9].
  apply elem_of_seqZ. lia.
Qed.

(** With at least one channel, the body of the [try] cannot complete at a
    cursor [i] with [i < nevents < i + sequence_count]. *)
Lemma attempt_past_end (i : Z) (w w' : World) :
  channels ss ≠ [] → FileInv ss w → i < nevents ss < i + sequence_count ss →
  attempt env ss i w = (Ok tt, w') → False.
Proof.
  intros Hne HF Hi E. unfold attempt, batch, batch_on in E.
  destruct (channels ss) as [|c rest]; [done|].
  apply bind_ok in E as (? & w1 & E1 & E).
  assert (FileInv ss w1) as HF1.
  { eapply (file_only_emit (FileOk ss)); eauto. }
  apply bind_ok in E as (t & w2 & E2 & E).
  assert (FileInv ss w2) as HF2.
  { revert E2. unfold now. apply keeps_bind; [|intros ?|exact HF1].
    - apply (file_only_emit (FileOk ss)).
    - apply (file_only_ask (FileOk ss)). }
  apply bind_ok in E as (? & w3 & E3 & E).
  assert (FileInv ss w3) as HF3.
  { revert E3. apply (file_only_file_op (FileOk ss)); [|exact HF2].
    intros f f' Hf Hop. eapply file_ok_write_seconds; eauto. }
  apply bind_ok in E as (? & w4 & E4 & E).
  assert (FileInv ss w4) as HF4.
  { eapply (file_only_scope_call (FileOk ss)); eauto. }
  simpl in E. apply bind_ok in E as ([] & w5 & E5 & _).
  eapply save_channel_past_end; eauto.
Qed.

Lemma iteration_keeps_file (i : Z) (w w' : World) (p : Pass) :
  FileInv ss w → iteration env ss i w = (p, w') → FileInv ss w'.
Proof.
  intros HF. unfold iteration.
  assert (keeps (FileInv ss) (attempt env ss i)) as K.
  { apply keeps_bind; [apply (file_only_emit (FileOk ss))|].
    intros _. apply batch_keeps_file. }
  destruct (attempt env ss i w) as [[[]|e] w1] eqn:E1.
  - intros [= <- <-]. eapply K; eauto.
  - assert (FileInv ss w1) as HF1 by (eapply K; eauto).
    destruct (is_Exception e); [|by intros [= <- <-]].
    destruct (recover env ss e w1) as [[[]|e'] w2] eqn:E2;
      intros [= <- <-]; eapply recover_keeps_file; eauto.
Qed.

(** A pass at such a cursor keeps the cursor or leaves the loop. *)
Lemma iteration_past_end (i : Z) (w w' : World) (p : Pass) :
  channels ss ≠ [] → FileInv ss w → i < nevents ss < i + sequence_count ss →
  iteration env ss i w = (p, w') → p = Next i ∨ ∃ e, p = Leaves e.
Proof.
  intros Hne HF Hi. unfold iteration.
  destruct (attempt env ss i w) as [[[]|e] w1] eqn:E1.
  - exfalso. eapply attempt_past_end; eauto.
  - destruct (is_Exception e); [|intros [= <- <-]; eauto].
    destruct (recover env ss e w1) as [[[]|e'] w2]; intros [= <- <-]; eauto.
Qed.

Lemma acquire_never_completes (fuel : nat) (i : Z) (w w' : World) (x : Exit) :
  channels ss ≠ [] → nevents ss mod sequence_count ss ≠ 0 →
  FileInv ss w → i mod sequence_count ss = 0 → i < nevents ss →
  acquire env ss fuel i w = Some (x, w') → ∃ j e, x = Aborted j e.
Proof.
  intros Hne Hmod. revert i w.
  induction fuel as [|fuel IH]; intros i w HF Hi Hlt; simpl.
  - destruct (i <? nevents ss) eqn:E; [discriminate|lia].
  - destruct (i <? nevents ss) eqn:E; [|lia].
    destruct (iteration env ss i w) as [[i'|e] w1] eqn:Eit.
    + assert (FileInv ss w1) as HF1 by (eapply iteration_keeps_file; eauto).
      destruct (decide (i + sequence_count ss < nevents ss)) as [Hfit|Hnofit].
      * (* the batch fits with room to spare *)
        assert (i' = i ∨ i' = i + sequence_count ss) as [->| ->].
        { unfold iteration in Eit.
          destruct (attempt env ss i w) as [[[]|e] w2]; [injection Eit as <- _; eauto|].
          destruct (is_Exception e); [|discriminate].
          destruct (recover env ss e w2) as [[[]|?] ?]; [|discriminate].
          injection Eit as <- _. eauto. }
        -- by apply IH.
        -- apply IH; [done| |done].
           rewrite Z.add_mod, Hi, Z_mod_same_full by lia. done.
      * (* it does not fit: [nevents] is no multiple of the batch size *)
        assert (i + sequence_count ss ≠ nevents ss) as Hneq.
        { intros Heq. apply Hmod. rewrite <- Heq.
          rewrite Z.add_mod, Hi, Z_mod_same_full by lia. done. }
        destruct (iteration_past_end i w w1 (Next i') Hne HF ltac:(lia) Eit)
          as [[= ->]|[e [=]]].
        by apply IH.
    + intros [= <- <-]. eauto.
Qed.

End PastEnd.

(** C9, as amended.  After a set-up that returned, with at least one active
    channel, a positive confirmed batch size and [nevents] not a multiple of
    it: a row write at an index at or past [nevents] raises [IndexError];
    every pass at the cursor of the last, partial batch
    ([i < nevents < i + sequence_count]) either keeps the cursor (recovery)
    or leaves the loop by an exception; and the loop never ends by
    [i < nevents] becoming false -- if it ends at all, it is by an exception
    that leaves it (a user interrupt, or a failure inside the recovery
    handler). *)
Theorem C9_partial_last_batch_never_completes
    (env : Env) (filename : string) (n nseq : Z) (ip : string) (timeout : Z)
    (b16acq : bool) (ss : Session) (w1 : World) :
  setup env filename n nseq ip timeout b16acq world0 = (Ok ss, w1) →
  channels ss ≠ [] →
  0 < sequence_count ss →
  nevents ss mod sequence_count ss ≠ 0 →
  (∀ st row idx, chan_ok (nevents ss) st → nevents ss ≤ idx →
                 H5.write_row idx row st = Raise IndexError) ∧
  (∀ i w p w', FileInv ss w → i < nevents ss < i + sequence_count ss →
               iteration env ss i w = (p, w') →
               p = Next i ∨ ∃ e, p = Leaves e) ∧
  (∀ fuel x w, acquire env ss fuel 0 w1 = Some (x, w) → ∃ j e, x = Aborted j e).
Proof.
  intros Hs Hne Hseq Hmod.
  destruct (setup_establishes _ _ _ _ _ _ _ _ _ _ blank_world0 Hs)
    as [(HF & _) _].
  split; [|split].
  - intros st row idx Hok Hidx. by eapply write_row_past_end.
  - intros i w p w' HFw Hi Hit. eapply iteration_past_end; eauto.
  - intros fuel x w Ha.
    assert (0 < nevents ss) as Hpos.
    { destruct HF as (_ & _ & col & _ & Hlen).
      destruct (decide (nevents ss = 0)) as [H0|]; [|lia].
      exfalso. apply Hmod. rewrite H0. apply Z.mod_0_l. lia. }
    eapply (acquire_never_completes env ss Hseq); eauto.
    apply Z.mod_0_l. lia.
Qed.

Lemma C9_witness :
  setup c9_two "out" 3 2 "127.0.0.1" 1000 true world0
  = (Ok c9_two_ss, c9_two_w1) ∧
  channels c9_two_ss ≠ [] ∧
  0 < sequence_count c9_two_ss ∧
  nevents c9_two_ss mod sequence_count c9_two_ss ≠ 0 ∧
  acquire c9_two c9_two_ss 50 0 c9_two_w1 = None ∧
  ∀ fuel x w, acquire c9_two c9_two_ss fuel 0 c9_two_w1 = Some (x, w) →
              ∃ j e, x = Aborted j e.
Proof.
  assert (setup c9_two "out" 3 2 "127.0.0.1" 1000 true world0
          = (Ok c9_two_ss, c9_two_w1)) as Hs by (vm_compute; reflexivity).
  assert (channels c9_two_ss ≠ []) as H1 by (vm_compute; discriminate).
  assert (0 < sequence_count c9_two_ss) as H2 by (vm_compute; reflexivity).
  assert (nevents c9_two_ss mod sequence_count c9_two_ss ≠ 0) as H3
    by (vm_compute; discriminate).
  split; [exact Hs|]. split; [exact H1|]. split; [exact H2|].
  split; [exact H3|]. split; [vm_compute; reflexivity|].
  exact (proj2 (proj2 (C9_partial_last_batch_never_completes
                         c9_two "out" 3 2 "127.0.0.1" 1000 true
                         c9_two_ss c9_two_w1 Hs H1 H2 H3))).
Defined.

Lemma C9_counterexample : ¬ never_completes c9_env c9_ss c9_w1.
Proof.
  intros H.
  assert (nevents c9_ss mod sequence_count c9_ss ≠ 0) as Hmod
    by (vm_compute; discriminate).
  assert (acquire c9_env c9_ss 5 0 c9_w1 = Some (Completed 4, c9_w)) as Ha
    by (vm_compute; reflexivity).
  exact (H Hmod 5%nat 4 c9_w Ha).
Qed.

(** * Beyond the claims: the set-up, whole runs and the file *)

(** ** What the loop leaves alone *)

Section Frame.

Variable env : Env.
Variable ss : Session.
Variable F : H5File → Prop.

Lemma frame_save_channel (i c : Z) :
  (∀ st st' f, F f → h5_chan f !! c = Some st → F (H5.set_chan c st' f)) →
  keeps (λ w, F (w_file w)) (save_channel env ss i c).
Proof.
  intros HF.
  assert (∀ op ev, keeps (λ w, F (w_file w)) (chan_op c op ev)) as Hop.
  { intros op ev. apply (file_only_chan_op F). intros f st st' Hf Hst _.
    by eapply HF. }
  unfold save_channel, save_rows, save_subevent, write_field, grow.
  keeps_file_with F
    ltac:(first [ apply Hop
                | match goal with
                  | |- keeps _ (if ?b then _ else _) => destruct b
                  end ]).
Qed.

Hypothesis F_set_chan :
  ∀ c st st' f, F f → h5_chan f !! c = Some st → F (H5.set_chan c st' f).

Lemma frame_attempt (i : Z) :
  (∀ v f f', F f → H5.write_seconds i v f = Ok f' → F f') →
  keeps (λ w, F (w_file w)) (attempt env ss i).
Proof.
  intros F_write_seconds.
  unfold attempt, batch, batch_on, now, print.
  keeps_file_with F
    ltac:(first [ apply frame_save_channel; intros; eapply F_set_chan; eassumption
                | apply (file_only_file_op F); intros; eapply F_write_seconds;
                  eassumption ]).
Qed.

Lemma frame_recover (e : PyExc) : keeps (λ w, F (w_file w)) (recover env ss e).
Proof.
  unfold recover, scope_clear, scope_set_settings, print.
  keeps_file F. destruct (scopeSets ss); keeps_file F.
Qed.

Lemma frame_iteration (i : Z) (w w' : World) (p : Pass) :
  (∀ v f f', F f → H5.write_seconds i v f = Ok f' → F f') →
  F (w_file w) → iteration env ss i w = (p, w') → F (w_file w').
Proof.
  intros F_write_seconds HF. unfold iteration.
  destruct (attempt env ss i w) as [[[]|e] w1] eqn:E1.
  - intros [= <- <-]. eapply frame_attempt; eauto.
  - assert (F (w_file w1)) as HF1 by (eapply frame_attempt; eauto).
    destruct (is_Exception e); [|by intros [= <- <-]].
    destruct (recover env ss e w1) as [[[]|e'] w2] eqn:E2;
      intros [= <- <-]; eapply frame_recover; eauto.
Qed.

Lemma frame_acquire (fuel : nat) (i : Z) (w w' : World) (x : Exit) :
  (∀ idx v f f', F f → H5.write_seconds idx v f = Ok f' → F f') →
  F (w_file w) → acquire env ss fuel i w = Some (x, w') → F (w_file w').
Proof.
  intros F_write_seconds.
  revert i w. induction fuel as [|fuel IH]; intros i w HF; simpl.
  - destruct (i <? nevents ss); [discriminate|]. by intros [= <- <-].
  - destruct (i <? nevents ss); [|by intros [= <- <-]].
    destruct (iteration env ss i w) as [[i'|e] w1] eqn:E.
    + apply IH. eapply frame_iteration; eauto.
    + intros [= <- <-]. eapply frame_iteration; eauto.
Qed.

End Frame.

Lemma same_but_refl (c : Z) (f : H5File) : same_but c f f.
Proof. by repeat split. Qed.

Lemma same_layout_refl (f : H5File) : same_layout f f.
Proof. by repeat split. Qed.

Lemma same_layout_set_chan (f0 : H5File) (c : Z) (st st' : ChanStore) (f : H5File) :
  same_layout f0 f → h5_chan f !! c = Some st → same_layout f0 (H5.set_chan c st' f).
Proof.
  intros (H1 & H2 & H3 & H4) Hst. split; [|split; [|split]]; simpl; try done.
  rewrite dom_insert_L, <- H3.
  assert (c ∈ dom (h5_chan f)) as Hc by (apply elem_of_dom; eauto).
  apply subseteq_union_1_L. by apply singleton_subseteq_l.
Qed.

Lemma same_layout_write_seconds (f0 : H5File) (idx : Z) (v : float) (f f' : H5File) :
  same_layout f0 f → H5.write_seconds idx v f = Ok f' → same_layout f0 f'.
Proof.
  intros (H1 & H2 & H3 & H4). unfold H5.write_seconds.
  destruct (h5_seconds f) as [col|] eqn:E; [|discriminate].
  destruct (H5.index _ idx); [|discriminate]. intros [= <-].
  split; [|split; [|split]]; simpl; try done.
  rewrite <- H4. split; eauto.
Qed.

(** X1.  Saving a channel changes nothing but the datasets of that channel,
    whether it completes or raises. *)
Theorem save_channel_touches_one_channel
    (env : Env) (ss : Session) (i c : Z) (w : World) :
  same_but c (w_file w) (w_file (save_channel env ss i c w).2).
Proof.
  destruct (save_channel env ss i c w) as [r w'] eqn:E. simpl.
  revert E. apply (frame_save_channel env ss (same_but c (w_file w))).
  - intros st st' f (H1 & H2 & H3 & H4) _.
    split; [|split; [|split]]; simpl; try done.
    intros c' Hc'. rewrite lookup_insert_ne by done. by apply H4.
  - apply same_but_refl.
Qed.

(** X2.  The loop creates and deletes no dataset, changes no attribute of the
    file and does not close it, however many passes it makes and however
    it ends. *)
Theorem loop_keeps_layout
    (env : Env) (ss : Session) (fuel : nat) (i : Z) (w w' : World) (x : Exit) :
  acquire env ss fuel i w = Some (x, w') →
  same_layout (w_file w) (w_file w').
Proof.
  apply (frame_acquire env ss (same_layout (w_file w))).
  - intros c st st' f. apply same_layout_set_chan.
  - intros idx v f f'. apply same_layout_write_seconds.
  - apply same_layout_refl.
Qed.

Lemma loop_keeps_layout_witness :
  acquire c8_env c8_ss 5 0 c8_w1 = Some (Aborted 4 KeyboardInterrupt, c8_w2) ∧
  same_layout (w_file c8_w1) (w_file c8_w2).
Proof.
  assert (acquire c8_env c8_ss 5 0 c8_w1
          = Some (Aborted 4 KeyboardInterrupt, c8_w2)) as Ha
    by (vm_compute; reflexivity).
  split; [exact Ha|].
  exact (loop_keeps_layout c8_env c8_ss 5 0 c8_w1 c8_w2
           (Aborted 4 KeyboardInterrupt) Ha).
Defined.


(** ** The set-up *)

(** A property of the container and of [current_dim] is kept by whatever
    only talks to the driver and prints. *)
Section StoreOnly.

Variable P : World → Prop.
Hypothesis P_store : ∀ w t l,
  P w → P {| w_tick := t; w_log := l; w_file := w_file w; w_dim := w_dim w |}.

Lemma store_only_emit (ev : Event) : keeps P (emit ev).
Proof. intros w r w' HP [= <- <-]. by apply P_store. Qed.

Lemma store_only_ask {A} (q : nat → Result A) : keeps P (ask q).
Proof. intros w r w' HP [= <- <-]. by apply P_store. Qed.

Lemma store_only_configure (env : Env) (n nseq : Z) (ip : string)
    (timeout : Z) (b : bool) :
  keeps P (configure env n nseq ip timeout b).
Proof.
  unfold configure, now, scope_clear, scope_get_settings, scope_set_settings,
    scope_call, print.
  repeat first
    [ apply store_only_ask
    | apply store_only_emit
    | apply keeps_lift
    | apply keeps_ret'
    | match goal with |- keeps _ (if ?b then _ else _) => destruct b end
    | apply keeps_bind; [|intros ?] ].
Qed.

End StoreOnly.

Lemma configure_store (env : Env) (n nseq : Z) (ip : string) (timeout : Z)
    (b : bool) (w w' : World) (r : Result (Session * gmap string string)) :
  configure env n nseq ip timeout b w = (r, w') →
  w_file w' = w_file w ∧ w_dim w' = w_dim w.
Proof.
  apply (store_only_configure (λ v, w_file v = w_file w ∧ w_dim v = w_dim w)).
  - intros v t l H. exact H.
  - done.
Qed.

Lemma setup_ok (env : Env) (filename : string) (n nseq : Z) (ip : string)
    (timeout : Z) (b : bool) (w w1 : World) (ss : Session) :
  setup env filename n nseq ip timeout b w = (Ok ss, w1) →
  ∃ settings w0,
    configure env n nseq ip timeout b w = (Ok (ss, settings), w0) ∧
    create_file env filename ss settings w0 = (Ok tt, w1).
Proof.
  unfold setup. intros E.
  apply bind_ok in E as ([ss' settings] & w0 & E0 & E).
  apply bind_ok in E as ([] & w2 & E2 & E). injection E as <- <-.
  by exists settings, w0.
Qed.

Lemma made_create_channel (env : Env) (ss : Session) (a : gmap string string)
    (done : list Z) (c : Z) (w w' : World) :
  Made env ss a done w → create_channel env ss c w = (Ok tt, w') →
  Made env ss a (done ++ [c]) w' ∧ 0 ≤ nevents ss ∧ sequence_count ss ≠ 0.
Proof.
  intros (Hh & Ha & Hs & Hnd & Hdom & Hall) E. unfold create_channel in E.
  apply bind_ok in E as (wd & w1 & E1 & E).
  rewrite scope_call_run in E1. injection E1 as Ewd <-.
  apply bind_ok in E as (? & w2 & E2 & E). rewrite emit_run in E2.
  injection E2 as _ <-.
  apply bind_ok in E as (d & w3 & E3 & E). unfold lift in E3.
  injection E3 as E3 <-. unfold Np.floordiv in E3.
  destruct (sequence_count ss =? 0) eqn:E0; [discriminate|].
  injection E3 as <-.
  apply bind_ok in E as (? & w4 & E4 & E). injection E4 as _ <-.
  rewrite file_op_run in E. simpl w_file in E.
  set (d := wave_array_count wd / sequence_count ss) in *.
  destruct (H5.create_channel c (nevents ss) d wd (w_file w)) as [f'|?] eqn:Ecr;
    [|discriminate].
  injection E as <-. unfold H5.create_channel in Ecr.
  destruct (h5_chan (w_file w) !! c) as [?|] eqn:Enone; [discriminate|].
  destruct ((nevents ss <? 0) || (d <? 0)) eqn:Eneg; [discriminate|].
  apply orb_false_iff in Eneg as [En Ed].
  injection Ecr as <-.
  assert (c ∉ done) as Hc.
  { intros Hin. apply not_elem_of_dom in Enone. apply Enone.
    rewrite Hdom. by apply elem_of_list_to_set. }
  split; [|split; lia].
  split; [|split; [|split; [|split; [|split]]]]; simpl; try done.
  - apply NoDup_app. split; [done|]. split; [|apply NoDup_singleton].
    intros y Hy Hy'. apply list_elem_of_singleton in Hy' as ->. done.
  - rewrite dom_insert_L, Hdom, list_to_set_app_L. simpl.
    rewrite (right_id_L ∅ (∪)). apply (comm_L (∪)).
  - intros c' Hc'. apply elem_of_app in Hc' as [Hc'|Hc'].
    + destruct (Hall c' Hc') as (k & wd' & H1 & H2 & H3).
      exists k, wd'. assert (c ≠ c') by (intros ->; done).
      simpl. rewrite !lookup_insert_ne by done. done.
    + apply list_elem_of_singleton in Hc' as ->.
      exists (w_tick w), wd. simpl. rewrite !lookup_insert_eq. done.
Qed.

Lemma made_channels (env : Env) (ss : Session) (a : gmap string string)
    (l done : list Z) (w w' : World) :
  Made env ss a done w → for_each l (create_channel env ss) w = (Ok tt, w') →
  Made env ss a (done ++ l) w' ∧ (l ≠ [] → 0 ≤ nevents ss ∧ sequence_count ss ≠ 0).
Proof.
  revert done w. induction l as [|c l IH]; intros done w HM; simpl.
  - intros [= <-]. rewrite app_nil_r. done.
  - intros E. apply bind_ok in E as ([] & w1 & E1 & E).
    destruct (made_create_channel _ _ _ _ _ _ _ HM E1) as (HM1 & Hn & Hseq).
    destruct (IH _ _ HM1 E) as (HM' & _).
    rewrite <- app_assoc in HM'. done.
Qed.

Lemma create_file_made (env : Env) (filename : string) (ss : Session)
    (settings : gmap string string) (w0 w1 : World) :
  w_file w0 = H5.empty →
  create_file env filename ss settings w0 = (Ok tt, w1) →
  0 ≤ nevents ss ∧ NoDup (channels ss) ∧
  h5_attrs (w_file w1) = settings ∧ Fresh env ss w1.
Proof.
  intros Hf E. unfold create_file in E.
  apply bind_ok in E as (? & w3 & E3 & E). rewrite ask_run in E3.
  injection E3 as _ <-.
  apply bind_ok in E as (? & w4 & E4 & E). rewrite file_op_run in E4.
  injection E4 as _ <-.
  apply bind_ok in E as (? & w5 & E5 & E). injection E5 as _ <-.
  apply bind_ok in E as ([] & w6 & E6 & E).
  match type of E6 with for_each _ _ ?v = _ =>
    assert (Made env ss settings [] v) as HM end.
  { split; [|split; [|split; [|split; [|split]]]]; simpl.
    - done.
    - done.
    - by rewrite Hf.
    - apply NoDup_nil_2.
    - by rewrite Hf.
    - intros c Hc. inversion Hc. }
  destruct (made_channels _ _ _ _ _ _ _ HM E6)
    as ((Hh & Ha & Hs & Hnd & Hdom & Hall) & _).
  simpl in Hnd, Hdom, Hall.
  rewrite file_op_run in E.
  destruct (H5.create_seconds (nevents ss) (w_file w6)) as [f'|?] eqn:Ecr;
    [|discriminate].
  injection E as <-. unfold H5.create_seconds in Ecr. rewrite Hs in Ecr.
  destruct (nevents ss <? 0) eqn:En; [discriminate|].
  injection Ecr as <-.
  split; [lia|]. split; [done|]. split; [done|].
  split; [done|]. split; [done|]. split; [done|]. exact Hall.
Qed.

(** X3.  What a set-up that returns leaves behind: the file is open, its
    attributes are the settings the batch size was read from, the active
    channels are pairwise distinct, and each has datasets of [nevents] rows
    filled with zeros, the sample rows as long as the wave descriptor of the
    set-up says ([wave_array_count // sequence_count]), which is also the
    channel's entry of [current_dim]; [seconds_from_start] has [nevents]
    zeros, and there is no other dataset. *)
Theorem setup_creates_zeroed_datasets
    (env : Env) (filename : string) (n nseq : Z) (ip : string) (timeout : Z)
    (b16acq : bool) (w w1 : World) (ss : Session) :
  w_file w = H5.empty →
  setup env filename n nseq ip timeout b16acq w = (Ok ss, w1) →
  nevents ss = n ∧ 0 ≤ n ∧
  NoDup (channels ss) ∧
  confirmed_sequence_count (h5_attrs (w_file w1)) = Ok (sequence_count ss) ∧
  Fresh env ss w1.
Proof.
  intros Hf E. apply setup_ok in E as (settings & w0 & Ec & E).
  destruct (configure_store _ _ _ _ _ _ _ _ _ Ec) as [Hf0 _].
  destruct (configure_session _ _ _ _ _ _ _ _ _ _ Ec) as (Hn & Hcount & _).
  rewrite <- Hf0 in Hf.
  destruct (create_file_made _ _ _ _ _ _ Hf E) as (H0 & Hnd & Ha & HF).
  split; [done|]. split; [lia|]. split; [done|]. split; [by rewrite Ha|done].
Qed.

Lemma setup_creates_zeroed_datasets_witness :
  w_file world0 = H5.empty ∧
  setup c8_env "out" 10 2 "127.0.0.1" 1000 true world0 = (Ok c8_ss, c8_w1) ∧
  nevents c8_ss = 10 ∧ 0 ≤ 10 ∧
  NoDup (channels c8_ss) ∧
  confirmed_sequence_count (h5_attrs (w_file c8_w1))
  = Ok (sequence_count c8_ss) ∧
  Fresh c8_env c8_ss c8_w1.
Proof.
  assert (setup c8_env "out" 10 2 "127.0.0.1" 1000 true world0
          = (Ok c8_ss, c8_w1)) as Hs by (vm_compute; reflexivity).
  assert (w_file world0 = H5.empty) as Hf by reflexivity.
  split; [exact Hf|]. split; [exact Hs|].
  exact (setup_creates_zeroed_datasets c8_env "out" 10 2 "127.0.0.1" 1000 true
           world0 c8_w1 c8_ss Hf Hs).
Defined.


(** ** Failures of the set-up, [b16acq = False], the returned count *)

Section OpenClose.

Variable L : list Event.

Lemma before_emit (ev : Event) :
  is_open ev = false → is_close ev = false → keeps (BeforeOpen L) (emit ev).
Proof.
  intros Ho Hc w r w' (evs & Hl & H1 & H2 & H3) [= <- <-].
  exists (ev :: evs). simpl. rewrite Hl, Ho, Hc. done.
Qed.

Lemma before_ask {A} (q : nat → Result A) : keeps (BeforeOpen L) (ask q).
Proof. intros w r w' H [= <- <-]. exact H. Qed.

Lemma before_configure (env : Env) (n nseq : Z) (ip : string) (timeout : Z)
    (b : bool) :
  keeps (BeforeOpen L) (configure env n nseq ip timeout b).
Proof.
  unfold configure, now, scope_clear, scope_get_settings, scope_set_settings,
    scope_call, print.
  repeat first
    [ apply before_ask
    | apply before_emit; reflexivity
    | apply keeps_lift
    | apply keeps_ret'
    | match goal with |- keeps _ (if ?b then _ else _) => destruct b end
    | apply keeps_bind; [|intros ?] ].
Qed.

Lemma after_emit (ev : Event) :
  is_close ev = false → keeps (AfterOpen L) (emit ev).
Proof.
  intros Hc w r w' (evs & Hl & H1 & H2 & H3) [= <- <-].
  exists (ev :: evs). simpl. rewrite Hl, Hc, H2, orb_true_r. done.
Qed.

Lemma after_ask {A} (q : nat → Result A) : keeps (AfterOpen L) (ask q).
Proof. intros w r w' H [= <- <-]. exact H. Qed.

Lemma after_set_dim (c d : Z) : keeps (AfterOpen L) (set_dim c d).
Proof. intros w r w' H [= <- <-]. exact H. Qed.

Lemma after_file_op (op : H5File → Result H5File) (ev : Event) :
  is_close ev = false →
  (∀ f f', op f = Ok f' → h5_handle f' = h5_handle f) →
  keeps (AfterOpen L) (file_op op ev).
Proof.
  intros Hc Hop w r w' (evs & Hl & H1 & H2 & H3). rewrite file_op_run.
  destruct (op (w_file w)) as [f'|e] eqn:E; intros [= <- <-].
  - exists (ev :: evs). simpl. rewrite Hl, Hc, H2, orb_true_r.
    rewrite (Hop _ _ E). done.
  - by exists evs.
Qed.

Lemma create_channel_handle (c n cols : Z) (d : WaveDesc) (f f' : H5File) :
  H5.create_channel c n cols d f = Ok f' → h5_handle f' = h5_handle f.
Proof.
  unfold H5.create_channel. destruct (h5_chan f !! c); [discriminate|].
  destruct ((n <? 0) || (cols <? 0)); [discriminate|]. by intros [= <-].
Qed.

Lemma create_seconds_handle (n : Z) (f f' : H5File) :
  H5.create_seconds n f = Ok f' → h5_handle f' = h5_handle f.
Proof.
  unfold H5.create_seconds. destruct (h5_seconds f); [discriminate|].
  destruct (n <? 0); [discriminate|]. by intros [= <-].
Qed.

Lemma open_create_file (env : Env) (filename : string) (ss : Session)
    (settings : gmap string string) :
  hoare (BeforeOpen L) (create_file env filename ss settings)
        (λ r w, match r with
                | Ok _ => AfterOpen L w
                | Raise _ => BeforeOpen L w ∨ AfterOpen L w
                end).
Proof.
  unfold create_file. intros w r w' HB. rewrite bind_run, ask_run.
  destruct (on_open env (w_tick w)) as [[]|e].
  2:{ intros [= <- <-]. left.
      exact (before_ask (on_open env) w _ _ HB (ask_run _ w)). }
  rewrite bind_run, file_op_run. cbn [w_tick w_log w_file w_dim].
  match goal with |- ?m ?v = _ → _ => assert (AfterOpen L v) as HA end.
  { destruct HB as (evs & Hl & H1 & H2 & H3).
    exists (EvOpen filename :: evs). simpl. rewrite Hl, H1. done. }
  intros E.
  assert (AfterOpen L w') as HA'.
  { revert E. unfold create_channel, print, scope_call.
    apply keeps_run; [|exact HA].
    repeat first
      [ apply after_ask
      | apply after_set_dim
      | apply after_emit; reflexivity
      | apply after_file_op;
        [reflexivity
        |first [apply create_channel_handle | apply create_seconds_handle]]
      | apply keeps_lift
      | apply keeps_ret'
      | apply keeps_for_each; intros ?
      | apply keeps_bind; [|intros ?] ]. }
  destruct r; [done | by right].
Qed.

End OpenClose.

Lemma setup_raise (env : Env) (filename : string) (n nseq : Z) (ip : string)
    (timeout : Z) (b : bool) (w w1 : World) (e : PyExc) :
  setup env filename n nseq ip timeout b w = (Raise e, w1) →
  configure env n nseq ip timeout b w = (Raise e, w1) ∨
  ∃ ss settings w0,
    configure env n nseq ip timeout b w = (Ok (ss, settings), w0) ∧
    create_file env filename ss settings w0 = (Raise e, w1).
Proof.
  unfold setup. intros E.
  apply bind_raise in E as [E|([ss settings] & w0 & E0 & E)]; [by left|].
  right. exists ss, settings, w0. split; [done|].
  apply bind_raise in E as [E|(? & ? & _ & E)]; [done | discriminate].
Qed.

(** X4.  An exception raised in the set-up (lines 45-96) reaches the caller as it
    is: the [try] starts at line 98, so nothing closes the file.  When the
    exception comes after [h5py.File] has returned the file is left open;
    when it comes before there is no file. *)
Theorem setup_failure_skips_teardown
    (env : Env) (fuel : nat) (filename : string) (n nseq : Z) (ip : string)
    (timeout : Z) (b16acq : bool) (w w1 : World) (e : PyExc) :
  w_file w = H5.empty →
  setup env filename n nseq ip timeout b16acq w = (Raise e, w1) →
  fetchAndSaveFast env fuel filename n nseq ip timeout b16acq w
  = Some (Raise e, w1) ∧
  ∃ evs, w_log w1 = evs ++ w_log w ∧
         existsb is_close evs = false ∧
         if existsb is_open evs then h5_handle (w_file w1) = Opened
         else w_file w1 = H5.empty.
Proof.
  intros Hf E. split.
  { unfold fetchAndSaveFast. by rewrite E. }
  assert (BeforeOpen (w_log w) w) as HB by (by exists []).
  assert (BeforeOpen (w_log w) w1 ∨ AfterOpen (w_log w) w1) as [H|H].
  { apply setup_raise in E as [E|(ss & settings & w0 & E0 & E)].
    - left. eapply before_configure; eauto.
    - assert (BeforeOpen (w_log w) w0) as HB0 by (eapply before_configure; eauto).
      exact (open_create_file _ _ _ _ _ _ _ _ HB0 E). }
  - destruct H as (evs & Hl & H1 & H2 & H3). exists evs. by rewrite H2.
  - destruct H as (evs & Hl & H1 & H2 & H3). exists evs. by rewrite H2.
Qed.

Lemma setup_failure_skips_teardown_witness :
  w_file world0 = H5.empty ∧
  setup late_env "out" 4 2 "127.0.0.1" 1000 true world0
  = (Raise TimeoutError, late_w1) ∧
  h5_handle (w_file late_w1) = Opened ∧
  fetchAndSaveFast late_env 5 "out" 4 2 "127.0.0.1" 1000 true world0
  = Some (Raise TimeoutError, late_w1) ∧
  ∃ evs, w_log late_w1 = evs ++ w_log world0 ∧
         existsb is_close evs = false ∧
         if existsb is_open evs then h5_handle (w_file late_w1) = Opened
         else w_file late_w1 = H5.empty.
Proof.
  assert (setup late_env "out" 4 2 "127.0.0.1" 1000 true world0
          = (Raise TimeoutError, late_w1)) as Hs by (vm_compute; reflexivity).
  assert (w_file world0 = H5.empty) as Hf by reflexivity.
  split; [exact Hf|]. split; [exact Hs|]. split; [vm_compute; reflexivity|].
  exact (setup_failure_skips_teardown late_env 5 "out" 4 2 "127.0.0.1" 1000 true
           world0 late_w1 TimeoutError Hf Hs).
Defined.


(** X5.  With [b16acq = False] the name [scopeSets] is never bound, so the
    handler of line 126 cannot finish: no batch is retried.  A pass that
    comes back to the top of the loop has completed its batch, and the first
    [Exception] in a batch ends the loop with [UnboundLocalError], after the
    handler has cleared the instrument. *)
Theorem without_b16acq_no_batch_is_retried
    (env : Env) (filename : string) (n nseq : Z) (ip : string) (timeout : Z)
    (w w1 : World) (ss : Session) :
  setup env filename n nseq ip timeout false w = (Ok ss, w1) →
  (∀ i v j v', iteration env ss i v = (Next j, v') →
               j = i + sequence_count ss ∧ attempt env ss i v = (Ok tt, v')) ∧
  (∀ i v e v1, attempt env ss i v = (Raise e, v1) →
               is_Exception e = true →
               on_clear env (w_tick v1) = Ok tt →
               ∃ v2, iteration env ss i v = (Leaves UnboundLocalError, v2) ∧
                     w_log v2 = EvScope CClear :: EvPrint (MsgError e) :: w_log v1 ∧
                     ∀ fuel, i < nevents ss →
                       acquire env ss (S fuel) i v
                       = Some (Aborted i UnboundLocalError, v2)).
Proof.
  intros E. apply setup_ok in E as (settings & w0 & Ec & _).
  destruct (configure_session _ _ _ _ _ _ _ _ _ _ Ec) as (_ & _ & Hnone & _).
  specialize (Hnone eq_refl).
  split.
  - intros i v j v'. unfold iteration.
    destruct (attempt env ss i v) as [[[]|e] v1]; [by intros [= <- <-]|].
    destruct (is_Exception e); [|discriminate].
    unfold recover. rewrite Hnone.
    rewrite bind_run. unfold print. rewrite emit_run.
    rewrite bind_run. unfold scope_clear. rewrite scope_call_run.
    cbn [w_tick w_log w_file w_dim].
    destruct (on_clear env (w_tick v1)) as [[]|e']; discriminate.
  - intros i v e v1 Ea He Hclear.
    assert (iteration env ss i v =
            (Leaves UnboundLocalError,
             {| w_tick := S (w_tick v1);
                w_log := EvScope CClear :: EvPrint (MsgError e) :: w_log v1;
                w_file := w_file v1; w_dim := w_dim v1 |})) as Hit.
    { unfold iteration. rewrite Ea, He. unfold recover. rewrite Hnone.
      rewrite bind_run. unfold print. rewrite emit_run.
      rewrite bind_run. unfold scope_clear. rewrite scope_call_run.
      cbn [w_tick w_log w_file w_dim]. rewrite Hclear. reflexivity. }
    eexists. split; [exact Hit|]. split; [reflexivity|].
    intros fuel Hi. simpl.
    destruct (i <? nevents ss) eqn:Elt; [|lia]. by rewrite Hit.
Qed.

Lemma without_b16acq_no_batch_is_retried_witness :
  setup plain_env "out" 4 2 "127.0.0.1" 1000 false world0
  = (Ok plain_ss, plain_w1) ∧
  (iteration plain_env plain_ss 0 plain_w1).1 = Leaves UnboundLocalError ∧
  (∀ i v j v', iteration plain_env plain_ss i v = (Next j, v') →
               j = i + sequence_count plain_ss ∧
               attempt plain_env plain_ss i v = (Ok tt, v')) ∧
  (∀ i v e v1, attempt plain_env plain_ss i v = (Raise e, v1) →
               is_Exception e = true →
               on_clear plain_env (w_tick v1) = Ok tt →
               ∃ v2, iteration plain_env plain_ss i v
                     = (Leaves UnboundLocalError, v2) ∧
                     w_log v2 = EvScope CClear :: EvPrint (MsgError e) :: w_log v1 ∧
                     ∀ fuel, i < nevents plain_ss →
                       acquire plain_env plain_ss (S fuel) i v
                       = Some (Aborted i UnboundLocalError, v2)).
Proof.
  assert (setup plain_env "out" 4 2 "127.0.0.1" 1000 false world0
          = (Ok plain_ss, plain_w1)) as Hs by (vm_compute; reflexivity).
  split; [exact Hs|]. split; [vm_compute; reflexivity|].
  exact (without_b16acq_no_batch_is_retried plain_env "out" 4 2 "127.0.0.1" 1000
           world0 plain_w1 plain_ss Hs).
Defined.


Lemma iteration_next (env : Env) (ss : Session) (i j : Z) (w w' : World) :
  iteration env ss i w = (Next j, w') → j = i ∨ j = i + sequence_count ss.
Proof.
  unfold iteration.
  destruct (attempt env ss i w) as [[[]|e] w1]; [intros [= <- _]; by right|].
  destruct (is_Exception e); [|discriminate].
  destruct (recover env ss e w1) as [[[]|?] ?]; [|discriminate].
  intros [= <- _]. by left.
Qed.

(** X6.  The count the loop ends with is the batch size times the number of
    passes whose body completed: a pass whose body raised adds nothing, a
    pass whose body completed adds one batch.  Every event below that count
    has had its sample row written for every channel.  A loop that ends
    because [i < nevents] is false ends with the first such multiple at or
    above [nevents]; a loop that ends by an exception ends below
    [nevents]. *)
Theorem returned_count_counts_batches
    (env : Env) (ss : Session) (fuel : nat) (w w' : World) (x : Exit) :
  acquire env ss fuel 0 w = Some (x, w') →
  let k := batches_done env ss fuel 0 w in
  cursor x = Z.of_nat k * sequence_count ss ∧
  (k ≤ fuel)%nat ∧
  (∀ c j, c ∈ channels ss → 0 ≤ j < cursor x → (c, j) ∈ rows_of (w_log w')) ∧
  match x with
  | Completed j =>
      nevents ss ≤ j ∧ (k ≠ 0%nat → j - sequence_count ss < nevents ss)
  | Aborted j _ => j < nevents ss
  end.
Proof.
  intros Ha k.
  destruct (acquire_counts _ _ _ _ _ _ _ Ha) as (Hc & Hk & Hrows & Hx).
  split; [exact Hc|]. split; [exact Hk|]. split; [exact Hrows|exact Hx].
Qed.

Lemma returned_count_counts_batches_witness :
  acquire c1_env c1_ss 5 0 c1_w = Some (Completed 4, x6_w) ∧
  batches_done c1_env c1_ss 5 0 c1_w = 2%nat ∧
  seconds_of (w_log x6_w) = [2; 0; 0] ∧
  let k := batches_done c1_env c1_ss 5 0 c1_w in
  cursor (Completed 4) = Z.of_nat k * sequence_count c1_ss ∧
  (k ≤ 5)%nat ∧
  (∀ c j, c ∈ channels c1_ss → 0 ≤ j < cursor (Completed 4) →
          (c, j) ∈ rows_of (w_log x6_w)) ∧
  nevents c1_ss ≤ 4 ∧ (k ≠ 0%nat → 4 - sequence_count c1_ss < nevents c1_ss).
Proof.
  assert (acquire c1_env c1_ss 5 0 c1_w = Some (Completed 4, x6_w)) as Ha
    by (vm_compute; reflexivity).
  split; [exact Ha|]. split; [vm_compute; reflexivity|].
  split; [vm_compute; reflexivity|].
  exact (returned_count_counts_batches c1_env c1_ss 5 c1_w x6_w
           (Completed 4) Ha).
Defined.


(** ** The elapsed seconds between batch starts *)

Lemma index_nonneg (len : nat) (i : Z) (j : nat) :
  0 ≤ i → Np.index len i = Ok j → j = Z.to_nat i.
Proof.
  intros Hi. unfold Np.index. destruct (i <? 0) eqn:E; [lia|].
  destruct ((0 <=? i) && (i <? Z.of_nat len)); [|discriminate].
  by intros [= <-].
Qed.

Lemma seconds_kept_write (seq : Z) (col : list float) (i : Z) (v : float)
    (f f' : H5File) :
  0 ≤ i → i mod seq = 0 →
  seconds_kept seq col f → H5.write_seconds i v f = Ok f' →
  seconds_kept seq col f'.
Proof.
  intros Hi Hmod (col' & Hs & Hlen & Hcol). unfold H5.write_seconds, H5.index.
  rewrite Hs. destruct (Np.index (length col') i) as [j|e] eqn:E; [|discriminate].
  intros [= <-]. apply index_nonneg in E as ->; [|done].
  exists (<[Z.to_nat i := v]> col'). simpl. split; [done|].
  split; [by rewrite length_insert|].
  intros j Hj. rewrite list_lookup_insert_ne; [by apply Hcol|].
  intros <-. apply Hj. by rewrite Z2Nat.id.
Qed.

Lemma seconds_kept_set_chan (seq : Z) (col : list float) (c : Z)
    (st : ChanStore) (f : H5File) :
  seconds_kept seq col f → seconds_kept seq col (H5.set_chan c st f).
Proof. intros H. exact H. Qed.

Lemma acquire_seconds_kept (env : Env) (ss : Session) (col : list float)
    (fuel : nat) (i : Z) (w w' : World) (x : Exit) :
  0 < sequence_count ss → 0 ≤ i → i mod sequence_count ss = 0 →
  seconds_kept (sequence_count ss) col (w_file w) →
  acquire env ss fuel i w = Some (x, w') →
  seconds_kept (sequence_count ss) col (w_file w').
Proof.
  intros Hseq. revert i w. induction fuel as [|fuel IH]; intros i w Hi Hmod HK; simpl.
  - destruct (i <? nevents ss); [discriminate|]. by intros [= <- <-].
  - destruct (i <? nevents ss); [|by intros [= <- <-]].
    destruct (iteration env ss i w) as [[i'|e] w1] eqn:E.
    + assert (seconds_kept (sequence_count ss) col (w_file w1)) as HK1.
      { eapply (frame_iteration env ss (seconds_kept (sequence_count ss) col));
          [| |exact HK|exact E].
        - intros c st st' f Hf _. by apply seconds_kept_set_chan.
        - intros v f f'. by apply seconds_kept_write. }
      destruct (iteration_next _ _ _ _ _ _ E) as [->| ->].
      * by apply IH.
      * apply IH; [lia| |done].
        rewrite Z.add_mod, Hmod, Z_mod_same_full by lia. done.
    + intros [= <- <-].
      eapply (frame_iteration env ss (seconds_kept (sequence_count ss) col));
        [| |exact HK|exact E].
      * intros c st st' f Hf _. by apply seconds_kept_set_chan.
      * intros v f f'. by apply seconds_kept_write.
Qed.

(** X7.  In the file the function leaves, [seconds_from_start] is still zero at
    every index that is not a multiple of the batch size: line 104 writes it
    at the first index of a batch only, whether the batch completes, is
    retried or ends the loop. *)
Theorem seconds_between_batch_starts_stay_zero
    (env : Env) (fuel : nat) (filename : string) (n nseq : Z) (ip : string)
    (timeout : Z) (b16acq : bool) (w w1 w3 : World) (ss : Session)
    (r : Result Z) :
  w_file w = H5.empty →
  setup env filename n nseq ip timeout b16acq w = (Ok ss, w1) →
  0 < sequence_count ss →
  fetchAndSaveFast env fuel filename n nseq ip timeout b16acq w = Some (r, w3) →
  ∃ col, h5_seconds (w_file w3) = Some col ∧
         length col = Z.to_nat n ∧
         ∀ j : nat, (j < Z.to_nat n)%nat →
                    Z.of_nat j mod sequence_count ss ≠ 0 →
                    col !! j = Some 0%float.
Proof.
  intros Hf Hs Hseq E. unfold fetchAndSaveFast in E. rewrite Hs in E.
  destruct (acquire env ss fuel 0 w1) as [[x w2]|] eqn:Ha; [|discriminate].
  rewrite finish_run in E. injection E as _ <-. simpl.
  assert (nevents ss = n ∧ 0 ≤ n ∧
          h5_seconds (w_file w1) = Some (replicate (Z.to_nat n) 0%float))
    as (_ & Hn & Hsec).
  { apply setup_ok in Hs as (settings & v & Ec & Ef).
    destruct (configure_store _ _ _ _ _ _ _ _ _ Ec) as [Hf0 _].
    destruct (configure_session _ _ _ _ _ _ _ _ _ _ Ec) as (Hn & _).
    rewrite <- Hf0 in Hf.
    destruct (create_file_made _ _ _ _ _ _ Hf Ef) as (H0 & _ & _ & _ & Hsec & _).
    rewrite <- Hn. split; [done|]. split; [lia|done]. }
  assert (seconds_kept (sequence_count ss) (replicate (Z.to_nat n) 0%float)
            (w_file w1)) as HK.
  { exists (replicate (Z.to_nat n) 0%float). done. }
  assert (0 mod sequence_count ss = 0) as H0 by (apply Z.mod_0_l; lia).
  destruct (acquire_seconds_kept env ss _ fuel 0 w1 w2 x Hseq (Z.le_refl 0) H0
              HK Ha) as (col & Hc & Hlen & Hcol).
  exists col. split; [done|]. rewrite length_replicate in Hlen. split; [done|].
  intros j Hj Hmod. rewrite (Hcol j Hmod). by apply lookup_replicate_2.
Qed.

Lemma seconds_between_batch_starts_stay_zero_witness :
  w_file world0 = H5.empty ∧
  setup c8_env "out" 10 2 "127.0.0.1" 1000 true world0 = (Ok c8_ss, c8_w1) ∧
  0 < sequence_count c8_ss ∧
  fetchAndSaveFast c8_env 5 "out" 10 2 "127.0.0.1" 1000 true world0
  = Some (Ok 4, c8_w3) ∧
  ∃ col, h5_seconds (w_file c8_w3) = Some col ∧
         length col = Z.to_nat 10 ∧
         ∀ j : nat, (j < Z.to_nat 10)%nat →
                    Z.of_nat j mod sequence_count c8_ss ≠ 0 →
                    col !! j = Some 0%float.
Proof.
  assert (setup c8_env "out" 10 2 "127.0.0.1" 1000 true world0
          = (Ok c8_ss, c8_w1)) as Hs by (vm_compute; reflexivity).
  assert (w_file world0 = H5.empty) as Hf by reflexivity.
  assert (0 < sequence_count c8_ss) as Hseq by (vm_compute; reflexivity).
  assert (fetchAndSaveFast c8_env 5 "out" 10 2 "127.0.0.1" 1000 true world0
          = Some (Ok 4, c8_w3)) as Hr by (vm_compute; reflexivity).
  split; [exact Hf|]. split; [exact Hs|]. split; [exact Hseq|]. split; [exact Hr|].
  exact (seconds_between_batch_starts_stay_zero c8_env 5 "out" 10 2 "127.0.0.1"
           1000 true world0 c8_w1 c8_w3 c8_ss (Ok 4) Hf Hs Hseq Hr).
Defined.


(** ** A run without errors *)

Section Tick.

Variable t : nat.

Lemma tick_emit (ev : Event) : keeps (λ w, w_tick w = t) (emit ev).
Proof. intros w r w' H [= <- <-]. exact H. Qed.

Lemma tick_get_dim (c : Z) : keeps (λ w, w_tick w = t) (get_dim c).
Proof.
  intros w r w' H. unfold get_dim.
  destruct (w_dim w !! c); intros [= <- <-]; exact H.
Qed.

Lemma tick_set_dim (c d : Z) : keeps (λ w, w_tick w = t) (set_dim c d).
Proof. intros w r w' H [= <- <-]. exact H. Qed.

Lemma tick_chan_op (c : Z) (op : ChanStore → Result ChanStore) (ev : Event) :
  keeps (λ w, w_tick w = t) (chan_op c op ev).
Proof.
  intros w r w' H. rewrite chan_op_run.
  destruct (h5_chan (w_file w) !! c) as [st|]; [|by intros [= <- <-]].
  destruct (op st); intros [= <- <-]; exact H.
Qed.

Lemma tick_grow (c m : Z) : keeps (λ w, w_tick w = t) (grow c m).
Proof.
  unfold grow. apply keeps_bind; [apply tick_get_dim|]. intros d.
  destruct (d <? m); [|apply keeps_ret'].
  apply keeps_bind; [apply tick_set_dim|intros _].
  apply keeps_bind; [apply tick_get_dim|intros d'].
  apply tick_chan_op.
Qed.

End Tick.

Lemma max_list_head (l : list Z) (x m : Z) :
  head l = Some x → max_list l = Some m → x ≤ m.
Proof.
  destruct l as [|y l]; [done|]. simpl. intros [= ->].
  destruct (max_list l); intros [= <-]; lia.
Qed.

Lemma item_in_range {A} (a : list A) (n : Z) (x : A) :
  0 ≤ n → a !! Z.to_nat n = Some x → Np.item a n = Ok x.
Proof.
  intros Hn Hx. unfold Np.item.
  rewrite index_in_range; [by rewrite Hx|done|].
  apply lookup_lt_Some in Hx. lia.
Qed.

Section Runs.

Variable env : Env.
Variable ss : Session.
Variable w0 : World.
Hypothesis seq_pos : 0 < sequence_count ss.

Lemma busy_store (c num d : Z) (w : World) :
  c ∈ channels ss → Busy ss w0 c num d w →
  ∃ st, h5_chan (w_file w) !! c = Some st ∧ chan_ok (nevents ss) st ∧
        cs_cols st = d ∧ num ≤ d.
Proof.
  intros Hc [[(Hf & Hd & _) _] [Hobs Hdim]].
  destruct Hf as (Hch & Hin & _). destruct (Hin c Hc) as [st Hst].
  exists st. split; [done|]. split; [eauto|].
  destruct (Hd c) as (H1 & _ & H3). unfold capacity, cap_of in H1, H3.
  rewrite Hst in H1, H3. simpl in H1, H3.
  rewrite Hdim in H1. injection H1 as ->. split; [done|].
  eapply max_list_head; eauto.
Qed.

Lemma write_row_runs (c num d idx : Z) (row : list Z) (w : World) :
  c ∈ channels ss → Busy ss w0 c num d w → scratch_ok num d row →
  0 ≤ idx < nevents ss →
  ∃ w', chan_op c (H5.write_row idx row) (EvWriteRow c idx row) w = (Ok tt, w') ∧
        Busy ss w0 c num d w' ∧ w_tick w' = w_tick w.
Proof.
  intros Hc HB Hs Hidx.
  destruct (busy_store _ _ _ _ Hc HB) as (st & Hst & Hok & Hcols & _).
  assert (∃ st', H5.write_row idx row st = Ok st') as [st' Hw].
  { unfold H5.write_row, H5.index. destruct Hok as (_ & Hn & _).
    rewrite index_in_range by lia. destruct Hs as [Hlen _].
    rewrite Hlen, Hcols, Z.eqb_refl. eauto. }
  assert (chan_op c (H5.write_row idx row) (EvWriteRow c idx row) w =
          (Ok tt, {| w_tick := w_tick w; w_log := EvWriteRow c idx row :: w_log w;
                     w_file := H5.set_chan c st' (w_file w);
                     w_dim := w_dim w |})) as E.
  { rewrite chan_op_run, Hst, Hw. reflexivity. }
  eexists. split; [exact E|]. split; [|reflexivity].
  exact (busy_write_row ss w0 c num d idx row Hs _ _ _ HB E).
Qed.

Lemma write_field_runs (c num d : Z) (fld : Field) (idx : Z) (v : float)
    (w : World) :
  c ∈ channels ss → Busy ss w0 c num d w → 0 ≤ idx < nevents ss →
  ∃ w', write_field c fld idx v w = (Ok tt, w') ∧
        Busy ss w0 c num d w' ∧ w_tick w' = w_tick w.
Proof.
  intros Hc HB Hidx.
  destruct (busy_store _ _ _ _ Hc HB) as (st & Hst & Hok & Hcols & _).
  assert (∃ st', H5.write_scalar fld idx v st = Ok st') as [st' Hw].
  { unfold H5.write_scalar, H5.index. destruct Hok as (_ & _ & _ & Hn).
    rewrite index_in_range; [eauto|lia|]. rewrite (Hn fld). lia. }
  assert (write_field c fld idx v w =
          (Ok tt, {| w_tick := w_tick w;
                     w_log := EvWriteScalar c fld idx v :: w_log w;
                     w_file := H5.set_chan c st' (w_file w);
                     w_dim := w_dim w |})) as E.
  { unfold write_field. rewrite chan_op_run, Hst, Hw. reflexivity. }
  eexists. split; [exact E|]. split; [|reflexivity].
  exact (busy_write_field ss w0 c num d c fld idx v _ _ _ HB E).
Qed.

Lemma save_subevent_runs (c num d : Z) (wf : Waveform) (traces : list (list Z))
    (i n : Z) (scratch trace : list Z) (w : World) :
  c ∈ channels ss → Busy ss w0 c num d w → scratch_ok num d scratch →
  0 ≤ num → 0 ≤ n →
  traces !! Z.to_nat n = Some trace → length trace = Z.to_nat num →
  n < Z.of_nat (length (wf_trg_offsets wf)) →
  n < Z.of_nat (length (wf_trg_times wf)) →
  0 ≤ i + n < nevents ss →
  ∃ s' w', save_subevent c wf num traces i n scratch w = (Ok s', w') ∧
           Busy ss w0 c num d w' ∧ scratch_ok num d s' ∧ w_tick w' = w_tick w.
Proof.
  intros Hc HB Hs Hnum Hn Htr Hlen Hoff Htm Hidx.
  destruct (busy_store _ _ _ _ Hc HB) as (st & _ & _ & _ & Hle).
  pose proof (item_in_range _ _ _ Hn Htr) as Hitem.
  set (s' := trace ++ drop (Z.to_nat num) scratch).
  assert (Np.assign_slice_to num scratch (Np.slice_to num trace) = Ok s') as Ha.
  { unfold Np.assign_slice_to, Np.slice_to. destruct Hs as [Hl _].
    rewrite !slice_stop_exact by lia.
    rewrite take_ge by lia. rewrite Hlen, Nat.eqb_refl. done. }
  pose proof (assign_slice_scratch_ok _ _ _ _ _ Hs Ha) as Hs'.
  destruct (lookup_lt_is_Some_2 (wf_trg_offsets wf) (Z.to_nat n) ltac:(lia))
    as [off Hoff'].
  pose proof (item_in_range _ _ _ Hn Hoff') as Hioff.
  destruct (lookup_lt_is_Some_2 (wf_trg_times wf) (Z.to_nat n) ltac:(lia))
    as [tm Htm'].
  pose proof (item_in_range _ _ _ Hn Htm') as Hitm.
  destruct (write_row_runs c num d (i + n) s' w Hc HB Hs' Hidx)
    as (w1 & E1 & HB1 & T1).
  destruct (write_field_runs c num d VertOffset (i + n)
              (vertical_offset (wf_desc wf)) w1 Hc HB1 Hidx)
    as (w2 & E2 & HB2 & T2).
  destruct (write_field_runs c num d VertScale (i + n)
              (vertical_gain (wf_desc wf)) w2 Hc HB2 Hidx)
    as (w3 & E3 & HB3 & T3).
  destruct (write_field_runs c num d HorizOffset (i + n)
              (horiz_offset (wf_desc wf)) w3 Hc HB3 Hidx)
    as (w4 & E4 & HB4 & T4).
  destruct (write_field_runs c num d HorizScale (i + n)
              (horiz_interval (wf_desc wf)) w4 Hc HB4 Hidx)
    as (w5 & E5 & HB5 & T5).
  destruct (write_field_runs c num d TrigOffset (i + n) off w5 Hc HB5 Hidx)
    as (w6 & E6 & HB6 & T6).
  destruct (write_field_runs c num d TrigTime (i + n) tm w6 Hc HB6 Hidx)
    as (w7 & E7 & HB7 & T7).
  exists s', w7. split; [|split; [done|split; [done|congruence]]].
  unfold save_subevent.
  rewrite bind_run. unfold lift at 1. rewrite Hitem.
  rewrite bind_run. unfold lift at 1. rewrite Ha.
  rewrite bind_run, E1, bind_run, E2, bind_run, E3, bind_run, E4, bind_run, E5.
  rewrite bind_run. unfold lift at 1. rewrite Hioff.
  rewrite bind_run, E6.
  rewrite bind_run. unfold lift at 1. rewrite Hitm.
  rewrite bind_run, E7. reflexivity.
Qed.

Lemma fold_runs (c num d : Z) (wf : Waveform) (traces : list (list Z))
    (i : Z) (l : list Z) (scratch : list Z) (w : World) :
  c ∈ channels ss → 0 ≤ num →
  Forall (λ t, length t = Z.to_nat num) traces →
  (∀ n, n ∈ l → 0 ≤ n < Z.of_nat (length traces) ∧
                n < Z.of_nat (length (wf_trg_offsets wf)) ∧
                n < Z.of_nat (length (wf_trg_times wf)) ∧
                0 ≤ i + n < nevents ss) →
  Busy ss w0 c num d w → scratch_ok num d scratch →
  ∃ s' w', for_fold l (save_subevent c wf num traces i) scratch w = (Ok s', w') ∧
           Busy ss w0 c num d w' ∧ w_tick w' = w_tick w.
Proof.
  intros Hc Hnum Hw. revert scratch w.
  induction l as [|n l IH]; intros scratch w Hl HB Hs; simpl.
  - exists scratch, w. done.
  - destruct (Hl n ltac:(by left)) as (Hn & Hoff & Htm & Hidx).
    destruct (lookup_lt_is_Some_2 traces (Z.to_nat n) ltac:(lia)) as [trace Htr].
    assert (length trace = Z.to_nat num) as Hlen.
    { eapply (proj1 (Forall_lookup _ _) Hw); eauto. }
    destruct (save_subevent_runs c num d wf traces i n scratch trace w Hc HB Hs
                Hnum ltac:(lia) Htr Hlen Hoff Htm Hidx)
      as (s1 & w1 & E1 & HB1 & Hs1 & T1).
    destruct (IH s1 w1 ltac:(intros m Hm; apply Hl; by right) HB1 Hs1)
      as (s' & w' & E & HB' & T').
    exists s', w'. split; [|split; [done|congruence]].
    rewrite bind_run, E1. exact E.
Qed.

Lemma save_channel_runs (i c : Z) (wf : Waveform) (w : World) :
  c ∈ channels ss → Good ss w0 w →
  on_get_waveform_all env (w_tick w) c = Ok wf →
  payload_ok (sequence_count ss) wf →
  0 ≤ i → i + sequence_count ss ≤ nevents ss →
  ∃ w', save_channel env ss i c w = (Ok tt, w') ∧ Good ss w0 w' ∧
        w_tick w' = S (w_tick w).
Proof.
  intros Hc HG Hwf (Hcount & Hmod & Hoff & Htm) Hi Hfit.
  destruct (scope_call (CGetWaveformAll c)
              (λ k, on_get_waveform_all env k c) w) as [r w1] eqn:E1.
  assert (Good ss w0 w1) as HG1 by (eapply good_scope_call; eauto).
  rewrite scope_call_run in E1. injection E1 as Hr Hw1. rewrite Hwf in Hr.
  assert (w_tick w1 = S (w_tick w)) as T1 by (by rewrite <- Hw1).
  assert (scope_call (CGetWaveformAll c)
            (λ k, on_get_waveform_all env k c) w = (Ok wf, w1)) as E1.
  { rewrite scope_call_run, Hwf, Hw1. reflexivity. }
  clear Hw1 Hr r.
  destruct (grow_restores ss w0 c (wave_array_count (wf_desc wf)) w1
              ltac:(lia) Hc HG1) as (w2 & d & Hgrow & HB).
  assert (w_tick w2 = w_tick w1) as T2.
  { refine (tick_grow (w_tick w1) c _ _ _ _ _ Hgrow). reflexivity. }
  destruct (busy_store _ _ _ _ Hc HB) as (st & Hst & Hok & Hcols & Hle).
  set (num := wave_array_count (wf_desc wf) / sequence_count ss) in *.
  set (size := Z.of_nat (length (wf_array wf))) in *.
  assert (0 ≤ num) as Hnum by (apply Z.div_pos; lia).
  assert (sequence_count ss * num = size) as Hsize.
  { unfold num. rewrite Hcount.
    pose proof (Z.div_mod size (sequence_count ss) ltac:(lia)) as Hdm.
    rewrite Hcount in Hmod. fold size in Hmod. lia. }
  set (traces := Np.chunks (Z.to_nat (sequence_count ss)) (Z.to_nat num)
                           (wf_array wf)).
  assert (Np.reshape_rows (sequence_count ss) (wf_array wf) = Ok traces) as Hre.
  { unfold Np.reshape_rows. fold size. rewrite <- Hcount. fold num.
    destruct (0 <? sequence_count ss) eqn:E0; [|lia].
    destruct (sequence_count ss * num =? wave_array_count (wf_desc wf)) eqn:E2;
      [done|lia]. }
  assert (Forall (λ t, length t = Z.to_nat num) traces) as Hw.
  { apply chunks_widths. apply Nat2Z.inj. rewrite Nat2Z.inj_mul, !Z2Nat.id by lia.
    fold size. lia. }
  assert (length traces = Z.to_nat (sequence_count ss)) as Hlt
    by apply chunks_length.
  assert (Np.zeros d = Ok (replicate (Z.to_nat d) 0)) as Hz.
  { unfold Np.zeros. destruct Hok as (H0 & _).
    destruct (d <? 0) eqn:E0; [lia|done]. }
  pose proof (zeros_scratch_ok num d _ Hz) as Hs.
  destruct (fold_runs c num d wf traces i (Np.range (sequence_count ss))
              (replicate (Z.to_nat d) 0) w2 Hc Hnum Hw) as (s' & w3 & E3 & HB3 & T3).
  { intros n Hn. apply elem_of_seqZ in Hn. lia. }
  { exact HB. }
  { exact Hs. }
  exists w3. split; [|split; [apply HB3|congruence]].
  unfold save_channel. rewrite bind_run, E1, bind_run, emit_run.
  rewrite bind_run. unfold lift at 1, Np.floordiv.
  destruct (sequence_count ss =? 0) eqn:E0; [lia|].
  fold num. rewrite bind_run, Hgrow.
  unfold save_rows. rewrite bind_run. unfold lift at 1, Np.floordiv. rewrite E0.
  rewrite bind_run. unfold lift at 1. rewrite Hre.
  rewrite bind_run. unfold get_dim at 1. destruct HB as [_ [_ Hdim]]. rewrite Hdim.
  rewrite bind_run. unfold lift at 1. rewrite Hz.
  rewrite bind_run, E3. reflexivity.
Qed.

Lemma channels_run (i : Z) (l : list Z) (w : World) :
  l ⊆ channels ss → Good ss w0 w → answers env ss (w_tick w) →
  0 ≤ i → i + sequence_count ss ≤ nevents ss →
  ∃ w', for_each l (save_channel env ss i) w = (Ok tt, w') ∧ Good ss w0 w' ∧
        w_tick w' = (w_tick w + length l)%nat.
Proof.
  intros Hsub HG Hans Hi Hfit. revert w HG Hans.
  induction l as [|c l IH]; intros w HG Hans; simpl.
  - exists w. split; [done|]. split; [done|lia].
  - assert (c ∈ channels ss) as Hc by (apply Hsub; by left).
    destruct (Hans (w_tick w) ltac:(lia)) as (_ & _ & Hwf).
    destruct (Hwf c Hc) as (wf & Ewf & Hp).
    destruct (save_channel_runs i c wf w Hc HG Ewf Hp Hi Hfit)
      as (w1 & E1 & HG1 & T1).
    destruct (IH ltac:(intros x Hx; apply Hsub; by right) w1 HG1) as (w' & E & HG' & T').
    { intros k Hk. apply Hans. lia. }
    exists w'. split; [|split; [done|lia]].
    rewrite bind_run, E1. exact E.
Qed.

Lemma attempt_runs (i : Z) (w : World) :
  Good ss w0 w → answers env ss (w_tick w) →
  0 ≤ i → i + sequence_count ss ≤ nevents ss →
  ∃ w', attempt env ss i w = (Ok tt, w') ∧ Good ss w0 w' ∧
        w_tick w' = (w_tick w + (2 + length (channels ss)))%nat.
Proof.
  intros HG Hans Hi Hfit.
  set (t := PrimFloat.sub (clock env (w_tick w)) (startTime ss)).
  set (wa := {| w_tick := S (w_tick w);
                w_log := EvTime :: EvPrint (MsgFetching i) :: w_log w;
                w_file := w_file w; w_dim := w_dim w |}).
  assert ((print (MsgFetching i) ;; now env) w = (Ok (clock env (w_tick w)), wa))
    as Ea by reflexivity.
  assert (Good ss w0 wa) as HGa.
  { revert Ea. apply keeps_run; [|exact HG].
    apply keeps_bind; [by apply good_emit|intros _]. unfold now.
    apply keeps_bind; [by apply good_emit|intros _]. apply good_ask. }
  destruct (file_op (H5.write_seconds i t) (EvWriteSeconds i t) wa)
    as [r wb] eqn:Eb.
  assert (Good ss w0 wb) as HGb.
  { revert Eb. apply keeps_run; [|exact HGa]. apply good_write_seconds. }
  assert (r = Ok tt ∧ w_tick wb = S (w_tick w)) as [-> Tb].
  { rewrite file_op_run in Eb.
    destruct HGa as [((_ & _ & col & Hcol & Hlen) & _) _].
    unfold H5.write_seconds, H5.index in Eb. rewrite Hcol in Eb.
    rewrite index_in_range in Eb by lia. by injection Eb as <- <-. }
  destruct (Hans (S (w_tick w)) ltac:(lia)) as (Htrig & _).
  set (wc := {| w_tick := S (S (w_tick w)); w_log := EvScope CTrigger :: w_log wb;
                w_file := w_file wb; w_dim := w_dim wb |}).
  assert (scope_call CTrigger (on_trigger env) wb = (Ok tt, wc)) as Ec.
  { rewrite scope_call_run, Tb, Htrig. reflexivity. }
  assert (Good ss w0 wc) as HGc by (eapply good_scope_call; eauto).
  destruct (channels_run i (channels ss) wc ltac:(done) HGc) as (w' & E & HG' & T');
    [|done|done|].
  { intros k Hk. apply Hans. simpl in Hk. lia. }
  exists w'. split; [|split; [done|]].
  - unfold attempt, batch, batch_on.
    change (print (MsgFetching i) ≫= λ _, now env ≫= ?k)
      with ((print (MsgFetching i) ;; now env) ≫= k).
    rewrite bind_run.
    change ((print (MsgFetching i) ≫= λ _, now env) w)
      with ((print (MsgFetching i) ;; now env) w).
    rewrite Ea. fold t. rewrite bind_run, Eb, bind_run, Ec. exact E.
  - rewrite T'. simpl. lia.
Qed.

Lemma acquire_runs (k : nat) :
  ∀ (fuel : nat) (i : Z) (w : World),
    (k ≤ fuel)%nat →
    Good ss w0 w → answers env ss (w_tick w) → 0 ≤ i →
    nevents ss = i + Z.of_nat k * sequence_count ss →
    ∃ w', acquire env ss fuel i w = Some (Completed (nevents ss), w') ∧
          Good ss w0 w' ∧
          w_tick w' = (w_tick w + k * (2 + length (channels ss)))%nat ∧
          rows_of (w_log w') = reverse (run_rows ss i k) ++ rows_of (w_log w).
Proof.
  induction k as [|k IH]; intros fuel i w Hfuel HG Hans Hi Hn.
  - exists w. assert (i = nevents ss) as -> by lia.
    split; [|split; [done|split; [lia|done]]].
    destruct fuel; simpl; rewrite Z.ltb_irrefl; done.
  - destruct fuel as [|fuel]; [lia|].
    destruct (attempt_runs i w HG Hans Hi ltac:(nia)) as (w1 & E1 & HG1 & T1).
    destruct (IH fuel (i + sequence_count ss) w1 ltac:(lia) HG1)
      as (w' & E & HG' & T' & R'); [|lia|lia|].
    { intros j Hj. apply Hans. lia. }
    exists w'. split; [|split; [done|split; [lia|]]].
    + simpl. destruct (i <? nevents ss) eqn:Elt; [|nia].
      unfold iteration. rewrite E1. exact E.
    + rewrite R', (rows_batch env ss i w w1 E1). simpl.
      rewrite reverse_app, app_assoc. done.
Qed.

End Runs.

(** X8.  When the driver answers every call, the payloads are well formed and
    [nevents] is [k] batches, the loop makes exactly [k] passes: the function
    returns [nevents], has written the rows of the [k] batches in order and
    nothing else into the sample arrays, has asked the clock and the driver
    [2 + len(channels)] times per batch and once more for the final clear,
    and leaves the file closed. *)
Theorem error_free_run_returns_nevents
    (env : Env) (filename : string) (n nseq : Z) (ip : string) (timeout : Z)
    (b16acq : bool) (ss : Session) (w1 : World) (k fuel : nat) :
  setup env filename n nseq ip timeout b16acq world0 = (Ok ss, w1) →
  0 < sequence_count ss →
  n = Z.of_nat k * sequence_count ss →
  answers env ss (w_tick w1) →
  (k ≤ fuel)%nat →
  ∃ w3, fetchAndSaveFast env fuel filename n nseq ip timeout b16acq world0
        = Some (Ok n, w3) ∧
        h5_handle (w_file w3) = Closed ∧
        rows_of (w_log w3) = reverse (run_rows ss 0 k) ++ rows_of (w_log w1) ∧
        w_tick w3 = (w_tick w1 + k * (2 + length (channels ss)) + 1)%nat.
Proof.
  intros Hs Hseq Hn Hans Hfuel.
  destruct (setup_establishes _ _ _ _ _ _ _ _ _ _ blank_world0 Hs) as [HI _].
  assert (nevents ss = n) as Hnev.
  { apply setup_ok in Hs as (settings & w0 & Ec & _).
    by destruct (configure_session _ _ _ _ _ _ _ _ _ _ Ec) as (? & _). }
  assert (Good ss w1 w1) as HG by (split; [done|apply grown_refl]).
  destruct (acquire_runs env ss w1 Hseq k fuel 0 w1 Hfuel HG Hans ltac:(lia)
              ltac:(lia)) as (w2 & Ea & _ & T2 & R2).
  rewrite (fetch_after_setup _ _ _ _ _ _ _ _ _ _ _ _ _ Hs Ea), finish_run.
  destruct (Hans (w_tick w2) ltac:(lia)) as (_ & Hclear & _).
  rewrite Hclear. eexists. split; [by rewrite Hnev|].
  simpl. split; [done|]. split; [exact R2|lia].
Qed.

Lemma error_free_run_returns_nevents_witness :
  setup c6_env "out" 10 2 "127.0.0.1" 1000 true world0 = (Ok full_ss, full_w1) ∧
  0 < sequence_count full_ss ∧
  10 = Z.of_nat 5 * sequence_count full_ss ∧
  answers c6_env full_ss (w_tick full_w1) ∧
  (5 ≤ 5)%nat ∧
  ∃ w3, fetchAndSaveFast c6_env 5 "out" 10 2 "127.0.0.1" 1000 true world0
        = Some (Ok 10, w3) ∧
        h5_handle (w_file w3) = Closed ∧
        rows_of (w_log w3)
        = reverse (run_rows full_ss 0 5) ++ rows_of (w_log full_w1) ∧
        w_tick w3
        = (w_tick full_w1 + 5 * (2 + length (channels full_ss)) + 1)%nat.
Proof.
  assert (setup c6_env "out" 10 2 "127.0.0.1" 1000 true world0
          = (Ok full_ss, full_w1)) as Hs by (vm_compute; reflexivity).
  assert (sequence_count full_ss = 2) as H2 by (vm_compute; reflexivity).
  assert (0 < sequence_count full_ss) as Hseq by (vm_compute; reflexivity).
  assert (10 = Z.of_nat 5 * sequence_count full_ss) as Hn
    by (vm_compute; reflexivity).
  assert (answers c6_env full_ss (w_tick full_w1)) as Hans.
  { intros k _. split; [reflexivity|]. split; [reflexivity|].
    intros c _. exists (flat_wave 2 5 7). split; [reflexivity|].
    unfold payload_ok. rewrite H2.
    split; [vm_compute; reflexivity|]. split; [vm_compute; reflexivity|].
    split; vm_compute; discriminate. }
  assert (5 ≤ 5)%nat as Hfuel by lia.
  split; [exact Hs|]. split; [exact Hseq|]. split; [exact Hn|].
  split; [exact Hans|]. split; [exact Hfuel|].
  exact (error_free_run_returns_nevents c6_env "out" 10 2 "127.0.0.1" 1000 true
           full_ss full_w1 5 5 Hs Hseq Hn Hans Hfuel).
Defined.


(** ** The batch size in the [SEQUENCE] setting *)

Lemma append_cons (a : ascii) (s t : string) :
  String a s +:+ t = String a (s +:+ t).
Proof. reflexivity. Qed.

Lemma contains_char_cons (sep x : ascii) (s : string) :
  Bytes.contains (String sep "") (String x s) =
  Ascii.eqb sep x || Bytes.contains (String sep "") s.
Proof. simpl. destruct (Ascii.eqb sep x); [|done]. by destruct s. Qed.

(** The field before the first separator. *)
Lemma split_go_field (sep : ascii) (a b cur : string) :
  Bytes.contains (String sep "") a = false →
  Bytes.split_go sep cur (a +:+ String sep b) =
  String.rev_app cur a :: Bytes.split sep b.
Proof.
  revert cur. induction a as [|x a IH]; intros cur Ha.
  - simpl. by rewrite Ascii.eqb_refl.
  - rewrite contains_char_cons in Ha. apply orb_false_iff in Ha as [Hx Ha].
    rewrite append_cons. simpl. rewrite Ascii.eqb_sym, Hx. by apply IH.
Qed.

(** The last field. *)
Lemma split_go_last (sep : ascii) (a cur : string) :
  Bytes.contains (String sep "") a = false →
  Bytes.split_go sep cur a = [String.rev_app cur a].
Proof.
  revert cur. induction a as [|x a IH]; intros cur Ha.
  - done.
  - rewrite contains_char_cons in Ha. apply orb_false_iff in Ha as [Hx Ha].
    simpl. rewrite Ascii.eqb_sym, Hx. by apply IH.
Qed.

(** X9.  Lines 61-62.  When the [SEQUENCE] setting contains [ON], the batch size
    is the field between the first comma and the second (or the end of the
    value), whatever stands before and after it; a field that [int] does not
    accept is a [ValueError]. *)
Theorem sequence_count_is_the_second_field
    (settings : gmap string string) (v mode fld rest : string) :
  settings !! "SEQUENCE" = Some v →
  Bytes.contains "ON" v = true →
  v = mode +:+ "," +:+ fld +:+ rest →
  Bytes.contains "," mode = false →
  Bytes.contains "," fld = false →
  rest = "" ∨ Bytes.prefix_of "," rest = true →
  confirmed_sequence_count settings =
  match Bytes.to_int fld with
  | Some n => Ok n
  | None => Raise ValueError
  end.
Proof.
  intros Hv Hon -> Hmode Hfld Hrest. unfold confirmed_sequence_count.
  rewrite Hv, Hon. unfold Bytes.split.
  change ("," +:+ fld +:+ rest) with (String "," (fld +:+ rest)).
  rewrite (split_go_field "," mode (fld +:+ rest) "" Hmode).
  assert (Bytes.split "," (fld +:+ rest) !! 0%nat = Some fld) as Hf.
  { unfold Bytes.split. destruct Hrest as [->|Hrest].
    - assert (fld +:+ "" = fld) as ->.
      { clear. induction fld as [|a s IH]; [done|].
        by rewrite append_cons, IH. }
      by rewrite (split_go_last "," fld "" Hfld).
    - destruct rest as [|x rest]; [discriminate|].
      cbn [Bytes.prefix_of] in Hrest.
      destruct (Ascii.eqb "," x) eqn:Ex; [|discriminate].
      apply Ascii.eqb_eq in Ex as <-.
      by rewrite (split_go_field "," fld rest "" Hfld). }
  change ((String.rev_app "" mode :: Bytes.split "," (fld +:+ rest)) !! 1%nat)
    with (Bytes.split "," (fld +:+ rest) !! 0%nat).
  rewrite Hf. reflexivity.
Qed.

Lemma sequence_count_is_the_second_field_witness :
  demo_settings !! "SEQUENCE" = Some "SEQ ON,2,5E+3" ∧
  Bytes.contains "ON" "SEQ ON,2,5E+3" = true ∧
  "SEQ ON,2,5E+3" = "SEQ ON" +:+ "," +:+ "2" +:+ ",5E+3" ∧
  Bytes.to_int "2" = Some 2 ∧
  confirmed_sequence_count demo_settings =
  match Bytes.to_int "2" with
  | Some n => Ok n
  | None => Raise ValueError
  end.
Proof.
  assert (demo_settings !! "SEQUENCE" = Some "SEQ ON,2,5E+3") as H1
    by (vm_compute; reflexivity).
  assert (Bytes.contains "ON" "SEQ ON,2,5E+3" = true) as H2
    by (vm_compute; reflexivity).
  assert ("SEQ ON,2,5E+3" = "SEQ ON" +:+ "," +:+ "2" +:+ ",5E+3") as H3
    by (vm_compute; reflexivity).
  assert (Bytes.contains "," "SEQ ON" = false) as H4 by (vm_compute; reflexivity).
  assert (Bytes.contains "," "2" = false) as H5 by (vm_compute; reflexivity).
  assert (",5E+3" = "" ∨ Bytes.prefix_of "," ",5E+3" = true) as H6
    by (right; vm_compute; reflexivity).
  split; [exact H1|]. split; [exact H2|]. split; [exact H3|].
  split; [vm_compute; reflexivity|].
  exact (sequence_count_is_the_second_field demo_settings "SEQ ON,2,5E+3"
           "SEQ ON" "2" ",5E+3" H1 H2 H3 H4 H5 H6).
Defined.

(** ** What a completed batch leaves in the file *)

Lemma write_row_inv (idx : Z) (row : list Z) (st st' : ChanStore) :
  0 ≤ idx → Z.of_nat (length row) = cs_cols st →
  H5.write_row idx row st = Ok st' →
  (Z.to_nat idx < length (cs_rows st))%nat ∧
  st' = {| cs_cols := cs_cols st;
           cs_rows := <[Z.to_nat idx := row]> (cs_rows st);
           cs_attrs := cs_attrs st;
           cs_vert_offset := cs_vert_offset st;
           cs_vert_scale := cs_vert_scale st;
           cs_horiz_offset := cs_horiz_offset st;
           cs_horiz_scale := cs_horiz_scale st;
           cs_trig_offset := cs_trig_offset st;
           cs_trig_time := cs_trig_time st |}.
Proof.
  intros Hi Hlen. unfold H5.write_row, H5.index.
  destruct (Np.index _ idx) as [j|] eqn:E; [|discriminate].
  pose proof (index_ok _ _ _ E) as Hj.
  apply index_nonneg in E as ->; [|done].
  rewrite Hlen, Z.eqb_refl. by intros [= <-].
Qed.

Lemma write_scalar_inv (fld : Field) (idx : Z) (v : float) (st st' : ChanStore) :
  0 ≤ idx → H5.write_scalar fld idx v st = Ok st' →
  (Z.to_nat idx < length (H5.column fld st))%nat ∧
  st' = H5.set_column fld (<[Z.to_nat idx := v]> (H5.column fld st)) st.
Proof.
  intros Hi. unfold H5.write_scalar, H5.index.
  destruct (Np.index _ idx) as [j|] eqn:E; [|discriminate].
  pose proof (index_ok _ _ _ E) as Hj.
  apply index_nonneg in E as ->; [|done]. by intros [= <-].
Qed.

Lemma chan_op_ok (c : Z) (op : ChanStore → Result ChanStore) (ev : Event)
    (w w' : World) (st : ChanStore) :
  h5_chan (w_file w) !! c = Some st → chan_op c op ev w = (Ok tt, w') →
  ∃ st', op st = Ok st' ∧ h5_chan (w_file w') !! c = Some st' ∧
         w_dim w' = w_dim w.
Proof.
  intros Hst. rewrite chan_op_run, Hst.
  destruct (op st) as [st'|]; [|discriminate]. intros [= <-].
  exists st'. simpl. by rewrite lookup_insert_eq.
Qed.

Lemma assign_length (k : Z) (a v a' : list Z) :
  Np.assign_slice_to k a v = Ok a' → length a' = length a.
Proof.
  unfold Np.assign_slice_to.
  pose proof (slice_stop_le (length a) k) as Hle.
  set (m := Np.slice_stop (length a) k) in *.
  destruct (Nat.eqb (length v) m) eqn:E.
  - apply Nat.eqb_eq in E. intros [= <-].
    rewrite length_app, length_drop. lia.
  - destruct v as [|x [|? ?]]; try discriminate. intros [= <-].
    rewrite length_app, length_replicate, length_drop. lia.
Qed.

Lemma fit_row_exact (cols : nat) (row : list Z) :
  length row = cols → H5.fit_row cols row = row.
Proof.
  intros H. rewrite fit_row_longer by lia.
  replace (cols - length row)%nat with 0%nat by lia. simpl. apply app_nil_r.
Qed.

Lemma holds_store_event (j : nat) (row : list Z) (wd : WaveDesc)
    (off tm : float) (st : ChanStore) :
  (j < length (cs_rows st))%nat →
  (∀ fld, (j < length (H5.column fld st))%nat) →
  holds (store_event j row wd off tm st) j row wd off tm.
Proof.
  intros Hr Hc. unfold holds, store_event; simpl.
  pose proof (Hc VertOffset). pose proof (Hc VertScale).
  pose proof (Hc HorizOffset). pose proof (Hc HorizScale).
  pose proof (Hc TrigOffset). pose proof (Hc TrigTime). simpl in *.
  rewrite !list_lookup_insert_eq by done. done.
Qed.

Lemma kept_store_event (j j' : nat) (row : list Z) (wd : WaveDesc)
    (off tm : float) (st : ChanStore) :
  j' ≠ j →
  Forall (λ r, Z.of_nat (length r) = cs_cols st) (cs_rows st) → 0 ≤ cs_cols st →
  kept (cs_cols st) st (store_event j row wd off tm st) j'.
Proof.
  intros Hne Hrows Hcols. split.
  - simpl. rewrite list_lookup_insert_ne by done.
    destruct (cs_rows st !! j') as [r|] eqn:E; [|done]. simpl. f_equal.
    rewrite Forall_lookup in Hrows. specialize (Hrows _ _ E).
    symmetry. apply fit_row_exact. lia.
  - intros []; simpl; by rewrite list_lookup_insert_ne.
Qed.

(** Lines 117-124 on the datasets of the channel. *)
Lemma save_subevent_store (c : Z) (wf : Waveform) (num : Z)
    (traces : list (list Z)) (i n : Z) (scratch s' : list Z) (w w' : World)
    (st : ChanStore) :
  0 ≤ i + n →
  h5_chan (w_file w) !! c = Some st →
  Z.of_nat (length scratch) = cs_cols st →
  save_subevent c wf num traces i n scratch w = (Ok s', w') →
  ∃ off tm,
    Np.item (wf_trg_offsets wf) n = Ok off ∧
    Np.item (wf_trg_times wf) n = Ok tm ∧
    (Z.to_nat (i + n) < length (cs_rows st))%nat ∧
    (∀ fld, (Z.to_nat (i + n) < length (H5.column fld st))%nat) ∧
    h5_chan (w_file w') !! c =
      Some (store_event (Z.to_nat (i + n)) s' (wf_desc wf) off tm st) ∧
    w_dim w' = w_dim w.
Proof.
  intros Hidx Hst Hlen E. unfold save_subevent in E.
  apply bind_ok in E as (trace & w1 & E1 & E). injection E1 as Htr <-.
  apply bind_ok in E as (s1 & w2 & E2 & E). injection E2 as Has <-.
  pose proof (assign_length _ _ _ _ Has) as Hl1.
  apply bind_ok in E as ([] & w3 & E3 & E).
  destruct (chan_op_ok _ _ _ _ _ _ Hst E3) as (st1 & O1 & L1 & D1).
  apply write_row_inv in O1 as [Hj ->]; [|done|lia].
  apply bind_ok in E as ([] & w4 & E4 & E).
  destruct (chan_op_ok _ _ _ _ _ _ L1 E4) as (st2 & O2 & L2 & D2).
  apply write_scalar_inv in O2 as [J2 ->]; [|done].
  apply bind_ok in E as ([] & w5 & E5 & E).
  destruct (chan_op_ok _ _ _ _ _ _ L2 E5) as (st3 & O3 & L3 & D3).
  apply write_scalar_inv in O3 as [J3 ->]; [|done].
  apply bind_ok in E as ([] & w6 & E6 & E).
  destruct (chan_op_ok _ _ _ _ _ _ L3 E6) as (st4 & O4 & L4 & D4).
  apply write_scalar_inv in O4 as [J4 ->]; [|done].
  apply bind_ok in E as ([] & w7 & E7 & E).
  destruct (chan_op_ok _ _ _ _ _ _ L4 E7) as (st5 & O5 & L5 & D5).
  apply write_scalar_inv in O5 as [J5 ->]; [|done].
  apply bind_ok in E as (off & w8 & E8 & E). injection E8 as Hoff <-.
  apply bind_ok in E as ([] & w9 & E9 & E).
  destruct (chan_op_ok _ _ _ _ _ _ L5 E9) as (st6 & O6 & L6 & D6).
  apply write_scalar_inv in O6 as [J6 ->]; [|done].
  apply bind_ok in E as (tm & w10 & E10 & E). injection E10 as Htm <-.
  apply bind_ok in E as ([] & w11 & E11 & E).
  destruct (chan_op_ok _ _ _ _ _ _ L6 E11) as (st7 & O7 & L7 & D7).
  apply write_scalar_inv in O7 as [J7 ->]; [|done].
  injection E as <- <-.
  exists off, tm. split; [done|]. split; [done|]. split; [done|].
  split; [by intros []|]. split; [exact L7|congruence].
Qed.

Lemma holds_kept (cols : Z) (st st' : ChanStore) (j : nat) (row : list Z)
    (wd : WaveDesc) (off tm : float) :
  Z.of_nat (length row) = cols →
  holds st j row wd off tm → kept cols st st' j → holds st' j row wd off tm.
Proof.
  intros Hlen (H1 & H2 & H3 & H4 & H5 & H6 & H7) [K1 K2].
  pose proof (K2 VertOffset). pose proof (K2 VertScale).
  pose proof (K2 HorizOffset). pose proof (K2 HorizScale).
  pose proof (K2 TrigOffset). pose proof (K2 TrigTime). simpl in *.
  unfold holds. rewrite K1, H1. simpl.
  split; [|split; [|split; [|split; [|split; [|split]]]]]; try congruence.
  f_equal. apply fit_row_exact. lia.
Qed.

Lemma kept_trans (cols : Z) (st1 st2 st3 : ChanStore) (j : nat) :
  kept cols st1 st2 j → kept cols st2 st3 j → kept cols st1 st3 j.
Proof.
  intros [A1 A2] [B1 B2]. split.
  - rewrite B1, A1. destruct (cs_rows st1 !! j) as [r|]; [|done]. simpl.
    f_equal. apply fit_row_exact, length_fit_row.
  - intros fld. by rewrite B2, A2.
Qed.

Lemma kept_refl (d : Z) (st : ChanStore) (j : nat) :
  0 ≤ d → Forall (λ r, Z.of_nat (length r) = d) (cs_rows st) → kept d st st j.
Proof.
  intros Hd Hrows. split; [|done].
  destruct (cs_rows st !! j) as [r|] eqn:E; [|done]. simpl. f_equal.
  rewrite Forall_lookup in Hrows. specialize (Hrows _ _ E).
  symmetry. apply fit_row_exact. lia.
Qed.

Section Stored.

Variables (c i num d : Z) (wf : Waveform) (traces : list (list Z)).
Hypothesis i_nonneg : 0 ≤ i.
Hypothesis num_nonneg : 0 ≤ num.
Hypothesis num_le_d : num ≤ d.
Hypothesis widths : Forall (λ t, length t = Z.to_nat num) traces.

(** Lines 116-124 on the datasets of the channel: every sub-event is at its
    entry, and the other entries are as they were. *)
Lemma fold_store (l : list Z) (scratch s' : list Z) (w w' : World)
    (st : ChanStore) :
  NoDup l → (∀ n, n ∈ l → 0 ≤ n) →
  h5_chan (w_file w) !! c = Some st → cs_cols st = d →
  Forall (λ r, Z.of_nat (length r) = d) (cs_rows st) →
  row_ready num d scratch →
  for_fold l (save_subevent c wf num traces i) scratch w = (Ok s', w') →
  ∃ st', h5_chan (w_file w') !! c = Some st' ∧ cs_cols st' = d ∧
         (∀ n, n ∈ l →
            ∃ off tm,
              wf_trg_offsets wf !! Z.to_nat n = Some off ∧
              wf_trg_times wf !! Z.to_nat n = Some tm ∧
              holds st' (Z.to_nat (i + n))
                    (sub_event traces n ++ replicate (Z.to_nat (d - num)) 0)
                    (wf_desc wf) off tm) ∧
         (∀ j, (∀ n, n ∈ l → j ≠ Z.to_nat (i + n)) → kept d st st' j).
Proof.
  revert scratch w st.
  induction l as [|n l IH]; intros scratch w st Hnd Hl Hst Hcols Hrows Hs; simpl.
  - intros [= _ <-]. exists st. split; [done|]. split; [done|]. split.
    + intros n Hn. inversion Hn.
    + intros j _. apply kept_refl; [lia|done].
  - intros E. apply bind_ok in E as (s1 & w1 & E1 & E).
    apply NoDup_cons in Hnd as [Hn Hnd].
    assert (0 ≤ n) as Hn0 by (apply Hl; by left).
    destruct (written_save_subevent _ _ _ _ _ _ _ _ _ _ E1)
      as (trace & Hitem & Hassign & _).
    apply item_nonneg in Hitem; [|done].
    assert (length trace = Z.to_nat num) as Htr.
    { rewrite Forall_lookup in widths. eauto. }
    destruct (padded_assign num d num_nonneg num_le_d _ _ _ Hs Htr Hassign)
      as [-> Hs1].
    assert (Z.of_nat (length scratch) = cs_cols st) as Hlen.
    { destruct Hs as [Hlen _]. rewrite Hlen, Hcols. lia. }
    assert (0 ≤ i + n) as Hin by lia.
    destruct (save_subevent_store _ _ _ _ _ _ _ _ _ _ _ Hin Hst Hlen E1)
      as (off & tm & Hoff & Htm & Hj & Hjc & Hst1 & Hdim1).
    apply item_nonneg in Hoff; [|done]. apply item_nonneg in Htm; [|done].
    set (row := trace ++ replicate (Z.to_nat (d - num)) 0) in *.
    set (j0 := Z.to_nat (i + n)) in *.
    set (st1 := store_event j0 row (wf_desc wf) off tm st) in *.
    assert (Z.of_nat (length row) = d) as Hrow.
    { destruct Hs1 as [Hl1 _]. rewrite Hl1. lia. }
    assert (Forall (λ r, Z.of_nat (length r) = d) (cs_rows st1)) as Hrows1.
    { simpl. by apply Forall_insert. }
    destruct (IH row w1 st1 Hnd
                ltac:(intros m Hm; apply Hl; by right) Hst1 Hcols Hrows1 Hs1 E)
      as (st' & Hst' & Hcols' & Hall & Hrest).
    exists st'. split; [done|]. split; [done|]. split.
    + intros m Hm. apply elem_of_cons in Hm as [->|Hm]; [|by apply Hall].
      exists off, tm. split; [done|]. split; [done|].
      assert (sub_event traces n = trace) as ->.
      { unfold sub_event. by rewrite Hitem. }
      apply (holds_kept d st1); [done| |].
      * by apply holds_store_event.
      * apply Hrest. intros m Hm Heq.
        assert (0 ≤ m) by (apply Hl; by right).
        assert (m = n) as -> by (unfold j0 in Heq; lia). done.
    + intros j Hj'. apply (kept_trans d st st1 st').
      * rewrite <- Hcols. apply kept_store_event; [|by rewrite Hcols|lia].
        apply Hj'. by left.
      * apply Hrest. intros m Hm. apply Hj'. by right.
Qed.

End Stored.

(** Lines 110-112 on the datasets of the channel. *)
Lemma grow_store (c num d : Z) (w w1 : World) (st : ChanStore) :
  w_dim w !! c = Some d → h5_chan (w_file w) !! c = Some st → cs_cols st = d →
  Forall (λ r, Z.of_nat (length r) = d) (cs_rows st) → 0 ≤ d →
  grow c num w = (Ok tt, w1) →
  ∃ st1, h5_chan (w_file w1) !! c = Some st1 ∧
         cs_cols st1 = Z.max d num ∧
         cs_rows st1 = H5.fit_row (Z.to_nat (Z.max d num)) <$> cs_rows st ∧
         (∀ fld, H5.column fld st1 = H5.column fld st) ∧
         w_dim w1 !! c = Some (Z.max d num).
Proof.
  intros Hdim Hst Hcols Hrows Hd. unfold grow. rewrite bind_run.
  unfold get_dim at 1. rewrite Hdim.
  destruct (d <? num) eqn:Elt.
  - apply Z.ltb_lt in Elt. rewrite bind_run. unfold set_dim at 1.
    rewrite bind_run. unfold get_dim at 1. cbn [w_dim].
    rewrite lookup_insert_eq. intros E.
    apply chan_op_ok with (st := st) in E as (st1 & O1 & L1 & D1); [|exact Hst].
    unfold H5.resize_cols in O1. destruct (num <? 0) eqn:E0; [lia|].
    injection O1 as <-. exists
      {| cs_cols := num;
         cs_rows := H5.fit_row (Z.to_nat num) <$> cs_rows st;
         cs_attrs := cs_attrs st;
         cs_vert_offset := cs_vert_offset st;
         cs_vert_scale := cs_vert_scale st;
         cs_horiz_offset := cs_horiz_offset st;
         cs_horiz_scale := cs_horiz_scale st;
         cs_trig_offset := cs_trig_offset st;
         cs_trig_time := cs_trig_time st |}.
    rewrite Z.max_r by lia. split; [exact L1|]. split; [done|]. split; [done|].
    split; [by intros []|]. rewrite D1. cbn [w_dim]. apply lookup_insert_eq.
  - apply Z.ltb_ge in Elt. intros [= <-]. exists st.
    rewrite Z.max_l by lia. split; [done|]. split; [done|]. split; [|done].
    apply list_eq. intros j. rewrite list_lookup_fmap.
    destruct (cs_rows st !! j) as [r|] eqn:E; [|done]. simpl. f_equal.
    rewrite Forall_lookup in Hrows. specialize (Hrows _ _ E).
    symmetry. apply fit_row_exact. lia.
Qed.

(** Lines 107-124 on the datasets of the channel. *)
Lemma save_channel_store (env : Env) (ss : Session) (i c : Z) (w w' : World)
    (wf : Waveform) (st : ChanStore) :
  0 < sequence_count ss → 0 ≤ i →
  w_dim w !! c = Some (cs_cols st) →
  h5_chan (w_file w) !! c = Some st →
  Forall (λ r, Z.of_nat (length r) = cs_cols st) (cs_rows st) →
  0 ≤ cs_cols st →
  on_get_waveform_all env (w_tick w) c = Ok wf →
  wave_array_count (wf_desc wf) = Z.of_nat (length (wf_array wf)) →
  save_channel env ss i c w = (Ok tt, w') →
  let num := wave_array_count (wf_desc wf) / sequence_count ss in
  let d := Z.max (cs_cols st) num in
  let traces := Np.chunks (Z.to_nat (sequence_count ss)) (Z.to_nat num)
                          (wf_array wf) in
  ∃ st', h5_chan (w_file w') !! c = Some st' ∧ cs_cols st' = d ∧
         (∀ n, 0 ≤ n < sequence_count ss →
            ∃ off tm,
              wf_trg_offsets wf !! Z.to_nat n = Some off ∧
              wf_trg_times wf !! Z.to_nat n = Some tm ∧
              holds st' (Z.to_nat (i + n))
                    (sub_event traces n ++ replicate (Z.to_nat (d - num)) 0)
                    (wf_desc wf) off tm) ∧
         (∀ j : nat, ¬ (i ≤ Z.of_nat j < i + sequence_count ss) →
                     kept d st st' j).
Proof.
  intros Hseq Hi Hdim Hst Hrows Hcols Hwf Hsize E num d traces.
  unfold save_channel in E.
  rewrite bind_run, scope_call_run, Hwf in E.
  apply bind_ok in E as (? & w2 & E2 & E). injection E2 as _ <-.
  apply bind_ok in E as (num' & w3 & E3 & E). injection E3 as E3 <-.
  unfold Np.floordiv in E3. destruct (sequence_count ss =? 0) eqn:E0; [lia|].
  injection E3 as <-. fold num in E.
  apply bind_ok in E as ([] & w4 & E4 & E).
  apply (grow_store c num (cs_cols st) _ _ st) in E4
    as (st1 & Hst1 & Hcols1 & Hrows1 & Hflds1 & Hdim1); try done.
  fold d in Hcols1, Hrows1, Hdim1.
  unfold save_rows in E.
  apply bind_ok in E as (? & w5 & E5 & E). injection E5 as _ <-.
  apply bind_ok in E as (traces' & w6 & E6 & E). injection E6 as E6 <-.
  unfold Np.reshape_rows in E6. rewrite <- Hsize in E6. fold num in E6.
  destruct ((0 <? sequence_count ss) && (_ =? _)) eqn:Eshape; [|discriminate].
  injection E6 as <-. fold traces in E.
  apply andb_true_iff in Eshape as [_ Eshape]. apply Z.eqb_eq in Eshape.
  apply bind_ok in E as (d' & w7 & E7 & E).
  unfold get_dim in E7. rewrite Hdim1 in E7. injection E7 as <- <-.
  apply bind_ok in E as (scratch & w8 & E8 & E). injection E8 as E8 <-.
  apply bind_ok in E as (s' & w9 & E9 & E). injection E as <-.
  assert (0 ≤ num) as Hnum by (apply Z.div_pos; lia).
  assert (num ≤ d) as Hle by (unfold d; lia).
  assert (Forall (λ t, length t = Z.to_nat num) traces) as Hw.
  { apply chunks_widths. nia. }
  assert (Forall (λ r, Z.of_nat (length r) = d) (cs_rows st1)) as Hr1.
  { rewrite Hrows1. apply Forall_fmap, Forall_true. intros r. simpl.
    rewrite length_fit_row. lia. }
  destruct (fold_store c i num d wf traces Hi Hnum Hle Hw
              (Np.range (sequence_count ss)) scratch s' w4 w9 st1)
    as (st' & Hst' & Hcols' & Hall & Hrest); try done.
  { apply NoDup_seqZ. }
  { intros n Hn. apply elem_of_seqZ in Hn. lia. }
  { eapply ready_zeros; eauto. }
  exists st'. split; [done|]. split; [done|]. split.
  - intros n Hn. apply Hall. apply elem_of_seqZ. lia.
  - intros j Hj. apply (kept_trans d st st1 st').
    + split; [|intros fld; by rewrite Hflds1].
      rewrite Hrows1. apply list_lookup_fmap.
    + apply Hrest. intros n Hn. apply elem_of_seqZ in Hn. lia.
Qed.

Lemma save_channel_tick (env : Env) (ss : Session) (i c : Z) (w w' : World)
    (r : Result unit) :
  save_channel env ss i c w = (r, w') → w_tick w' = S (w_tick w).
Proof.
  unfold save_channel. rewrite bind_run, scope_call_run.
  destruct (on_get_waveform_all env (w_tick w) c) as [wf|e];
    [|by intros [= <- <-]].
  apply (keeps_run (λ v, w_tick v = S (w_tick w))); [|reflexivity].
  unfold save_rows, save_subevent, write_field.
  repeat first
    [ apply tick_emit
    | apply tick_get_dim
    | apply tick_chan_op
    | apply tick_grow
    | apply keeps_lift
    | apply keeps_ret'
    | apply keeps_for_fold; intros ? ?
    | apply keeps_bind; [|intros ?] ].
Qed.

Lemma good_store (ss : Session) (w0 w : World) (c : Z) :
  Good ss w0 w → c ∈ channels ss →
  ∃ st, h5_chan (w_file w) !! c = Some st ∧
        w_dim w !! c = Some (cs_cols st) ∧
        Forall (λ r, Z.of_nat (length r) = cs_cols st) (cs_rows st) ∧
        0 ≤ cs_cols st.
Proof.
  intros [((Hch & Hin & _) & Hd & _) _] Hc.
  destruct (Hin c Hc) as [st Hst]. exists st. split; [done|].
  destruct (Hch c st Hst) as (H0 & _ & Hrows & _).
  destruct (Hd c) as (H1 & _). unfold capacity, cap_of in H1.
  rewrite Hst in H1. done.
Qed.

Lemma save_channel_frame (env : Env) (ss : Session) (i c : Z) (w w' : World)
    (r : Result unit) :
  save_channel env ss i c w = (r, w') → same_but c (w_file w) (w_file w').
Proof.
  apply (frame_save_channel env ss (same_but c (w_file w))).
  - intros st st' f (H1 & H2 & H3 & H4) _.
    split; [|split; [|split]]; simpl; try done.
    intros c' Hc'. rewrite lookup_insert_ne by done. by apply H4.
  - apply same_but_refl.
Qed.

Lemma save_channel_payload (env : Env) (ss : Session) (i c : Z) (w w' : World) :
  save_channel env ss i c w = (Ok tt, w') →
  ∃ wf, on_get_waveform_all env (w_tick w) c = Ok wf.
Proof.
  unfold save_channel. rewrite bind_run, scope_call_run.
  destruct (on_get_waveform_all env (w_tick w) c) as [wf|e]; [eauto|discriminate].
Qed.

(** Lines 106-124 on the file. *)
Lemma channels_store (env : Env) (ss : Session) (w0 : World) (i : Z)
    (l : list Z) (w w' : World) :
  0 < sequence_count ss → 0 ≤ i → NoDup l → l ⊆ channels ss →
  Good ss w0 w →
  for_each l (save_channel env ss i) w = (Ok tt, w') →
  h5_seconds (w_file w') = h5_seconds (w_file w) ∧
  (∀ c, c ∉ l → h5_chan (w_file w') !! c = h5_chan (w_file w) !! c) ∧
  ∀ (p : nat) c, l !! p = Some c →
    ∃ wf st st',
      on_get_waveform_all env (w_tick w + p) c = Ok wf ∧
      h5_chan (w_file w) !! c = Some st ∧
      h5_chan (w_file w') !! c = Some st' ∧
      (wave_array_count (wf_desc wf) = Z.of_nat (length (wf_array wf)) →
       stored ss i wf st st').
Proof.
  intros Hseq Hi. revert w.
  induction l as [|c l IH]; intros w Hnd Hsub HG; simpl.
  - intros [= <-]. split; [done|]. split; [done|]. intros p c Hp. inversion Hp.
  - intros E. apply bind_ok in E as ([] & w1 & E1 & E).
    apply NoDup_cons in Hnd as [Hc Hnd].
    assert (c ∈ channels ss) as Hin by (apply Hsub; by left).
    assert (l ⊆ channels ss) as Hsub' by (intros x Hx; apply Hsub; by right).
    assert (Good ss w0 w1) as HG1.
    { eapply (good_save_channel env ss w0 i c); [lia|done|exact HG|exact E1]. }
    destruct (save_channel_frame _ _ _ _ _ _ _ E1) as (_ & _ & Hsec1 & Hoth1).
    pose proof (save_channel_tick _ _ _ _ _ _ _ E1) as T1.
    destruct (IH w1 Hnd Hsub' HG1 E) as (Hsec & Hout & Hin').
    split; [congruence|]. split.
    + intros c' Hc'. apply not_elem_of_cons in Hc' as [Hne Hc'].
      rewrite (Hout c' Hc'). by apply Hoth1.
    + intros [|p] c' Hp; simpl in Hp.
      * injection Hp as <-.
        destruct (save_channel_payload _ _ _ _ _ _ E1) as [wf Hwf].
        destruct (good_store ss w0 w c HG Hin) as (st & Hst & Hdim & Hrows & H0).
        exists wf, st.
        destruct (decide (wave_array_count (wf_desc wf)
                          = Z.of_nat (length (wf_array wf)))) as [Hsize|Hsize].
        -- destruct (save_channel_store env ss i c w w1 wf st Hseq Hi Hdim Hst
                       Hrows H0 Hwf Hsize E1) as (st' & Hst' & Hstored).
           exists st'. rewrite Nat.add_0_r. split; [done|]. split; [done|].
           split; [|done]. by rewrite (Hout c Hc).
        -- destruct (good_store ss w0 w1 c HG1 Hin) as (st1 & Hst1 & _).
           exists st1. rewrite Nat.add_0_r. split; [done|]. split; [done|].
           split; [|done]. by rewrite (Hout c Hc).
      * destruct (Hin' p c' Hp) as (wf & st & st' & Hwf & Hst & Hst' & Hstored).
        assert (c' ≠ c).
        { intros ->. apply Hc. by eapply list_elem_of_lookup_2. }
        exists wf, st, st'. rewrite T1 in Hwf.
        replace (w_tick w + S p)%nat with (S (w_tick w) + p)%nat by lia.
        split; [done|]. split; [|done]. rewrite <- Hst. symmetry. by apply Hoth1.
Qed.

Lemma reaches_nonneg (env : Env) (ss : Session) (i j : Z) (w w' : World) :
  0 < sequence_count ss → reaches env ss i w j w' → 0 ≤ i → 0 ≤ j.
Proof.
  intros Hseq H. induction H as [|i w i' w' j w'' Hlt Hit _ IH]; [done|].
  intros Hi. apply IH. destruct (iteration_next _ _ _ _ _ _ Hit); lia.
Qed.

(** Lines 101-124 on the file. *)
Lemma attempt_store (env : Env) (ss : Session) (w0 : World) (i : Z)
    (w w' : World) :
  0 < sequence_count ss → 0 ≤ i → NoDup (channels ss) → Good ss w0 w →
  attempt env ss i w = (Ok tt, w') →
  (∃ col, h5_seconds (w_file w) = Some col ∧
          (Z.to_nat i < length col)%nat ∧
          h5_seconds (w_file w')
          = Some (<[Z.to_nat i :=
                      PrimFloat.sub (clock env (w_tick w)) (startTime ss)]> col)) ∧
  ∀ (p : nat) c, channels ss !! p = Some c →
    ∃ wf st st',
      on_get_waveform_all env (w_tick w + 2 + p) c = Ok wf ∧
      h5_chan (w_file w) !! c = Some st ∧
      h5_chan (w_file w') !! c = Some st' ∧
      (wave_array_count (wf_desc wf) = Z.of_nat (length (wf_array wf)) →
       stored ss i wf st st').
Proof.
  intros Hseq Hi Hnd HG E.
  unfold attempt, batch, batch_on in E.
  apply bind_ok in E as (? & wa & Ea & E). injection Ea as _ <-.
  apply bind_ok in E as (t & wb & Eb & E). rewrite now_run in Eb.
  cbn [w_tick w_log w_file w_dim] in Eb. injection Eb as <- <-.
  apply bind_ok in E as (? & wc & Ec & E).
  match type of Ec with file_op _ _ ?v = _ =>
    assert (Good ss w0 v) as HGb end.
  { eapply good_transfer; [exact HG|..]; simpl; try done; apply HG. }
  assert (Good ss w0 wc) as HGc.
  { revert Ec. apply keeps_run; [|exact HGb]. by apply good_write_seconds. }
  rewrite file_op_run in Ec. cbn [w_tick w_log w_file w_dim] in Ec.
  destruct (H5.write_seconds i _ (w_file w)) as [f|] eqn:Ew; [|discriminate].
  injection Ec as _ <-.
  unfold H5.write_seconds, H5.index in Ew.
  destruct (h5_seconds (w_file w)) as [col|] eqn:Ecol; [|discriminate].
  destruct (Np.index (length col) i) as [j|] eqn:Ej; [|discriminate].
  pose proof (index_ok _ _ _ Ej) as Hj.
  apply index_nonneg in Ej as ->; [|done]. injection Ew as <-.
  apply bind_ok in E as (? & wd & Ed & E). rewrite scope_call_run in Ed.
  cbn [w_tick w_log w_file w_dim] in Ed. injection Ed as _ <-.
  match type of E with for_each _ _ ?v = _ =>
    assert (Good ss w0 v) as HGd end.
  { eapply good_transfer; [exact HGc|..]; simpl; try done; apply HGc. }
  destruct (channels_store env ss w0 i (channels ss) _ w' Hseq Hi Hnd
              ltac:(done) HGd E) as (Hsec & _ & Hall).
  cbn [w_tick w_log w_file w_dim h5_seconds h5_chan] in Hsec, Hall.
  split.
  - exists col. split; [done|]. split; [done|exact Hsec].
  - intros p c Hp. destruct (Hall p c Hp) as (wf & st & st' & Hwf & Hst & Hst' & H).
    exists wf, st, st'.
    replace (w_tick w + 2 + p)%nat with (S (S (w_tick w)) + p)%nat by lia.
    done.
Qed.

(** X10.  What a completed batch leaves in the file.  After a set-up that
    returned, at any cursor [i] the loop comes to, when the body of the [try]
    completes: [seconds_from_start[i]] is the clock reading of line 104 less
    the start time, and for the channel at position [p] of [channels], with
    the payload that [get_waveform_all] returned for it (the call number
    [2 + p] of the pass), the channel's datasets hold the batch: rows
    [i .. i + sequence_count - 1] are the sub-events of the payload in
    order, each padded with zeros to the width of the array, next to the
    payload's vertical and horizontal scalars and the trigger offset and
    time of the sub-event; all other entries are as before the pass, their
    rows padded if the array has grown. *)
Theorem completed_batch_is_in_the_file
    (env : Env) (filename : string) (n nseq : Z) (ip : string) (timeout : Z)
    (b16acq : bool) (ss : Session) (w1 : World) (i : Z) (w w' : World) :
  setup env filename n nseq ip timeout b16acq world0 = (Ok ss, w1) →
  0 < sequence_count ss →
  reaches env ss 0 w1 i w →
  attempt env ss i w = (Ok tt, w') →
  (∃ col, h5_seconds (w_file w') = Some col ∧
          col !! Z.to_nat i
          = Some (PrimFloat.sub (clock env (w_tick w)) (startTime ss))) ∧
  ∀ (p : nat) c, channels ss !! p = Some c →
    ∃ wf st st',
      on_get_waveform_all env (w_tick w + 2 + p) c = Ok wf ∧
      h5_chan (w_file w) !! c = Some st ∧
      h5_chan (w_file w') !! c = Some st' ∧
      (wave_array_count (wf_desc wf) = Z.of_nat (length (wf_array wf)) →
       stored ss i wf st st').
Proof.
  intros Hs Hseq Hr E.
  destruct (setup_establishes _ _ _ _ _ _ _ _ _ _ blank_world0 Hs) as [HI Hnz].
  assert (NoDup (channels ss)) as Hnd.
  { apply setup_ok in Hs as (settings & v & Ec & Ef).
    destruct (configure_store _ _ _ _ _ _ _ _ _ Ec) as [Hf0 _].
    assert (w_file v = H5.empty) as Hv by (by rewrite Hf0).
    by destruct (create_file_made _ _ _ _ _ _ Hv Ef) as (_ & ? & _). }
  assert (Good ss w1 w1) as HG1 by (split; [done|apply grown_refl]).
  pose proof (good_reaches env ss w1 0 i w1 w Hnz Hr HG1) as HG.
  pose proof (reaches_nonneg env ss 0 i w1 w Hseq Hr (Z.le_refl 0)) as Hi.
  destruct (attempt_store env ss w1 i w w' Hseq Hi Hnd HG E)
    as [(col & Hcol & Hlt & Hsec) Hall].
  split; [|exact Hall].
  eexists. split; [exact Hsec|]. by apply list_lookup_insert_eq.
Qed.

Lemma completed_batch_is_in_the_file_witness :
  setup c3_env "out" 4 2 "127.0.0.1" 1000 true world0 = (Ok c3_ss, c3_w1) ∧
  0 < sequence_count c3_ss ∧
  reaches c3_env c3_ss 0 c3_w1 2 c3_w ∧
  attempt c3_env c3_ss 2 c3_w = (Ok tt, c3_w') ∧
  cs_rows <$> h5_chan (w_file c3_w') !! 1
  = Some [[13; 13; 13; 0]; [13; 13; 13; 0]; [17; 17; 17; 17]; [17; 17; 17; 17]] ∧
  (∃ col, h5_seconds (w_file c3_w') = Some col ∧
          col !! Z.to_nat 2
          = Some (PrimFloat.sub (clock c3_env (w_tick c3_w)) (startTime c3_ss))) ∧
  ∀ (p : nat) c, channels c3_ss !! p = Some c →
    ∃ wf st st',
      on_get_waveform_all c3_env (w_tick c3_w + 2 + p) c = Ok wf ∧
      h5_chan (w_file c3_w) !! c = Some st ∧
      h5_chan (w_file c3_w') !! c = Some st' ∧
      (wave_array_count (wf_desc wf) = Z.of_nat (length (wf_array wf)) →
       stored c3_ss 2 wf st st').
Proof.
  assert (setup c3_env "out" 4 2 "127.0.0.1" 1000 true world0
          = (Ok c3_ss, c3_w1)) as Hs by (vm_compute; reflexivity).
  assert (0 < sequence_count c3_ss) as Hseq by (vm_compute; reflexivity).
  assert (0 < nevents c3_ss) as Hlt by (vm_compute; reflexivity).
  assert (iteration c3_env c3_ss 0 c3_w1 = (Next 2, c3_w)) as Hp0
    by (vm_compute; reflexivity).
  assert (attempt c3_env c3_ss 2 c3_w = (Ok tt, c3_w')) as Ha
    by (vm_compute; reflexivity).
  pose proof (reaches_pass c3_env c3_ss 0 c3_w1 2 c3_w 2 c3_w Hlt Hp0
                (reaches_here c3_env c3_ss 2 c3_w)) as Hr.
  split; [exact Hs|]. split; [exact Hseq|]. split; [exact Hr|].
  split; [exact Ha|]. split; [vm_compute; reflexivity|].
  exact (completed_batch_is_in_the_file c3_env "out" 4 2 "127.0.0.1" 1000 true
           c3_ss c3_w1 2 c3_w c3_w' Hs Hseq Hr Ha).
Defined.


(** ** The command line *)

Lemma prologue_name (env : Env) (strftime : float → string) (opts : Options)
    (prefix filename : string) (start : float) (w w1 : World) :
  prologue env strftime opts prefix w = (Ok (filename, start), w1) →
  filename = prefix +:+ ".h5" ∨ ∃ t, filename = prefix +:+ strftime t +:+ ".h5".
Proof.
  unfold prologue, output_name. intros E.
  apply bind_ok in E as (name & w0 & E0 & E).
  apply bind_ok in E as (t0 & w2 & _ & E). injection E as <- _ _.
  destruct (opt_time opts).
  - apply bind_ok in E0 as (t & w3 & _ & E0). injection E0 as <- _. eauto.
  - injection E0 as <- _. by left.
Qed.

(** X11.  The script with unusable arguments, and with a set-up that fails.
    Without a file name, or with [-n] or [-s] below one, the script exits
    before it reads the clock, contacts the instrument or creates a file.
    With usable arguments it prints the file name and calls
    [fetchAndSaveFast] with a timeout of 1000 and [b16acq = True]; an
    exception out of the set-up ends the script with that exception, and no
    summary is printed. *)
Theorem main_rejects_or_propagates
    (env : Env) (strftime : float → string) (fuel : nat) (opts : Options)
    (w : World) :
  main env strftime fuel opts [] w = Some (ExitUsage, [], w) ∧
  (∀ prefix rest,
      opt_nevents opts < 1 ∨ opt_nsequence opts < 1 →
      main env strftime fuel opts (prefix :: rest) w
      = Some (ExitNotPositive, [], w)) ∧
  (∀ prefix rest filename start w1 e w2,
      1 ≤ opt_nevents opts → 1 ≤ opt_nsequence opts →
      prologue env strftime opts prefix w = (Ok (filename, start), w1) →
      setup env filename (opt_nevents opts) (opt_nsequence opts) (opt_ip opts)
            1000 true w1 = (Raise e, w2) →
      main env strftime fuel opts (prefix :: rest) w
      = Some (Traceback e, [LineSaving filename], w2)).
Proof.
  split; [reflexivity|]. split.
  - intros prefix rest H. simpl.
    destruct ((opt_nevents opts <? 1) || (opt_nsequence opts <? 1)) eqn:E; [done|].
    apply orb_false_iff in E as [E1 E2]. lia.
  - intros prefix rest filename start w1 e w2 Hn Hs Hp Hset. simpl.
    destruct ((opt_nevents opts <? 1) || (opt_nsequence opts <? 1)) eqn:E.
    { apply orb_true_iff in E as [E|E]; lia. }
    rewrite Hp. unfold fetchAndSaveFast. by rewrite Hset.
Qed.

(** X12.  The script after a set-up that returned.  However the loop ends
    -- all events taken, or an exception caught by the bare [except:], a
    Ctrl-C included -- the script goes on after [fetchAndSaveFast].  When the
    final [scope.clear()] raises, the script ends with its exception and has
    printed the file name only.  When it returns, the script ends with the
    count [k * sequence_count], where [k] is the number of passes whose body
    completed: if no batch completed it prints nothing after the file name
    (and [elapsed/count] is not evaluated), otherwise it prints the two
    summary lines for that count.  The recovery handler of every such run
    has its [scopeSets], since the script never passes [b16acq = False]. *)
Theorem main_reports_what_was_acquired
    (env : Env) (strftime : float → string) (fuel : nat) (opts : Options)
    (prefix : string) (rest : list string) (w w1 ws w2 : World)
    (filename : string) (start : float) (ss : Session) (x : Exit) :
  1 ≤ opt_nevents opts → 1 ≤ opt_nsequence opts →
  prologue env strftime opts prefix w = (Ok (filename, start), w1) →
  setup env filename (opt_nevents opts) (opt_nsequence opts) (opt_ip opts)
        1000 true w1 = (Ok ss, ws) →
  0 < sequence_count ss →
  acquire env ss fuel 0 ws = Some (x, w2) →
  let k := batches_done env ss fuel 0 ws in
  let count := Z.of_nat k * sequence_count ss in
  let elapsed := PrimFloat.sub (clock env (S (w_tick w2))) start in
  is_Some (scopeSets ss) ∧
  (filename = prefix +:+ ".h5" ∨
   ∃ t, filename = prefix +:+ strftime t +:+ ".h5") ∧
  (∀ e, on_clear env (w_tick w2) = Raise e →
        ∃ w3, main env strftime fuel opts (prefix :: rest) w
              = Some (Traceback e, [LineSaving filename], w3)) ∧
  (on_clear env (w_tick w2) = Ok tt →
   ∃ w3, main env strftime fuel opts (prefix :: rest) w
         = Some (Done count,
                 LineSaving filename ::
                 match k with
                 | O => []
                 | S _ => [LineCompleted count elapsed;
                           LineAveraged elapsed count]
                 end,
                 w3)).
Proof.
  intros Hn Hs Hp Hset Hseq Ha k count elapsed.
  destruct (acquire_counts _ _ _ _ _ _ _ Ha) as (Hc & _).
  fold k in Hc. rewrite Z.add_0_l in Hc. fold count in Hc.
  assert (main env strftime fuel opts (prefix :: rest) w
          = match finish env x w2 with
            | (Raise e, w3) => Some (Traceback e, [LineSaving filename], w3)
            | (Ok c, w3) =>
                match now env w3 with
                | (Raise e, w4) => Some (Traceback e, [LineSaving filename], w4)
                | (Ok t, w4) =>
                    Some (Done c,
                          LineSaving filename :: summary c (PrimFloat.sub t start),
                          w4)
                end
            end) as Hmain.
  { simpl.
    destruct ((opt_nevents opts <? 1) || (opt_nsequence opts <? 1)) eqn:E.
    { apply orb_true_iff in E as [E|E]; lia. }
    rewrite Hp, (fetch_after_setup _ _ _ _ _ _ _ _ _ _ _ _ _ Hset Ha).
    by destruct (finish env x w2) as [[c|e] w3]. }
  split; [|split; [|split]].
  - unfold setup in Hset.
    apply bind_ok in Hset as ([ss' settings] & w0 & Ec & E).
    apply bind_ok in E as (? & ? & _ & E). injection E as <- _.
    by destruct (configure_session _ _ _ _ _ _ _ _ _ _ Ec) as (_ & _ & _ & H);
      apply H.
  - by eapply prologue_name.
  - intros e Hclear. rewrite Hmain, finish_run, Hclear. eauto.
  - intros Hclear. rewrite Hmain, finish_run, Hclear, now_run.
    cbn [w_tick]. rewrite Hc. fold elapsed. eexists. do 3 f_equal.
    unfold summary, count. destruct k as [|k'].
    + reflexivity.
    + destruct (0 <? Z.of_nat (S k') * sequence_count ss) eqn:E; [done|].
      apply Z.ltb_ge in E. nia.
Qed.

Lemma main_reports_what_was_acquired_witness :
  1 ≤ opt_nevents script_opts ∧ 1 ≤ opt_nsequence script_opts ∧
  prologue script_env script_stamp script_opts "run" world0
  = (Ok ("run.h5", 0%float), script_w1) ∧
  setup script_env "run.h5" (opt_nevents script_opts)
        (opt_nsequence script_opts) (opt_ip script_opts) 1000 true script_w1
  = (Ok script_ss, script_ws) ∧
  0 < sequence_count script_ss ∧
  acquire script_env script_ss 5 0 script_ws
  = Some (Aborted 4 KeyboardInterrupt, script_w2) ∧
  on_clear script_env (w_tick script_w2) = Ok tt ∧
  batches_done script_env script_ss 5 0 script_ws = 2%nat ∧
  ∃ w3, main script_env script_stamp 5 script_opts ("run" :: []) world0
        = Some (Done (Z.of_nat (batches_done script_env script_ss 5 0 script_ws)
                      * sequence_count script_ss),
                LineSaving "run.h5" ::
                match batches_done script_env script_ss 5 0 script_ws with
                | O => []
                | S _ =>
                    [LineCompleted
                       (Z.of_nat (batches_done script_env script_ss 5 0 script_ws)
                        * sequence_count script_ss)
                       (PrimFloat.sub
                          (clock script_env (S (w_tick script_w2))) 0%float);
                     LineAveraged
                       (PrimFloat.sub
                          (clock script_env (S (w_tick script_w2))) 0%float)
                       (Z.of_nat (batches_done script_env script_ss 5 0 script_ws)
                        * sequence_count script_ss)]
                end,
                w3).
Proof.
  assert (1 ≤ opt_nevents script_opts) as Hn by (vm_compute; discriminate).
  assert (1 ≤ opt_nsequence script_opts) as Hs by (vm_compute; discriminate).
  assert (prologue script_env script_stamp script_opts "run" world0
          = (Ok ("run.h5", 0%float), script_w1)) as Hp
    by (vm_compute; reflexivity).
  assert (setup script_env "run.h5" (opt_nevents script_opts)
            (opt_nsequence script_opts) (opt_ip script_opts) 1000 true script_w1
          = (Ok script_ss, script_ws)) as Hset by (vm_compute; reflexivity).
  assert (0 < sequence_count script_ss) as Hseq by (vm_compute; reflexivity).
  assert (acquire script_env script_ss 5 0 script_ws
          = Some (Aborted 4 KeyboardInterrupt, script_w2)) as Ha
    by (vm_compute; reflexivity).
  assert (on_clear script_env (w_tick script_w2) = Ok tt) as Hclear
    by (vm_compute; reflexivity).
  split; [exact Hn|]. split; [exact Hs|]. split; [exact Hp|].
  split; [exact Hset|]. split; [exact Hseq|]. split; [exact Ha|].
  split; [exact Hclear|]. split; [vm_compute; reflexivity|].
  exact (proj2 (proj2 (proj2
           (main_reports_what_was_acquired script_env script_stamp 5 script_opts
              "run" [] world0 script_w1 script_ws script_w2 "run.h5" 0%float
              script_ss (Aborted 4 KeyboardInterrupt) Hn Hs Hp Hset Hseq Ha)))
           Hclear).
Defined.

(** ** The file after a run without errors *)

Lemma sub_event_length (seq : Z) (wf : Waveform) (n : Z) :
  0 < seq → payload_ok seq wf → 0 ≤ n < seq →
  length (sub_event
            (Np.chunks (Z.to_nat seq)
               (Z.to_nat (wave_array_count (wf_desc wf) / seq)) (wf_array wf))
            n)
  = Z.to_nat (wave_array_count (wf_desc wf) / seq).
Proof.
  intros Hseq (Hcount & Hmod & _) Hn.
  set (num := wave_array_count (wf_desc wf) / seq).
  assert (0 ≤ num) by (apply Z.div_pos; lia).
  assert (seq * num = Z.of_nat (length (wf_array wf))) as Hsize.
  { unfold num. pose proof (Z.div_mod (wave_array_count (wf_desc wf)) seq
                              ltac:(lia)). lia. }
  pose proof (chunks_widths (Z.to_nat seq) (Z.to_nat num) (wf_array wf)
                ltac:(nia)) as Hw.
  pose proof (chunks_length (Z.to_nat seq) (Z.to_nat num) (wf_array wf)) as Hl.
  unfold sub_event.
  destruct (lookup_lt_is_Some_2
              (Np.chunks (Z.to_nat seq) (Z.to_nat num) (wf_array wf))
              (Z.to_nat n) ltac:(lia)) as [t Ht].
  rewrite Ht. simpl. rewrite Forall_lookup in Hw. eauto.
Qed.

Lemma stored_event (ss : Session) (i : Z) (wf : Waveform) (st st' : ChanStore)
    (n : Z) :
  stored ss i wf st st' → 0 ≤ n < sequence_count ss →
  event_stored ss wf n st' (Z.to_nat (i + n)).
Proof.
  intros (Hcols & Hall & _) Hn. split; [lia|].
  destruct (Hall n Hn) as (off & tm & Hoff & Htm & H).
  exists off, tm. rewrite Hcols. done.
Qed.

Lemma event_stored_kept (ss : Session) (wf : Waveform) (n : Z)
    (st st' : ChanStore) (j : nat) :
  0 < sequence_count ss → payload_ok (sequence_count ss) wf →
  0 ≤ n < sequence_count ss →
  cs_cols st ≤ cs_cols st' →
  event_stored ss wf n st j → kept (cs_cols st') st st' j →
  event_stored ss wf n st' j.
Proof.
  intros Hseq Hp Hn Hle (Hnum & off & tm & Hoff & Htm & H) [K1 K2].
  pose proof (sub_event_length _ _ _ Hseq Hp Hn) as Hlen.
  set (num := wave_array_count (wf_desc wf) / sequence_count ss) in *.
  assert (0 ≤ num).
  { apply Z.div_pos; [|lia]. destruct Hp as (-> & _). lia. }
  split; [fold num; lia|]. exists off, tm. split; [done|]. split; [done|].
  destruct H as (H1 & H2 & H3 & H4 & H5 & H6 & H7).
  pose proof (K2 VertOffset). pose proof (K2 VertScale).
  pose proof (K2 HorizOffset). pose proof (K2 HorizScale).
  pose proof (K2 TrigOffset). pose proof (K2 TrigTime). simpl in *.
  unfold holds.
  split; [|split; [|split; [|split; [|split; [|split]]]]]; try congruence.
  rewrite K1, H1. simpl. f_equal.
  rewrite fit_row_longer by (rewrite length_app, length_replicate; lia).
  rewrite length_app, length_replicate, <- app_assoc, <- replicate_add.
  do 2 f_equal. fold num. lia.
Qed.

Lemma answers_later (env : Env) (ss : Session) (k0 k1 : nat) :
  answers env ss k0 → (k0 ≤ k1)%nat → answers env ss k1.
Proof. intros H Hle k Hk. apply H. lia. Qed.

Section Fills.

Variable env : Env.
Variable ss : Session.
Variable w0 : World.
Variable t0 : nat.
Hypothesis seq_pos : 0 < sequence_count ss.
Hypothesis distinct : NoDup (channels ss).
Hypothesis driver : answers env ss t0.

(** One more batch. *)
Lemma attempt_fills (j : nat) (w w' : World) :
  Good ss w0 w →
  w_tick w = (t0 + j * (2 + length (channels ss)))%nat →
  filled env ss t0 j w →
  attempt env ss (Z.of_nat j * sequence_count ss) w = (Ok tt, w') →
  filled env ss t0 (S j) w'.
Proof.
  intros HG Htick [(col & Hcol & Hsecs) Hch] E.
  set (i := Z.of_nat j * sequence_count ss) in *.
  assert (0 ≤ i) as Hi by (unfold i; nia).
  destruct (attempt_store env ss w0 i w w' seq_pos Hi distinct HG E)
    as [(col' & Hcol' & Hlt & Hsec') Hall].
  rewrite Hcol in Hcol'. injection Hcol' as <-.
  split.
  - eexists. split; [exact Hsec'|]. intros b Hb.
    destruct (decide (b = j)) as [->|Hne].
    + fold i. rewrite list_lookup_insert_eq by done. by rewrite Htick.
    + rewrite list_lookup_insert_ne; [apply Hsecs; lia|].
      unfold i. intros Heq. apply Hne.
      assert (Z.of_nat j * sequence_count ss = Z.of_nat b * sequence_count ss)
        by nia.
      nia.
  - intros b p c Hb Hp.
    destruct (Hall p c Hp) as (wf & st & st' & Hwf & Hst & Hst' & Hstored).
    rewrite Htick in Hwf.
    assert (payload_ok (sequence_count ss) wf) as Hpay.
    { destruct (driver (t0 + j * (2 + length (channels ss)) + 2 + p)%nat
                  ltac:(lia)) as (_ & _ & H).
      destruct (H c ltac:(by eapply list_elem_of_lookup_2)) as (wf' & Hwf' & Hp').
      rewrite Hwf in Hwf'. by injection Hwf' as <-. }
    specialize (Hstored (proj1 Hpay)).
    destruct (decide (b = j)) as [->|Hne].
    + exists wf, st'. split; [done|]. split; [done|]. intros n Hn.
      fold i. by apply (stored_event ss i wf st st').
    + destruct (Hch b p c ltac:(lia) Hp) as (wfb & st0 & Hwfb & Hst0 & Hev).
      rewrite Hst in Hst0. injection Hst0 as <-.
      exists wfb, st'. split; [done|]. split; [done|]. intros n Hn.
      assert (payload_ok (sequence_count ss) wfb) as Hpayb.
      { destruct (driver (t0 + b * (2 + length (channels ss)) + 2 + p)%nat
                    ltac:(lia)) as (_ & _ & H).
        destruct (H c ltac:(by eapply list_elem_of_lookup_2))
          as (wf' & Hwf' & Hp').
        rewrite Hwfb in Hwf'. by injection Hwf' as <-. }
      destruct Hstored as (Hcols & _ & Hkept).
      apply (event_stored_kept ss wfb n st st' _ seq_pos Hpayb Hn).
      * rewrite Hcols. lia.
      * apply Hev. done.
      * rewrite Hcols. apply Hkept. unfold i. nia.
Qed.

Lemma acquire_fills (r : nat) :
  ∀ (fuel j : nat) (w : World),
    (r ≤ fuel)%nat →
    Good ss w0 w →
    w_tick w = (t0 + j * (2 + length (channels ss)))%nat →
    filled env ss t0 j w →
    nevents ss = (Z.of_nat j + Z.of_nat r) * sequence_count ss →
    ∃ w', acquire env ss fuel (Z.of_nat j * sequence_count ss) w
          = Some (Completed (nevents ss), w') ∧
          filled env ss t0 (j + r) w'.
Proof.
  induction r as [|r IH]; intros fuel j w Hfuel HG Htick HF Hn.
  - exists w. rewrite Nat.add_0_r. split; [|done].
    replace (Z.of_nat j * sequence_count ss) with (nevents ss) by lia.
    destruct fuel; simpl; by rewrite Z.ltb_irrefl.
  - destruct fuel as [|fuel]; [lia|].
    set (i := Z.of_nat j * sequence_count ss).
    assert (answers env ss (w_tick w)) as Hans.
    { apply (answers_later env ss t0); [done|lia]. }
    destruct (attempt_runs env ss w0 seq_pos i w HG Hans
                ltac:(unfold i; nia) ltac:(unfold i; nia))
      as (w1 & E1 & HG1 & T1).
    pose proof (attempt_fills j w w1 HG Htick HF E1) as HF1.
    destruct (IH fuel (S j) w1 ltac:(lia) HG1 ltac:(lia) HF1 ltac:(lia))
      as (w' & E & HF').
    exists w'. split.
    + simpl. fold i. destruct (i <? nevents ss) eqn:Elt; [|unfold i in Elt; nia].
      unfold iteration. rewrite E1. rewrite <- E. f_equal. unfold i. lia.
    + by replace (j + S r)%nat with (S j + r)%nat by lia.
Qed.

End Fills.

(** X13.  The file an error-free run leaves.  When the driver answers every call,
    the payloads are well formed and [nevents] is [k] batches, the function
    returns [nevents] and the file holds every event: for every batch [b],
    [seconds_from_start] holds at the first index of the batch the clock
    reading taken at the start of the batch less the start time, and for
    every channel and every [n] the entry [b * sequence_count + n] holds
    sub-event [n] of the payload that [get_waveform_all] returned for the
    channel in batch [b] -- its samples followed by zeros up to the final
    width of the array -- with the payload's scalars and the trigger offset
    and time of the sub-event. *)
Theorem error_free_run_fills_the_file
    (env : Env) (filename : string) (n nseq : Z) (ip : string) (timeout : Z)
    (b16acq : bool) (ss : Session) (w1 : World) (k fuel : nat) :
  setup env filename n nseq ip timeout b16acq world0 = (Ok ss, w1) →
  0 < sequence_count ss →
  n = Z.of_nat k * sequence_count ss →
  answers env ss (w_tick w1) →
  (k ≤ fuel)%nat →
  ∃ w3, fetchAndSaveFast env fuel filename n nseq ip timeout b16acq world0
        = Some (Ok n, w3) ∧
        filled env ss (w_tick w1) k w3.
Proof.
  intros Hs Hseq Hn Hans Hfuel.
  destruct (setup_establishes _ _ _ _ _ _ _ _ _ _ blank_world0 Hs) as [HI _].
  pose proof Hs as Hs'.
  apply setup_ok in Hs' as (settings & v & Ec & Ef).
  destruct (configure_store _ _ _ _ _ _ _ _ _ Ec) as [Hf0 _].
  destruct (configure_session _ _ _ _ _ _ _ _ _ _ Ec) as (Hnev & _).
  assert (w_file v = H5.empty) as Hv by (by rewrite Hf0).
  destruct (create_file_made _ _ _ _ _ _ Hv Ef) as (_ & Hnd & _ & _ & Hsec & _).
  assert (Good ss w1 w1) as HG by (split; [done|apply grown_refl]).
  assert (filled env ss (w_tick w1) 0 w1) as HF.
  { split; [|intros b p c Hb; lia]. eexists. split; [exact Hsec|].
    intros b Hb. lia. }
  destruct (acquire_fills env ss w1 (w_tick w1) Hseq Hnd Hans k fuel 0%nat w1
              Hfuel HG ltac:(lia) HF ltac:(lia)) as (w2 & Ea & HF2).
  change (Z.of_nat 0 * sequence_count ss) with 0 in Ea. simpl in HF2.
  rewrite (fetch_after_setup _ _ _ _ _ _ _ _ _ _ _ _ _ Hs Ea), finish_run.
  assert (w_tick w2 ≥ w_tick w1)%nat as Hge.
  { destruct (acquire_runs env ss w1 Hseq k fuel 0 w1 Hfuel HG Hans
                ltac:(lia) ltac:(lia)) as (w2' & Ea' & _ & T2 & _).
    rewrite Ea in Ea'. injection Ea' as <-. lia. }
  destruct (Hans (w_tick w2) ltac:(lia)) as (_ & Hclear & _).
  rewrite Hclear. eexists. split; [by rewrite Hnev|]. exact HF2.
Qed.

Lemma error_free_run_fills_the_file_witness :
  setup c3_env "out" 4 2 "127.0.0.1" 1000 true world0 = (Ok c3_ss, c3_w1) ∧
  0 < sequence_count c3_ss ∧
  4 = Z.of_nat 2 * sequence_count c3_ss ∧
  answers c3_env c3_ss (w_tick c3_w1) ∧
  (2 ≤ 2)%nat ∧
  ∃ w3, fetchAndSaveFast c3_env 2 "out" 4 2 "127.0.0.1" 1000 true world0
        = Some (Ok 4, w3) ∧
        filled c3_env c3_ss (w_tick c3_w1) 2 w3.
Proof.
  assert (setup c3_env "out" 4 2 "127.0.0.1" 1000 true world0
          = (Ok c3_ss, c3_w1)) as Hs by (vm_compute; reflexivity).
  assert (sequence_count c3_ss = 2) as H2 by (vm_compute; reflexivity).
  assert (0 < sequence_count c3_ss) as Hseq by (vm_compute; reflexivity).
  assert (4 = Z.of_nat 2 * sequence_count c3_ss) as Hn
    by (vm_compute; reflexivity).
  assert (answers c3_env c3_ss (w_tick c3_w1)) as Hans.
  { intros k _. split; [reflexivity|]. split; [reflexivity|].
    intros c _.
    exists (flat_wave 2 (if (k <? 15)%nat then 3 else 4) (Z.of_nat k)).
    split; [reflexivity|]. unfold payload_ok. rewrite H2.
    destruct (k <? 15)%nat.
    - split; [vm_compute; reflexivity|]. split; [vm_compute; reflexivity|].
      split; vm_compute; discriminate.
    - split; [vm_compute; reflexivity|]. split; [vm_compute; reflexivity|].
      split; vm_compute; discriminate. }
  assert (2 ≤ 2)%nat as Hfuel by lia.
  split; [exact Hs|]. split; [exact Hseq|]. split; [exact Hn|].
  split; [exact Hans|]. split; [exact Hfuel|].
  exact (error_free_run_fills_the_file c3_env "out" 4 2 "127.0.0.1" 1000 true
           c3_ss c3_w1 2 2 Hs Hseq Hn Hans Hfuel).
Defined.


(** ** A trigger that is lost for good *)

Lemma write_seconds_raises (i : Z) (v : float) (f : H5File) (e : PyExc) :
  H5.write_seconds i v f = Raise e → is_Exception e = true.
Proof.
  unfold H5.write_seconds, H5.index, Np.index.
  destruct (h5_seconds f) as [col|]; [|by intros [= <-]].
  destruct ((0 <=? _) && (_ <? _)); [discriminate|]. by intros [= <-].
Qed.

Lemma dead_trigger_fails (env : Env) (ss : Session) (i : Z) (w : World) :
  trigger_dead env (w_tick w) →
  ∃ e wa, attempt env ss i w = (Raise e, wa) ∧ is_Exception e = true ∧
          (w_tick w ≤ w_tick wa)%nat.
Proof.
  intros Hdead. unfold attempt, batch, batch_on.
  rewrite bind_run. unfold print. rewrite emit_run.
  rewrite bind_run, now_run. cbn [w_tick w_log w_file w_dim].
  rewrite bind_run, file_op_run. cbn [w_tick w_log w_file w_dim].
  destruct (H5.write_seconds i _ (w_file w)) as [f|e] eqn:Ew.
  - destruct (Hdead (S (w_tick w)) ltac:(lia)) as ((e & Htrig & He) & _).
    rewrite bind_run, scope_call_run. cbn [w_tick w_log w_file w_dim].
    rewrite Htrig. eexists _, _. split; [reflexivity|]. split; [done|].
    simpl. lia.
  - apply write_seconds_raises in Ew.
    eexists _, _. split; [reflexivity|]. split; [done|]. simpl. lia.
Qed.

Lemma dead_trigger_retries (env : Env) (ss : Session) (i : Z) (w : World)
    (s : gmap string string) :
  scopeSets ss = Some s → trigger_dead env (w_tick w) →
  ∃ w2, iteration env ss i w = (Next i, w2) ∧ (w_tick w ≤ w_tick w2)%nat.
Proof.
  intros Hs Hdead.
  destruct (dead_trigger_fails env ss i w Hdead) as (e & wa & Ea & He & Ht).
  destruct (Hdead (w_tick wa) Ht) as (_ & Hclear & _).
  destruct (Hdead (S (w_tick wa)) ltac:(lia)) as (_ & _ & Hset).
  unfold iteration. rewrite Ea, He. unfold recover. rewrite Hs.
  rewrite bind_run. unfold print. rewrite emit_run.
  rewrite bind_run. unfold scope_clear. rewrite scope_call_run.
  cbn [w_tick w_log w_file w_dim]. rewrite Hclear.
  unfold scope_set_settings. rewrite scope_call_run.
  cbn [w_tick w_log w_file w_dim]. rewrite Hset.
  eexists. split; [reflexivity|]. simpl. lia.
Qed.

(** X14.  The loop has no limit on retries.  When every trigger fails with an
    [Exception] while [scope.clear()] and [scope.set_settings(scopeSets)]
    keep returning, every pass ends in the handler of line 126 and comes
    back to the top of the loop with the same cursor: the loop never ends,
    whatever the number of passes. *)
Theorem dead_trigger_is_retried_forever
    (env : Env) (ss : Session) (i : Z) (w : World) (s : gmap string string) :
  scopeSets ss = Some s →
  i < nevents ss →
  trigger_dead env (w_tick w) →
  ∀ fuel, acquire env ss fuel i w = None.
Proof.
  intros Hs Hi Hdead fuel. revert w Hdead.
  induction fuel as [|fuel IH]; intros w Hdead; simpl.
  - destruct (i <? nevents ss) eqn:E; [done|lia].
  - destruct (i <? nevents ss) eqn:E; [|lia].
    destruct (dead_trigger_retries env ss i w s Hs Hdead) as (w2 & Hit & Ht).
    rewrite Hit. apply IH. intros k Hk. apply Hdead. lia.
Qed.

Lemma dead_trigger_is_retried_forever_witness :
  scopeSets deaf_ss = Some c1_sets ∧
  0 < nevents deaf_ss ∧
  trigger_dead deaf_env (w_tick deaf_w1) ∧
  ∀ fuel, acquire deaf_env deaf_ss fuel 0 deaf_w1 = None.
Proof.
  assert (scopeSets deaf_ss = Some c1_sets) as Hs by (vm_compute; reflexivity).
  assert (0 < nevents deaf_ss) as Hi by (vm_compute; reflexivity).
  assert (trigger_dead deaf_env (w_tick deaf_w1)) as Hdead.
  { intros k _. split; [|split; reflexivity].
    exists TimeoutError. split; reflexivity. }
  split; [exact Hs|]. split; [exact Hi|]. split; [exact Hdead|].
  exact (dead_trigger_is_retried_forever deaf_env deaf_ss 0 deaf_w1 c1_sets
           Hs Hi Hdead).
Defined.
